(** * datadog_enum.py: the probe primitive, the section reporters and main

    A shallow embedding of [src/datadog_enum.py] and the properties its
    specification states about it.

    The program is a straight sequence of HTTP probes with console output.
    It is modelled in a state-and-exception monad over a [World] that holds
    the three module globals ([API_KEY], [APP_KEY], [BASE_URL]), the wall
    clock, the log of HTTP requests sent so far and the lines printed to
    standard output.  The network is an oracle [net]: it answers the n-th
    request of a run either with a response or by raising.  The local time
    zone is an oracle [tz]: the offset of local time from UTC, in seconds,
    at each POSIX second.

    What is taken from outside the script:
    - [requests] and [json]: a call ends with a response (status code, body
      text, and what [response.json()] gives) or raises an [Exception] with
      a message;
    - [argparse]: the model starts from the values the three declared
      arguments receive; the check of [--region] against its choices and its
      default are the parser's and are modelled;
    - [datetime]: [datetime.now()] is a naive local datetime, arithmetic on
      it is wall-clock arithmetic, and [.timestamp()] maps it back to POSIX
      time by CPython's search over the local time zone;
    - Python itself (CPython 3.12 or later): truth testing, [dict.get],
      [len], slicing, iteration and [str.join] on the values JSON decoding
      produces, with the exceptions they raise on a value of the wrong type;
      a line of output keeps its f-string fields unexpanded;
    - the console: standard output is a UTF-8 text stream; [print] raises
      [UnicodeEncodeError] on text it cannot encode, which for UTF-8 is text
      with a lone surrogate. *)

From Stdlib Require Import ZArith List String Ascii Bool Lia.
From Stdlib Require Import DecimalString SpecFloat.
Import ListNotations.

Local Open Scope string_scope.
Local Open Scope list_scope.
Local Open Scope Z_scope.

Set Warnings "-register-all".

(** ** Python values

    The values the program handles are the ones [json] decoding produces:
    [None], booleans, integers, floats, strings, lists and dictionaries with
    string keys (insertion ordered).

    A Python [str] is a sequence of code points.  It is held here as the
    bytes of its UTF-8 encoding, one [ascii] per byte; a lone surrogate,
    which JSON decoding can produce from an escape such as [\ud800], is
    held as the three bytes its code point would take ([ED A0 80] to
    [ED BF BF]), which no other code point uses. *)

Inductive value : Type :=
| VNone
| VBool (b : bool)
| VInt (n : Z)
| VFloat (f : spec_float)
| VStr (s : string)
| VList (items : list value)
| VDict (entries : list (string * value)).

(** The exception classes that occur; all of them derive from [Exception]. *)
Inductive exn_class : Type :=
| RequestException
| JSONDecodeError
| AttributeError
| TypeError
| KeyError
| UnboundLocalError
| UnicodeEncodeError.

(** An exception and what [str()] gives for it; for a [UnicodeEncodeError]
    the message is kept to its reason, without the position. *)
Record exn : Type := Exn { exn_class_of : exn_class; exn_msg : string }.

(** [str(n)] for an integer. *)
Definition str_of_Z (n : Z) : string := NilZero.string_of_int (Z.to_int n).

(** [s * n] for a string. *)
Fixpoint str_mul (s : string) (n : nat) : string :=
  match n with
  | O => ""
  | S n' => (s ++ str_mul s n')%string
  end.

Definition str_truthy (s : string) : bool :=
  match s with
  | EmptyString => false
  | String _ _ => true
  end.

(** A byte that continues a code point: [10xxxxxx]. *)
Definition continuation (c : ascii) : bool :=
  match c with
  | Ascii _ _ _ _ _ _ false true => true
  | _ => false
  end.

Definition continues (s : string) : bool :=
  match s with
  | EmptyString => false
  | String c _ => continuation c
  end.

(** The code points of a string, each as the string of its bytes: a byte
    opens a new code point unless it is a continuation byte. *)
Fixpoint code_points (s : string) : list string :=
  match s with
  | EmptyString => []
  | String c s' =>
      match code_points s' with
      | [] => [String c ""]
      | p :: ps => if continues s' then String c p :: ps else String c "" :: p :: ps
      end
  end.

(** [len(s)] and [s[:n]] for a string. *)
Definition str_len (s : string) : nat := List.length (code_points s).

Definition str_slice (s : string) (n : nat) : string :=
  String.concat "" (firstn n (code_points s)).

(** The second byte of a surrogate: [101xxxxx] after the lead byte [ED]. *)
Definition surrogate_second (c : ascii) : bool :=
  match c with
  | Ascii _ _ _ _ _ true false true => true
  | _ => false
  end.

(** Whether a string holds a lone surrogate. *)
Fixpoint has_surrogate (s : string) : bool :=
  match s with
  | EmptyString => false
  | String c s' =>
      match s' with
      | EmptyString => false
      | String d _ =>
          (Ascii.eqb c "237"%char && surrogate_second d) || has_surrogate s'
      end
  end.

Definition type_name (v : value) : string :=
  match v with
  | VNone => "NoneType"
  | VBool _ => "bool"
  | VInt _ => "int"
  | VFloat _ => "float"
  | VStr _ => "str"
  | VList _ => "list"
  | VDict _ => "dict"
  end.

(** Truth value testing, as [if data:] does it. *)
Definition truthy (v : value) : bool :=
  match v with
  | VNone => false
  | VBool b => b
  | VInt n => negb (n =? 0)
  | VFloat (S754_zero _) => false
  | VFloat _ => true
  | VStr s => str_truthy s
  | VList [] => false
  | VList (_ :: _) => true
  | VDict [] => false
  | VDict (_ :: _) => true
  end.

Fixpoint dict_get (d : list (string * value)) (k : string) (default : value) : value :=
  match d with
  | [] => default
  | (k', v) :: d' => if String.eqb k' k then v else dict_get d' k default
  end.

(** [v.get(k, default)]: only a dictionary has the method. *)
Definition py_get (v : value) (k : string) (default : value) : exn + value :=
  match v with
  | VDict d => inr (dict_get d k default)
  | _ => inl (Exn AttributeError
                ("'" ++ type_name v ++ "' object has no attribute 'get'"))
  end.

(** [len(v)]. *)
Definition py_len (v : value) : exn + Z :=
  match v with
  | VStr s => inr (Z.of_nat (str_len s))
  | VList l => inr (Z.of_nat (List.length l))
  | VDict d => inr (Z.of_nat (List.length d))
  | _ => inl (Exn TypeError ("object of type '" ++ type_name v ++ "' has no len()"))
  end.

(** [v[:n]]: lists and strings are sliced; a dictionary looks the slice up
    as a key and does not find it; other values are not subscriptable. *)
Definition py_slice (v : value) (n : nat) : exn + value :=
  match v with
  | VList l => inr (VList (firstn n l))
  | VStr s => inr (VStr (str_slice s n))
  | VDict _ => inl (Exn KeyError ("slice(None, " ++ str_of_Z (Z.of_nat n) ++ ", None)"))
  | _ => inl (Exn TypeError ("'" ++ type_name v ++ "' object is not subscriptable"))
  end.

Definition chars (s : string) : list value := map VStr (code_points s).

(** The items a [for] loop visits. *)
Definition py_iter (v : value) : exn + list value :=
  match v with
  | VList l => inr l
  | VStr s => inr (chars s)
  | VDict d => inr (map (fun kv => VStr (fst kv)) d)
  | _ => inl (Exn TypeError ("'" ++ type_name v ++ "' object is not iterable"))
  end.

Fixpoint join_items (sep : string) (i : nat) (l : list value) : exn + string :=
  match l with
  | [] => inr ""
  | x :: l' =>
      match x with
      | VStr s =>
          match l' with
          | [] => inr s
          | _ :: _ =>
              match join_items sep (S i) l' with
              | inr r => inr (s ++ sep ++ r)%string
              | inl e => inl e
              end
          end
      | _ => inl (Exn TypeError
                    ("sequence item " ++ str_of_Z (Z.of_nat i)
                     ++ ": expected str instance, " ++ type_name x ++ " found"))
      end
  end.

(** [sep.join(v)]. *)
Definition py_join (sep : string) (v : value) : exn + string :=
  match py_iter v with
  | inr l => join_items sep 0 l
  | inl _ => inl (Exn TypeError "can only join an iterable")
  end.

Definition isinstance_list (v : value) : bool :=
  match v with
  | VList _ => true
  | _ => false
  end.

(** ** Formatted text

    An f-string is kept as the sequence of its literal parts and its
    replacement fields; [str()] of a field's value is Python's and is not
    expanded here.  A field is a [Fmt] when its value is the program's own
    (a constant, an argument of the function, a count, the text of an
    exception of [requests] or [json]) and a [Data] when its value was read
    from a decoded body. *)

Inductive piece : Type :=
| Lit (s : string)
| Fmt (v : value)
| Data (v : value).

Definition text_line : Type := list piece.

(** Whether [str()] of a value can be encoded: a string must hold no lone
    surrogate; the text of any other value escapes what it cannot show. *)
Definition printable (v : value) : bool :=
  match v with
  | VStr s => negb (has_surrogate s)
  | _ => true
  end.

(** The text of the program and of the libraries is taken to be encodable;
    a value read from a body need not be. *)
Definition encodable (p : piece) : bool :=
  match p with
  | Data v => printable v
  | _ => true
  end.

Module Colors.
Definition ESC : string := String "027"%char "".
Definition GREEN : value := VStr (ESC ++ "[92m").
Definition RED : value := VStr (ESC ++ "[91m").
Definition YELLOW : value := VStr (ESC ++ "[93m").
Definition BLUE : value := VStr (ESC ++ "[94m").
Definition CYAN : value := VStr (ESC ++ "[96m").
Definition BOLD : value := VStr (ESC ++ "[1m").
Definition END : value := VStr (ESC ++ "[0m").
End Colors.

Definition nl : string := String "010"%char "".

(** ** HTTP *)

Inductive http_method : Type := GET | POST.

Record Request : Type := mkRequest {
  method : http_method;
  url : string;
  headers : list (string * string);
  json_body : option value;
  timeout : Z
}.

(** A response as the program reads it: the status code, the body text, and
    what [response.json()] does (the decoded value, or the message of the
    exception it raises). *)
Record Response : Type := mkResponse {
  status_code : Z;
  text : string;
  json : string + value
}.

Inductive outcome : Type :=
| Responded (r : Response)
| Raised (msg : string).

(** What the network does with one request: the time the call takes
    (microseconds) and how it ends. *)
Record Reply : Type := mkReply {
  elapsed : Z;
  result_of : outcome
}.

(** ** The world and the monad *)

Record World : Type := mkWorld {
  API_KEY : string;
  APP_KEY : string;
  BASE_URL : string;
  clock : Z;                    (* POSIX time, microseconds *)
  calls : list Request;         (* requests sent, oldest first *)
  stdout : list text_line       (* one entry per print call *)
}.

Inductive result (A : Type) : Type :=
| Ok (a : A)
| Raise (e : exn)
| Exit (status : Z).

Arguments Ok {A} a.
Arguments Raise {A} e.
Arguments Exit {A} status.

Definition M (A : Type) : Type := World -> result A * World.

Definition ret {A} (a : A) : M A := fun w => (Ok a, w).

Definition bind {A B} (m : M A) (k : A -> M B) : M B :=
  fun w =>
    match m w with
    | (Ok a, w') => k a w'
    | (Raise e, w') => (Raise e, w')
    | (Exit c, w') => (Exit c, w')
    end.

Definition raise {A} (e : exn) : M A := fun w => (Raise e, w).

(** [sys.exit(c)]: [SystemExit] is not an [Exception]; no handler of the
    program catches it. *)
Definition sys_exit {A} (c : Z) : M A := fun w => (Exit c, w).

(** [try: body except Exception as e: handler(e)]. *)
Definition try_except {A} (body : M A) (handler : exn -> M A) : M A :=
  fun w =>
    match body w with
    | (Raise e, w') => handler e w'
    | other => other
    end.

Definition lift {A} (r : exn + A) : M A :=
  match r with
  | inr a => ret a
  | inl e => raise e
  end.

Definition read {A} (f : World -> A) : M A := fun w => (Ok (f w), w).

Definition when (b : bool) (m : M unit) : M unit := if b then m else ret tt.

Declare Scope monad_scope.
Delimit Scope monad_scope with monad.
Notation "x <- c1 ;; c2" := (bind c1 (fun x => c2))
  (at level 61, c1 at next level, right associativity) : monad_scope.
Notation "' pat <- c1 ;; c2" := (bind c1 (fun x => match x with pat => c2 end))
  (at level 61, pat pattern, c1 at next level, right associativity) : monad_scope.
Notation "c1 ;; c2" := (bind c1 (fun _ => c2))
  (at level 61, right associativity) : monad_scope.
Local Open Scope monad_scope.

Fixpoint for_each {A} (l : list A) (body : A -> M unit) : M unit :=
  match l with
  | [] => ret tt
  | x :: l' => body x ;; for_each l' body
  end.

(** [print(line)]: the line is encoded and written as a whole, or nothing
    is written and [UnicodeEncodeError] is raised. *)
Definition print (line : text_line) : M unit :=
  fun w =>
    if forallb encodable line
    then (Ok tt, mkWorld (API_KEY w) (APP_KEY w) (BASE_URL w) (clock w)
                   (calls w) (stdout w ++ [line]))
    else (Raise (Exn UnicodeEncodeError "surrogates not allowed"), w).

Definition rule : value := VStr (str_mul "=" 60).

Definition print_header (text : string) : M unit :=
  print [Lit nl; Fmt Colors.BOLD; Fmt Colors.CYAN; Fmt rule; Fmt Colors.END] ;;
  print [Fmt Colors.BOLD; Fmt Colors.CYAN; Fmt (VStr text); Fmt Colors.END] ;;
  print [Fmt Colors.BOLD; Fmt Colors.CYAN; Fmt rule; Fmt Colors.END].

(** The lines of [print_success], [print_error], [print_info] and
    [print_warning]: a colour, the mark, the text and the colour reset; the
    pieces of the text stand where the [{text}] field is. *)
Definition success_line (text : text_line) : text_line :=
  [Fmt Colors.GREEN; Lit "[✓] "] ++ text ++ [Fmt Colors.END].

Definition error_line (text : text_line) : text_line :=
  [Fmt Colors.RED; Lit "[✗] "] ++ text ++ [Fmt Colors.END].

Definition info_line (text : text_line) : text_line :=
  [Fmt Colors.BLUE; Lit "[i] "] ++ text ++ [Fmt Colors.END].

Definition warning_line (text : text_line) : text_line :=
  [Fmt Colors.YELLOW; Lit "[!] "] ++ text ++ [Fmt Colors.END].

Definition print_success (text : text_line) : M unit := print (success_line text).
Definition print_error (text : text_line) : M unit := print (error_line text).
Definition print_info (text : text_line) : M unit := print (info_line text).
Definition print_warning (text : text_line) : M unit := print (warning_line text).

(** ** Local time

    A naive [datetime]: the wall-clock reading, in microseconds counted from
    1970-01-01 00:00:00 on the wall clock, and the [fold] attribute that
    tells the two passes through a repeated hour apart. *)

Record datetime : Type := mkDatetime {
  wall : Z;
  fold : bool
}.

Section LocalTime.

(** The offset of local time from UTC, in seconds, at a POSIX second. *)
Variable tz : Z -> Z.

(** The wall-clock second shown at POSIX second [u]. *)
Definition local (u : Z) : Z := u + tz u.

Definition max_fold_seconds : Z := 24 * 3600.

(** [datetime.now()] when the clock reads [c] microseconds: the local
    reading, with [fold] set when the same reading occurred before. *)
Definition datetime_at (c : Z) : datetime :=
  let timet := c / 1000000 in
  let result_seconds := local timet in
  let probe_seconds := local (timet - max_fold_seconds) in
  let transition := result_seconds - probe_seconds - max_fold_seconds in
  mkDatetime (result_seconds * 1000000 + c mod 1000000)
    (if transition <? 0
     then local (timet + transition) =? result_seconds
     else false).

(** [d - timedelta]: arithmetic on the wall clock; the result has
    [fold = 0]. *)
Definition datetime_sub (d : datetime) (delta : Z) : datetime :=
  mkDatetime (wall d - delta) false.

(** The POSIX second at which the wall clock shows second [t]: CPython
    looks for [u] with [local u = t], trying the offset in force around [t]
    and the one in force a day earlier (or later, for [fold = 1]); a
    reading that the wall clock skips is moved across the gap. *)
Definition local_to_seconds (t : Z) (fold : bool) : Z :=
  let a := local t - t in
  let u1 := t - a in
  let t1 := local u1 in
  let u1' := if fold then u1 + max_fold_seconds else u1 - max_fold_seconds in
  let b := if t1 =? t then local u1' - u1' else t1 - u1 in
  if (t1 =? t) && (a =? b) then u1
  else
    let u2 := t - b in
    let t2 := local u2 in
    if t2 =? t then u2
    else if t1 =? t then u1
    else if fold then Z.min u1 u2 else Z.max u1 u2.

(** [d.timestamp()], in microseconds. *)
Definition timestamp (d : datetime) : Z :=
  local_to_seconds (wall d / 1000000) (fold d) * 1000000 + wall d mod 1000000.

End LocalTime.

Definition timedelta_hours (h : Z) : Z := h * 3600 * 1000000.

(** [int(x)] for a time in microseconds taken as seconds: truncation toward
    zero.  The float that [.timestamp()] returns is exact at microsecond
    resolution for present-day clocks. *)
Definition int_timestamp (d : Z) : Z := Z.quot d 1000000.

Section Program.

(** The network: the answer to the request sent as the n-th of the run. *)
Variable net : nat -> Request -> Reply.

(** The local time zone: the UTC offset, in seconds, at a POSIX second. *)
Variable tz : Z -> Z.

(** [datetime.now()]. *)
Definition datetime_now : M datetime := read (fun w => datetime_at tz (clock w)).

Definition send (req : Request) : M Response :=
  fun w =>
    let reply := net (List.length (calls w)) req in
    let w' := mkWorld (API_KEY w) (APP_KEY w) (BASE_URL w)
                (clock w + elapsed reply) (calls w ++ [req]) (stdout w) in
    match result_of reply with
    | Responded r => (Ok r, w')
    | Raised msg => (Raise (Exn RequestException msg), w')
    end.

Definition requests_get (url : string) (headers : list (string * string))
    (timeout : Z) : M Response :=
  send (mkRequest GET url headers None timeout).

Definition requests_post (url : string) (headers : list (string * string))
    (json : option value) (timeout : Z) : M Response :=
  send (mkRequest POST url headers json timeout).

(** [response.json()]. *)
Definition response_json (r : Response) : M value :=
  match json r with
  | inr v => ret v
  | inl msg => raise (Exn JSONDecodeError msg)
  end.

Definition get_headers : M (list (string * string)) :=
  api <- read API_KEY ;;
  app <- read APP_KEY ;;
  let headers := [("DD-API-KEY", api); ("Content-Type", "application/json")] in
  if str_truthy app
  then ret (headers ++ [("DD-APPLICATION-KEY", app)])
  else ret headers.

(** [test_endpoint(name, method, endpoint, data, description)].  With a
    method other than ["GET"] and ["POST"] nothing is sent and [response]
    is read before it is assigned. *)
Definition test_endpoint (name : string) (method : string) (endpoint : string)
    (data : option value) (description : string) : M (bool * value) :=
  try_except
    (base <- read BASE_URL ;;
     let url := (base ++ endpoint)%string in
     response <-
       (if String.eqb method "GET" then
          h <- get_headers ;; requests_get url h 10
        else if String.eqb method "POST" then
          h <- get_headers ;; requests_post url h data 10
        else
          raise (Exn UnboundLocalError
                   "cannot access local variable 'response' where it is not associated with a value")) ;;
     if status_code response =? 200 then
       print_success [Fmt (VStr name); Lit ": ACCESSIBLE"] ;;
       when (str_truthy description)
         (print_info [Lit "  → "; Fmt (VStr description)]) ;;
       body <- (if str_truthy (text response)
                then response_json response
                else ret (VDict [])) ;;
       ret (true, body)
     else if status_code response =? 403 then
       print_error [Fmt (VStr name); Lit ": FORBIDDEN (403)"] ;;
       ret (false, VNone)
     else if status_code response =? 401 then
       print_error [Fmt (VStr name); Lit ": UNAUTHORIZED (401)"] ;;
       ret (false, VNone)
     else if status_code response =? 404 then
       print_warning [Fmt (VStr name); Lit ": NOT FOUND (404)"] ;;
       ret (false, VNone)
     else
       print_warning [Fmt (VStr name); Lit ": Status ";
                      Fmt (VInt (status_code response))] ;;
       ret (false, VNone))
    (fun e =>
       print_error [Fmt (VStr name); Lit ": Error - "; Fmt (VStr (exn_msg e))] ;;
       ret (false, VNone)).

(** ** Section reporters *)

Definition na : value := VStr "N/A".

Definition validate_api_key : M bool :=
  print_header "VALIDATING API KEY" ;;
  '(success, data) <- test_endpoint "API Key Validation" "GET" "/api/v1/validate"
                        None "Confirms the API key is valid" ;;
  when (success && truthy data)
    (valid <- lift (py_get data "valid" (VStr "Unknown")) ;;
     print_info [Lit "  Valid: "; Data valid]) ;;
  ret success.

Definition enumerate_organization : M unit :=
  print_header "ORGANIZATION INFO" ;;
  '(success, data) <- test_endpoint "Organization Details" "GET" "/api/v1/org"
                        None "Organization settings and info" ;;
  when (success && truthy data)
    (org <- lift (py_get data "org" (VDict [])) ;;
     name <- lift (py_get org "name" na) ;;
     print_info [Lit "  Name: "; Data name] ;;
     public_id <- lift (py_get org "public_id" na) ;;
     print_info [Lit "  Public ID: "; Data public_id] ;;
     created <- lift (py_get org "created" na) ;;
     print_info [Lit "  Created: "; Data created]).

Definition enumerate_users : M unit :=
  print_header "USERS" ;;
  '(success, data) <- test_endpoint "List Users" "GET" "/api/v2/users"
                        None "All users in the organization" ;;
  when (success && truthy data)
    (users <- lift (py_get data "data" (VList [])) ;;
     n <- lift (py_len users) ;;
     print_info [Lit "  Found "; Fmt (VInt n); Lit " users"] ;;
     shown <- lift (py_slice users 10) ;;
     items <- lift (py_iter shown) ;;
     for_each items (fun user =>
       attrs <- lift (py_get user "attributes" (VDict [])) ;;
       email <- lift (py_get attrs "email" na) ;;
       status <- lift (py_get attrs "status" na) ;;
       print_info [Lit "    - "; Data email; Lit " ("; Data status; Lit ")"]) ;;
     when (10 <? n)
       (print_info [Lit "    ... and "; Fmt (VInt (n - 10)); Lit " more"])).

Definition enumerate_api_keys : M unit :=
  print_header "API KEYS" ;;
  '(success, data) <- test_endpoint "List API Keys" "GET" "/api/v2/api_keys"
                        None "All API keys in the organization" ;;
  when (success && truthy data)
    (keys <- lift (py_get data "data" (VList [])) ;;
     n <- lift (py_len keys) ;;
     print_info [Lit "  Found "; Fmt (VInt n); Lit " API keys"] ;;
     shown <- lift (py_slice keys 5) ;;
     items <- lift (py_iter shown) ;;
     for_each items (fun key =>
       attrs <- lift (py_get key "attributes" (VDict [])) ;;
       name <- lift (py_get attrs "name" na) ;;
       last4 <- lift (py_get attrs "last4" na) ;;
       print_info [Lit "    - "; Data name; Lit " (Last 4: ..."; Data last4; Lit ")"])).

Definition enumerate_app_keys : M unit :=
  print_header "APPLICATION KEYS" ;;
  '(success, data) <- test_endpoint "List Application Keys" "GET"
                        "/api/v2/application_keys" None "All application keys" ;;
  when (success && truthy data)
    (keys <- lift (py_get data "data" (VList [])) ;;
     n <- lift (py_len keys) ;;
     print_info [Lit "  Found "; Fmt (VInt n); Lit " application keys"]).

Definition enumerate_dashboards : M unit :=
  print_header "DASHBOARDS" ;;
  '(success, data) <- test_endpoint "List Dashboards" "GET" "/api/v1/dashboard"
                        None "All dashboards" ;;
  when (success && truthy data)
    (dashboards <- lift (py_get data "dashboards" (VList [])) ;;
     n <- lift (py_len dashboards) ;;
     print_info [Lit "  Found "; Fmt (VInt n); Lit " dashboards"] ;;
     shown <- lift (py_slice dashboards 5) ;;
     items <- lift (py_iter shown) ;;
     for_each items (fun dash =>
       title <- lift (py_get dash "title" na) ;;
       id <- lift (py_get dash "id" na) ;;
       print_info [Lit "    - "; Data title; Lit " (ID: "; Data id; Lit ")"]) ;;
     when (5 <? n)
       (print_info [Lit "    ... and "; Fmt (VInt (n - 5)); Lit " more"])).

Definition enumerate_monitors : M unit :=
  print_header "MONITORS" ;;
  '(success, data) <- test_endpoint "List Monitors" "GET" "/api/v1/monitor"
                        None "All configured monitors/alerts" ;;
  when (success && truthy data)
    (when (isinstance_list data)
       (n <- lift (py_len data) ;;
        print_info [Lit "  Found "; Fmt (VInt n); Lit " monitors"] ;;
        shown <- lift (py_slice data 5) ;;
        items <- lift (py_iter shown) ;;
        for_each items (fun mon =>
          name <- lift (py_get mon "name" na) ;;
          type <- lift (py_get mon "type" na) ;;
          print_info [Lit "    - "; Data name; Lit " (Type: "; Data type; Lit ")"]) ;;
        when (5 <? n)
          (print_info [Lit "    ... and "; Fmt (VInt (n - 5)); Lit " more"]))).

(** In [data.get('total_matching', len(hosts))] the default is evaluated
    before the call; [data] is already known to be a dictionary there. *)
Definition enumerate_hosts : M unit :=
  print_header "HOSTS" ;;
  '(success, data) <- test_endpoint "List Hosts" "GET" "/api/v1/hosts"
                        None "All monitored hosts" ;;
  when (success && truthy data)
    (hosts <- lift (py_get data "host_list" (VList [])) ;;
     n <- lift (py_len hosts) ;;
     total <- lift (py_get data "total_matching" (VInt n)) ;;
     print_info [Lit "  Total hosts: "; Data total] ;;
     shown <- lift (py_slice hosts 5) ;;
     items <- lift (py_iter shown) ;;
     for_each items (fun host =>
       name <- lift (py_get host "name" na) ;;
       apps <- lift (py_get host "apps" (VList [])) ;;
       apps3 <- lift (py_slice apps 3) ;;
       joined <- lift (py_join ", " apps3) ;;
       print_info [Lit "    - "; Data name; Lit " (Apps: "; Data (VStr joined); Lit ")"]) ;;
     when (5 <? n)
       (print_info [Lit "    ... and more"])).

Definition enumerate_metrics : M unit :=
  print_header "METRICS" ;;
  now <- datetime_now ;;
  '(success, data) <- test_endpoint "List Metrics" "GET"
                        ("/api/v1/metrics?from="
                         ++ str_of_Z (int_timestamp
                                        (timestamp tz
                                           (datetime_sub now (timedelta_hours 1)))))
                        None "Active metrics in the last hour" ;;
  when (success && truthy data)
    (metrics <- lift (py_get data "metrics" (VList [])) ;;
     n <- lift (py_len metrics) ;;
     print_info [Lit "  Found "; Fmt (VInt n); Lit " active metrics"] ;;
     shown <- lift (py_slice metrics 10) ;;
     items <- lift (py_iter shown) ;;
     for_each items (fun metric =>
       print_info [Lit "    - "; Data metric]) ;;
     when (10 <? n)
       (print_info [Lit "    ... and "; Fmt (VInt (n - 10)); Lit " more"])).

Definition integrations : list (string * string) :=
  [("AWS", "/api/v1/integration/aws");
   ("Azure", "/api/v1/integration/azure");
   ("GCP", "/api/v1/integration/gcp");
   ("Slack", "/api/v1/integration/slack");
   ("PagerDuty", "/api/v1/integration/pagerduty");
   ("Webhooks", "/api/v1/integration/webhooks/configuration/webhooks")].

Definition enumerate_integrations : M unit :=
  print_header "INTEGRATIONS" ;;
  for_each integrations (fun '(name, endpoint) =>
    _ <- test_endpoint (name ++ " Integration") "GET" endpoint None "" ;;
    ret tt).

Definition enumerate_logs : M unit :=
  print_header "LOGS" ;;
  _ <- test_endpoint "Log Indexes" "GET" "/api/v1/logs/config/indexes"
         None "Log index configurations" ;;
  _ <- test_endpoint "Log Pipelines" "GET" "/api/v1/logs/config/pipelines"
         None "Log processing pipelines" ;;
  ret tt.

Definition enumerate_apm : M unit :=
  print_header "APM / TRACING" ;;
  _ <- test_endpoint "Services" "GET" "/api/v1/services" None "APM services" ;;
  ret tt.

Definition enumerate_synthetics : M unit :=
  print_header "SYNTHETICS" ;;
  '(success, data) <- test_endpoint "Synthetic Tests" "GET" "/api/v1/synthetics/tests"
                        None "Synthetic monitoring tests" ;;
  when (success && truthy data)
    (tests <- lift (py_get data "tests" (VList [])) ;;
     n <- lift (py_len tests) ;;
     print_info [Lit "  Found "; Fmt (VInt n); Lit " synthetic tests"]).

Definition enumerate_notebooks : M unit :=
  print_header "NOTEBOOKS" ;;
  '(success, data) <- test_endpoint "List Notebooks" "GET" "/api/v1/notebooks"
                        None "All notebooks" ;;
  when (success && truthy data)
    (notebooks <- lift (py_get data "data" (VList [])) ;;
     n <- lift (py_len notebooks) ;;
     print_info [Lit "  Found "; Fmt (VInt n); Lit " notebooks"]).

Definition enumerate_slos : M unit :=
  print_header "SERVICE LEVEL OBJECTIVES (SLOs)" ;;
  '(success, data) <- test_endpoint "List SLOs" "GET" "/api/v1/slo" None "All SLOs" ;;
  when (success && truthy data)
    (slos <- lift (py_get data "data" (VList [])) ;;
     n <- lift (py_len slos) ;;
     print_info [Lit "  Found "; Fmt (VInt n); Lit " SLOs"]).

Definition enumerate_downtimes : M unit :=
  print_header "DOWNTIMES" ;;
  '(success, data) <- test_endpoint "List Downtimes" "GET" "/api/v1/downtime"
                        None "Scheduled downtimes" ;;
  when (success && truthy data)
    (when (isinstance_list data)
       (n <- lift (py_len data) ;;
        print_info [Lit "  Found "; Fmt (VInt n); Lit " downtimes"])).

Definition enumerate_events : M unit :=
  print_header "EVENTS" ;;
  d <- datetime_now ;;
  let now := int_timestamp (timestamp tz d) in
  let start := now - 86400 in
  '(success, data) <- test_endpoint "Recent Events" "GET"
                        ("/api/v1/events?start=" ++ str_of_Z start
                         ++ "&end=" ++ str_of_Z now)
                        None "Events from last 24 hours" ;;
  when (success && truthy data)
    (events <- lift (py_get data "events" (VList [])) ;;
     n <- lift (py_len events) ;;
     print_info [Lit "  Found "; Fmt (VInt n); Lit " events in last 24h"]).

Definition enumerate_security : M unit :=
  print_header "SECURITY" ;;
  _ <- test_endpoint "Security Monitoring Rules" "GET"
         "/api/v2/security_monitoring/rules" None "Security detection rules" ;;
  _ <- test_endpoint "Security Signals" "GET"
         "/api/v2/security_monitoring/signals" None "Security signals/alerts" ;;
  ret tt.

Definition enumerate_rum : M unit :=
  print_header "REAL USER MONITORING (RUM)" ;;
  _ <- test_endpoint "RUM Applications" "GET" "/api/v2/rum/applications"
         None "RUM application configurations" ;;
  ret tt.

Definition enumerate_service_accounts : M unit :=
  print_header "SERVICE ACCOUNTS" ;;
  _ <- test_endpoint "Service Accounts" "GET" "/api/v2/service_accounts"
         None "Service accounts" ;;
  ret tt.

Definition enumerate_roles : M unit :=
  print_header "ROLES & PERMISSIONS" ;;
  '(success, data) <- test_endpoint "List Roles" "GET" "/api/v2/roles"
                        None "RBAC roles" ;;
  when (success && truthy data)
    (roles <- lift (py_get data "data" (VList [])) ;;
     n <- lift (py_len roles) ;;
     print_info [Lit "  Found "; Fmt (VInt n); Lit " roles"] ;;
     shown <- lift (py_slice roles 5) ;;
     items <- lift (py_iter shown) ;;
     for_each items (fun role =>
       attrs <- lift (py_get role "attributes" (VDict [])) ;;
       name <- lift (py_get attrs "name" na) ;;
       print_info [Lit "    - "; Data name])).

(** ** Command line and main *)

Definition __author__ : string := "l0lsec".
Definition __version__ : string := "1.0.0".
Definition __github__ : string := "https://github.com/l0lsec".

(** The values the command line gives to the three declared arguments; the
    tokenisation of [sys.argv] is argparse's. *)
Record CommandLine : Type := mkCommandLine {
  cl_api_key : option string;
  cl_app_key : option string;
  cl_region : option string
}.

Record Namespace : Type := mkNamespace {
  api_key : option string;
  app_key : option string;
  region : string
}.

Definition region_choices : list string := ["us1"; "us3"; "us5"; "eu"; "ap1"].

Definition str_in (s : string) (l : list string) : bool :=
  existsb (String.eqb s) l.

(** [parser.parse_args()]: [--region] has the default ["us1"] and is checked
    against its choices; on a value outside them the parser reports the
    error and leaves with status 2. *)
Definition parse_args (argv : CommandLine) : M Namespace :=
  match cl_region argv with
  | None => ret (mkNamespace (cl_api_key argv) (cl_app_key argv) "us1")
  | Some r =>
      if str_in r region_choices
      then ret (mkNamespace (cl_api_key argv) (cl_app_key argv) r)
      else sys_exit 2
  end.

Definition set_API_KEY (v : string) : M unit :=
  fun w => (Ok tt, mkWorld v (APP_KEY w) (BASE_URL w) (clock w) (calls w) (stdout w)).

Definition set_APP_KEY (v : string) : M unit :=
  fun w => (Ok tt, mkWorld (API_KEY w) v (BASE_URL w) (clock w) (calls w) (stdout w)).

Definition set_BASE_URL (v : string) : M unit :=
  fun w => (Ok tt, mkWorld (API_KEY w) (APP_KEY w) v (clock w) (calls w) (stdout w)).

Definition regions : list (string * string) :=
  [("us1", "https://api.datadoghq.com");
   ("us3", "https://api.us3.datadoghq.com");
   ("us5", "https://api.us5.datadoghq.com");
   ("eu", "https://api.datadoghq.eu");
   ("ap1", "https://api.ap1.datadoghq.com")].

Fixpoint regions_get (d : list (string * string)) (k : string) (default : string) : string :=
  match d with
  | [] => default
  | (k', v) :: d' => if String.eqb k' k then v else regions_get d' k default
  end.

Definition banner : text_line :=
  [Lit "
";
   Fmt Colors.BOLD;
   Fmt Colors.CYAN;
   Lit "
    ██████╗  █████╗ ████████╗ █████╗ ██████╗  ██████╗  ██████╗ 
    ██╔══██╗██╔══██╗╚══██╔══╝██╔══██╗██╔══██╗██╔═══██╗██╔════╝ 
    ██║  ██║███████║   ██║   ███████║██║  ██║██║   ██║██║  ███╗
    ██║  ██║██╔══██║   ██║   ██╔══██║██║  ██║██║   ██║██║   ██║
    ██████╔╝██║  ██║   ██║   ██║  ██║██████╔╝╚██████╔╝╚██████╔╝
    ╚═════╝ ╚═╝  ╚═╝   ╚═╝   ╚═╝  ╚═╝╚═════╝  ╚═════╝  ╚═════╝ 
                                                               
    ███████╗███╗   ██╗██╗   ██╗███╗   ███╗███████╗██████╗      
    ██╔════╝████╗  ██║██║   ██║████╗ ████║██╔════╝██╔══██╗     
    █████╗  ██╔██╗ ██║██║   ██║██╔████╔██║█████╗  ██████╔╝     
    ██╔══╝  ██║╚██╗██║██║   ██║██║╚██╔╝██║██╔══╝  ██╔══██╗     
    ███████╗██║ ╚████║╚██████╔╝██║ ╚═╝ ██║███████╗██║  ██║     
    ╚══════╝╚═╝  ╚═══╝ ╚═════╝ ╚═╝     ╚═╝╚══════╝╚═╝  ╚═╝     
";
   Fmt Colors.END;
   Lit "
";
   Fmt Colors.YELLOW;
   Lit "    ╔══════════════════════════════════════════════════════════╗
    ║  Datadog API Key Enumeration Tool v";
   Fmt (VStr __version__);
   Lit "                  ║
    ║  Author: ";
   Fmt (VStr __author__);
   Lit "                                         ║
    ║  GitHub: github.com/l0lsec                                 ║
    ╚══════════════════════════════════════════════════════════╝";
   Fmt Colors.END;
   Lit "
"].

Definition main (argv : CommandLine) : M unit :=
  args <- parse_args argv ;;
  match api_key args with
  | Some k => when (str_truthy k) (set_API_KEY k)
  | None => ret tt
  end ;;
  match app_key args with
  | Some k => when (str_truthy k) (set_APP_KEY k)
  | None => ret tt
  end ;;
  api <- read API_KEY ;;
  when (negb (str_truthy api))
    (print [Fmt Colors.RED; Lit "Error: API Key is required"; Fmt Colors.END] ;;
     print [Lit "Usage: python3 datadog_enum.py <API_KEY> [APP_KEY] [--region REGION]"] ;;
     print [Lit "Or set DD_API_KEY environment variable"] ;;
     sys_exit 1) ;;
  set_BASE_URL (regions_get regions (region args) "https://api.datadoghq.com") ;;
  print banner ;;
  base <- read BASE_URL ;;
  print_info [Lit "Using API endpoint: "; Fmt (VStr base)] ;;
  app <- read APP_KEY ;;
  when (negb (str_truthy app))
    (print_warning [Lit "No Application Key provided - some endpoints may be inaccessible"] ;;
     print_warning [Lit "API keys can only submit data, Application keys are needed to read data"]) ;;
  valid <- validate_api_key ;;
  when (negb valid)
    (print_error [Lit "API Key validation failed. Check your key and try again."] ;;
     sys_exit 1) ;;
  enumerate_organization ;;
  enumerate_users ;;
  enumerate_api_keys ;;
  enumerate_app_keys ;;
  enumerate_roles ;;
  enumerate_service_accounts ;;
  enumerate_hosts ;;
  enumerate_metrics ;;
  enumerate_dashboards ;;
  enumerate_monitors ;;
  enumerate_events ;;
  enumerate_downtimes ;;
  enumerate_slos ;;
  enumerate_notebooks ;;
  enumerate_logs ;;
  enumerate_apm ;;
  enumerate_synthetics ;;
  enumerate_rum ;;
  enumerate_integrations ;;
  enumerate_security ;;
  print_header "ENUMERATION COMPLETE" ;;
  print_info [Lit "Review the results above to see what your API key can access"] ;;
  print_info [Lit "Green [✓] = Accessible, Red [✗] = Forbidden/Unauthorized"].

End Program.

(** [os.environ.get(key, default)]. *)
Fixpoint os_environ_get (environ : list (string * string)) (key default : string) : string :=
  match environ with
  | [] => default
  | (k, v) :: rest => if String.eqb k key then v else os_environ_get rest key default
  end.

(** The state in which [main] starts: the module-level assignments have run,
    nothing has been sent or printed. *)
Definition module_init (environ : list (string * string)) (now : Z) : World :=
  mkWorld (os_environ_get environ "DD_API_KEY" "")
          (os_environ_get environ "DD_APP_KEY" "")
          "https://api.datadoghq.com"
          now [] [].

(** One run of the script. *)
Definition run (net : nat -> Request -> Reply) (tz : Z -> Z)
    (environ : list (string * string)) (now : Z) (argv : CommandLine)
    : result unit * World :=
  main net tz argv (module_init environ now).

(** The status the process leaves with: 0 when [main] returns, the argument
    of [sys.exit], and 1 when an exception reaches the top level. *)
Definition exit_status (r : result unit) : Z :=
  match r with
  | Ok _ => 0
  | Exit c => c
  | Raise _ => 1
  end.

(** * Vocabulary of the properties *)

(** ** Observations on a world *)

(** The headers [get_headers] builds from the two keys. *)
Definition headers_for (api app : string) : list (string * string) :=
  [("DD-API-KEY", api); ("Content-Type", "application/json")]
  ++ (if str_truthy app then [("DD-APPLICATION-KEY", app)] else []).

(** The name by which [test_endpoint] is told a method. *)
Definition method_name (m : http_method) : string :=
  match m with
  | GET => "GET"
  | POST => "POST"
  end.

(** The request [test_endpoint] sends from world [w]. *)
Definition request_of (w : World) (m : http_method) (endpoint : string)
    (data : option value) : Request :=
  mkRequest m (BASE_URL w ++ endpoint) (headers_for (API_KEY w) (APP_KEY w))
    (match m with GET => None | POST => data end) 10.

Definition probe_request (w : World) (endpoint : string) : Request :=
  request_of w GET endpoint None.

(** The time an hour before the clock reading [c], and the time of the
    reading itself, as the metrics and the events reporter compute them in
    time zone [tz], in seconds. *)
Definition metrics_from (tz : Z -> Z) (c : Z) : Z :=
  int_timestamp (timestamp tz (datetime_sub (datetime_at tz c) (timedelta_hours 1))).

Definition events_now (tz : Z -> Z) (c : Z) : Z :=
  int_timestamp (timestamp tz (datetime_at tz c)).


(** The endpoints of the two time-windowed probes, by the value of [from]
    and of [end]. *)
Definition metrics_endpoint (from : Z) : string :=
  "/api/v1/metrics?from=" ++ str_of_Z from.

Definition events_endpoint (now : Z) : string :=
  "/api/v1/events?start=" ++ str_of_Z (now - 86400) ++ "&end=" ++ str_of_Z now.

(** [w] after more lines were printed. *)
Definition say (w : World) (ls : list text_line) : World :=
  mkWorld (API_KEY w) (APP_KEY w) (BASE_URL w) (clock w) (calls w) (stdout w ++ ls).

(** [w] after a request was sent and answered. *)
Definition sent (w : World) (req : Request) (reply : Reply) : World :=
  mkWorld (API_KEY w) (APP_KEY w) (BASE_URL w) (clock w + elapsed reply)
    (calls w ++ [req]) (stdout w).

(** The title a line carries when it is the middle line of [print_header]:
    two colour fields, the text, a colour field; the rules around it have
    the same shape and are left out. *)
Definition title_of (l : text_line) : option string :=
  match l with
  | [Fmt _; Fmt _; Fmt (VStr t); Fmt _] =>
      if String.eqb t (str_mul "=" 60) then None else Some t
  | _ => None
  end.

Fixpoint titles_in (ls : list text_line) : list string :=
  match ls with
  | [] => []
  | l :: ls' =>
      match title_of l with
      | Some t => t :: titles_in ls'
      | None => titles_in ls'
      end
  end.

(** The section headers printed so far, in order. *)
Definition titles (w : World) : list string := titles_in (stdout w).

(** What [test_endpoint] returns, by the way the request ends. *)
Definition probe_value (o : outcome) : bool * value :=
  match o with
  | Raised _ => (false, VNone)
  | Responded r =>
      if status_code r =? 200 then
        if str_truthy (text r) then
          match json r with
          | inr v => (true, v)
          | inl _ => (false, VNone)
          end
        else (true, VDict [])
      else (false, VNone)
  end.

(** What [test_endpoint] prints, by the way the request ends. *)
Definition probe_lines (name description : string) (o : outcome) : list text_line :=
  match o with
  | Raised msg =>
      [error_line [Fmt (VStr name); Lit ": Error - "; Fmt (VStr msg)]]
  | Responded r =>
      if status_code r =? 200 then
        [success_line [Fmt (VStr name); Lit ": ACCESSIBLE"]]
        ++ (if str_truthy description
            then [info_line [Lit "  → "; Fmt (VStr description)]] else [])
        ++ (if str_truthy (text r) then
              match json r with
              | inr _ => []
              | inl msg =>
                  [error_line [Fmt (VStr name); Lit ": Error - "; Fmt (VStr msg)]]
              end
            else [])
      else if status_code r =? 403 then
        [error_line [Fmt (VStr name); Lit ": FORBIDDEN (403)"]]
      else if status_code r =? 401 then
        [error_line [Fmt (VStr name); Lit ": UNAUTHORIZED (401)"]]
      else if status_code r =? 404 then
        [warning_line [Fmt (VStr name); Lit ": NOT FOUND (404)"]]
      else
        [warning_line [Fmt (VStr name); Lit ": Status "; Fmt (VInt (status_code r))]]
  end.

(** A probe that does not come back with status 200: forbidden,
    unauthorized, not found, another status, or a transport error. *)
Definition probe_fails (o : outcome) : bool :=
  match o with
  | Raised _ => true
  | Responded r => negb (status_code r =? 200)
  end.

(** ** Footprints

    How far a piece of the program can change the world: the globals stay,
    the request log grows by probes of known endpoints, the printed section
    headers grow by known titles. *)

Definition Extends (w w' : World) (endpoints titles' : list string) : Prop :=
  API_KEY w' = API_KEY w /\ APP_KEY w' = APP_KEY w /\ BASE_URL w' = BASE_URL w
  /\ calls w' = calls w ++ map (probe_request w) endpoints
  /\ titles w' = titles w ++ titles'.

Definition no_exit {A} (r : result A) : Prop := forall c, r <> Exit c.

(** [m] sends probes to [endpoints], prints no header and never leaves
    through [sys.exit]. *)
Definition Foot {A} (m : M A) (endpoints : list string) : Prop :=
  forall w, Extends w (snd (m w)) endpoints [] /\ no_exit (fst (m w)).

(** [m] prints at most. *)
Definition Silent {A} (m : M A) : Prop := Foot m [].

(** [m] always returns. *)
Definition Steady {A} (m : M A) : Prop := forall w, exists a, fst (m w) = Ok a.

(** The three lines of [print_header]. *)
Definition headed (w : World) (title : string) : World :=
  say (say (say w
    [[Lit nl; Fmt Colors.BOLD; Fmt Colors.CYAN; Fmt rule; Fmt Colors.END]])
    [[Fmt Colors.BOLD; Fmt Colors.CYAN; Fmt (VStr title); Fmt Colors.END]])
    [[Fmt Colors.BOLD; Fmt Colors.CYAN; Fmt rule; Fmt Colors.END]].

(** An answer that leaves a reporter nothing to summarise: the probe did
    not come back accessible, or its body counts as false. *)
Definition nothing_to_report (o : outcome) : bool :=
  negb (fst (probe_value o) && truthy (snd (probe_value o))).

(** The last request of [w] was answered with an accessible body that
    counts as true. *)
Definition stopped_on_answer (net : nat -> Request -> Reply) (w : World) : Prop :=
  exists earlier q body,
    calls w = earlier ++ [q]
    /\ probe_value (result_of (net (List.length earlier) q)) = (true, body)
    /\ truthy body = true.

(** The exceptions of a body that is not what the program expects: a
    method or an operation that the value's type does not have, a slice
    taken of a dictionary, text that cannot be printed. *)
Definition misread (e : exn) : Prop :=
  exn_class_of e = AttributeError \/ exn_class_of e = TypeError
  \/ exn_class_of e = KeyError \/ exn_class_of e = UnicodeEncodeError.

(** What every section reporter does: it prints its header once, probes its
    endpoints ([endpoints], which may embed the clock read at entry), never
    calls [sys.exit], returns normally when its probes give nothing to
    summarise, and raises only while summarising an accessible answer that
    it misreads. *)
Definition SectionSpec (net : nat -> Request -> Reply) (R : M unit) (title : string) (endpoints : Z -> list string) : Prop :=
  forall w,
    Extends w (snd (R w)) (endpoints (clock w)) [title]
    /\ no_exit (fst (R w))
    /\ ((forall n req, (List.length (calls w) <= n)%nat ->
                       nothing_to_report (result_of (net n req)) = true) ->
        fst (R w) = Ok tt)
    /\ (forall e, fst (R w) = Raise e ->
          stopped_on_answer net (snd (R w)) /\ misread e).

(** ** The sequence of reporters in [main] *)

Record section_info : Type := mkSection {
  sec_run : M unit;
  sec_title : string;
  sec_endpoints : Z -> list string
}.

(** The reporters in the order [main] calls them, each with the header it
    prints and the endpoints it probes. *)
Definition sections (net : nat -> Request -> Reply) (tz : Z -> Z) : list section_info :=
  [ mkSection (enumerate_organization net) "ORGANIZATION INFO" (fun _ => ["/api/v1/org"]);
    mkSection (enumerate_users net) "USERS" (fun _ => ["/api/v2/users"]);
    mkSection (enumerate_api_keys net) "API KEYS" (fun _ => ["/api/v2/api_keys"]);
    mkSection (enumerate_app_keys net) "APPLICATION KEYS"
      (fun _ => ["/api/v2/application_keys"]);
    mkSection (enumerate_roles net) "ROLES & PERMISSIONS" (fun _ => ["/api/v2/roles"]);
    mkSection (enumerate_service_accounts net) "SERVICE ACCOUNTS"
      (fun _ => ["/api/v2/service_accounts"]);
    mkSection (enumerate_hosts net) "HOSTS" (fun _ => ["/api/v1/hosts"]);
    mkSection (enumerate_metrics net tz) "METRICS"
      (fun c => [metrics_endpoint (metrics_from tz c)]);
    mkSection (enumerate_dashboards net) "DASHBOARDS" (fun _ => ["/api/v1/dashboard"]);
    mkSection (enumerate_monitors net) "MONITORS" (fun _ => ["/api/v1/monitor"]);
    mkSection (enumerate_events net tz) "EVENTS"
      (fun c => [events_endpoint (events_now tz c)]);
    mkSection (enumerate_downtimes net) "DOWNTIMES" (fun _ => ["/api/v1/downtime"]);
    mkSection (enumerate_slos net) "SERVICE LEVEL OBJECTIVES (SLOs)"
      (fun _ => ["/api/v1/slo"]);
    mkSection (enumerate_notebooks net) "NOTEBOOKS" (fun _ => ["/api/v1/notebooks"]);
    mkSection (enumerate_logs net) "LOGS"
      (fun _ => ["/api/v1/logs/config/indexes"; "/api/v1/logs/config/pipelines"]);
    mkSection (enumerate_apm net) "APM / TRACING" (fun _ => ["/api/v1/services"]);
    mkSection (enumerate_synthetics net) "SYNTHETICS"
      (fun _ => ["/api/v1/synthetics/tests"]);
    mkSection (enumerate_rum net) "REAL USER MONITORING (RUM)"
      (fun _ => ["/api/v2/rum/applications"]);
    mkSection (enumerate_integrations net) "INTEGRATIONS" (fun _ => map snd integrations);
    mkSection (enumerate_security net) "SECURITY"
      (fun _ => ["/api/v2/security_monitoring/rules";
                 "/api/v2/security_monitoring/signals"]) ].

(** [m1 ;; m2 ;; ... ;; final]. *)
Fixpoint seq (l : list (M unit)) (final : M unit) : M unit :=
  match l with
  | [] => final
  | m :: l' => m ;; seq l' final
  end.

(** The endpoints probed by sections that ran, each entered at its clock. *)
Definition endpoints_of (ran : list (section_info * Z)) : list string :=
  flat_map (fun sc => sec_endpoints (fst sc) (snd sc)) ran.

(** No request from the k-th on gives a reporter anything to summarise. *)
Definition quiet_from (net : nat -> Request -> Reply) (k : nat) : Prop :=
  forall n req, (k <= n)%nat -> nothing_to_report (result_of (net n req)) = true.

(** ** The stages of [main] *)

(** What [parse_args] accepts. *)
Definition namespace_of (argv : CommandLine) : option Namespace :=
  match cl_region argv with
  | None => Some (mkNamespace (cl_api_key argv) (cl_app_key argv) "us1")
  | Some r =>
      if str_in r region_choices
      then Some (mkNamespace (cl_api_key argv) (cl_app_key argv) r)
      else None
  end.

(** The globals after the two assignments from the command line. *)
Definition with_keys (args : Namespace) (w : World) : World :=
  mkWorld
    (match api_key args with
     | Some k => if str_truthy k then k else API_KEY w
     | None => API_KEY w
     end)
    (match app_key args with
     | Some k => if str_truthy k then k else APP_KEY w
     | None => APP_KEY w
     end)
    (BASE_URL w) (clock w) (calls w) (stdout w).

Definition with_base_url (args : Namespace) (w : World) : World :=
  mkWorld (API_KEY w) (APP_KEY w)
    (regions_get regions (region args) "https://api.datadoghq.com")
    (clock w) (calls w) (stdout w).

(** The world after the three lines printed when no API key is known. *)
Definition usage_shown (w : World) : World :=
  say (say (say w
    [[Fmt Colors.RED; Lit "Error: API Key is required"; Fmt Colors.END]])
    [[Lit "Usage: python3 datadog_enum.py <API_KEY> [APP_KEY] [--region REGION]"]])
    [[Lit "Or set DD_API_KEY environment variable"]].

(** The world after the lines printed between the region lookup and the
    first probe. *)
Definition greeted (w : World) : World :=
  let w' := say (say w [banner])
              [info_line [Lit "Using API endpoint: "; Fmt (VStr (BASE_URL w))]] in
  if str_truthy (APP_KEY w) then w'
  else say (say w'
         [warning_line
            [Lit "No Application Key provided - some endpoints may be inaccessible"]])
         [warning_line
            [Lit "API keys can only submit data, Application keys are needed to read data"]].

Definition closing : M unit :=
  print_header "ENUMERATION COMPLETE" ;;
  print_info [Lit "Review the results above to see what your API key can access"] ;;
  print_info [Lit "Green [✓] = Accessible, Red [✗] = Forbidden/Unauthorized"].

(** The twenty reporters and the closing banner, as [main] runs them. *)
Definition enumeration (net : nat -> Request -> Reply) (tz : Z -> Z) : M unit :=
  seq (map sec_run (sections net tz)) closing.

(** [main] from the validation probe on. *)
Definition probing_phase (net : nat -> Request -> Reply) (tz : Z -> Z) : M unit :=
  valid <- validate_api_key net ;;
  when (negb valid)
    (print_error [Lit "API Key validation failed. Check your key and try again."] ;;
     sys_exit 1) ;;
  enumeration net tz.

(** The exception [print] raises. *)
Definition unprintable : exn := Exn UnicodeEncodeError "surrogates not allowed".

(** The validation probe is accessible and [validate_api_key] can read its
    body: a dictionary whose ['valid'] entry can be printed, or a value
    that counts as false. *)
Definition validation_passes (o : outcome) : bool :=
  match probe_value o with
  | (true, VDict d) => printable (dict_get d "valid" (VStr "Unknown"))
  | (true, d) => negb (truthy d)
  | (false, _) => false
  end.

(** The world after the closing banner. *)
Definition closed (w : World) : World :=
  say (say (headed w "ENUMERATION COMPLETE")
    [info_line [Lit "Review the results above to see what your API key can access"]])
    [info_line [Lit "Green [✓] = Accessible, Red [✗] = Forbidden/Unauthorized"]].

Definition validation_failed_line : text_line :=
  error_line [Lit "API Key validation failed. Check your key and try again."].

(** The keys in force once the command line has been read. *)
Definition resolved_api_key (environ : list (string * string)) (argv : CommandLine) : string :=
  match cl_api_key argv with
  | Some k => if str_truthy k then k else os_environ_get environ "DD_API_KEY" ""
  | None => os_environ_get environ "DD_API_KEY" ""
  end.

Definition resolved_app_key (environ : list (string * string)) (argv : CommandLine) : string :=
  match cl_app_key argv with
  | Some k => if str_truthy k then k else os_environ_get environ "DD_APP_KEY" ""
  | None => os_environ_get environ "DD_APP_KEY" ""
  end.

(** The world in which the first probe is sent. *)
Definition ready (environ : list (string * string)) (now : Z) (args : Namespace) : World :=
  greeted (with_base_url args (with_keys args (module_init environ now))).

(** The headers [main] prints in a run that goes through. *)
Definition all_titles : list string :=
  [ "VALIDATING API KEY"; "ORGANIZATION INFO"; "USERS"; "API KEYS"; "APPLICATION KEYS";
    "ROLES & PERMISSIONS"; "SERVICE ACCOUNTS"; "HOSTS"; "METRICS"; "DASHBOARDS";
    "MONITORS"; "EVENTS"; "DOWNTIMES"; "SERVICE LEVEL OBJECTIVES (SLOs)"; "NOTEBOOKS";
    "LOGS"; "APM / TRACING"; "SYNTHETICS"; "REAL USER MONITORING (RUM)"; "INTEGRATIONS";
    "SECURITY"; "ENUMERATION COMPLETE" ].

(** The endpoints [main] probes in a run that goes through; the metrics
    probe asks for the time from [t_metrics] on, the events probe for the
    day that ends at [t_events]. *)
Definition all_endpoints (t_metrics t_events : Z) : list string :=
  [ "/api/v1/validate"; "/api/v1/org"; "/api/v2/users"; "/api/v2/api_keys";
    "/api/v2/application_keys"; "/api/v2/roles"; "/api/v2/service_accounts";
    "/api/v1/hosts"; metrics_endpoint t_metrics; "/api/v1/dashboard"; "/api/v1/monitor";
    events_endpoint t_events; "/api/v1/downtime"; "/api/v1/slo"; "/api/v1/notebooks";
    "/api/v1/logs/config/indexes"; "/api/v1/logs/config/pipelines"; "/api/v1/services";
    "/api/v1/synthetics/tests"; "/api/v2/rum/applications";
    "/api/v1/integration/aws"; "/api/v1/integration/azure"; "/api/v1/integration/gcp";
    "/api/v1/integration/slack"; "/api/v1/integration/pagerduty";
    "/api/v1/integration/webhooks/configuration/webhooks";
    "/api/v2/security_monitoring/rules"; "/api/v2/security_monitoring/signals" ].

(** The first request of a run that has a key. *)
Definition validation_request (environ : list (string * string)) (argv : CommandLine)
    (args : Namespace) : Request :=
  mkRequest GET
    (regions_get regions (region args) "https://api.datadoghq.com" ++ "/api/v1/validate")
    (headers_for (resolved_api_key environ argv) (resolved_app_key environ argv))
    None 10.

(** ** Networks and answers used as concrete inputs *)

(** The same reply to every request. *)
Definition always (reply : Reply) : nat -> Request -> Reply := fun _ _ => reply.

(** [first] to the validation probe, [later] to every other request. *)
Definition first_then (first later : Reply) : nat -> Request -> Reply :=
  fun n _ => match n with O => first | S _ => later end.

Definition replied (status : Z) (text : string) (json : string + value) : Reply :=
  mkReply 120000 (Responded (mkResponse status text json)).

(** The body Datadog gives a valid key. *)
Definition valid_reply : Reply :=
  replied 200 "{...}" (inr (VDict [("valid", VBool true)])).

(** A page that is not JSON, served with status 200. *)
Definition html_reply : Reply :=
  replied 200 "<html>" (inl "Expecting value: line 1 column 1 (char 0)").

Definition forbidden_reply : Reply :=
  replied 403 "{...}" (inr (VDict [("errors", VList [VStr "Forbidden"])])).

Definition dns_failure : Reply :=
  mkReply 30000 (Raised "Failed to resolve 'api.datadoghq.com'").

(** Local time is UTC. *)
Definition utc : Z -> Z := fun _ => 0.


(** The world in which a run starts when the environment gives the API key
    ["k"] and no application key. *)
Definition keyed_world : World := module_init [("DD_API_KEY", "k")] 1700000000000000.

(** A network that validates the key, answers the users probe (the third
    request) with a JSON array, and forbids everything else. *)
Definition users_as_array : nat -> Request -> Reply :=
  fun n _ =>
    match n with
    | 0%nat => valid_reply
    | 2%nat => replied 200 "[...]" (inr (VList [VStr "alice@example.com"]))
    | _ => forbidden_reply
    end.

(** A network that validates the key and answers the hosts probe (the
    eighth request) with a host list that is a number. *)
Definition hosts_as_number : nat -> Request -> Reply :=
  fun n _ =>
    match n with
    | 0%nat => valid_reply
    | 7%nat => replied 200 "{...}" (inr (VDict [("host_list", VInt 7)]))
    | _ => forbidden_reply
    end.

(** ** Collection summaries *)

(** The reporters that list the items of a collection. *)
Inductive collection : Type :=
| Users | ApiKeys | Roles | Dashboards | Monitors | Hosts | Metrics.

Definition reporter (net : nat -> Request -> Reply) (tz : Z -> Z) (c : collection) : M unit :=
  match c with
  | Users => enumerate_users net
  | ApiKeys => enumerate_api_keys net
  | Roles => enumerate_roles net
  | Dashboards => enumerate_dashboards net
  | Monitors => enumerate_monitors net
  | Hosts => enumerate_hosts net
  | Metrics => enumerate_metrics net tz
  end.

Definition endpoint_of (tz : Z -> Z) (c : collection) (now : Z) : string :=
  match c with
  | Users => "/api/v2/users"
  | ApiKeys => "/api/v2/api_keys"
  | Roles => "/api/v2/roles"
  | Dashboards => "/api/v1/dashboard"
  | Monitors => "/api/v1/monitor"
  | Hosts => "/api/v1/hosts"
  | Metrics => metrics_endpoint (metrics_from tz now)
  end.

(** How many items a reporter shows. *)
Definition cap (c : collection) : nat :=
  match c with
  | Users | Metrics => 10
  | ApiKeys | Roles | Dashboards | Monitors | Hosts => 5
  end.

(** The key under which the body holds the collection; the monitors body
    is the collection itself. *)
Definition collection_key (c : collection) : option string :=
  match c with
  | Users | ApiKeys | Roles => Some "data"
  | Dashboards => Some "dashboards"
  | Hosts => Some "host_list"
  | Metrics => Some "metrics"
  | Monitors => None
  end.

Definition collection_of (c : collection) (body : value) : option (list value) :=
  match collection_key c, body with
  | Some k, VDict d =>
      match dict_get d k (VList []) with
      | VList items => Some items
      | _ => None
      end
  | None, VList items => Some items
  | _, _ => None
  end.

Definition is_dict (v : value) : bool :=
  match v with
  | VDict _ => true
  | _ => false
  end.

(** [item.get(k, 'N/A')] and [item.get('attributes', {})] of a dictionary. *)
Definition field (item : value) (k : string) : value :=
  match item with
  | VDict d => dict_get d k na
  | _ => na
  end.

Definition attributes (item : value) : value :=
  match item with
  | VDict d => dict_get d "attributes" (VDict [])
  | _ => VDict []
  end.

(** [', '.join(host.get('apps', [])[:3])], when it is defined. *)
Definition apps_text (item : value) : option string :=
  match item with
  | VDict d =>
      match py_slice (dict_get d "apps" (VList [])) 3 with
      | inr shown =>
          match py_join ", " shown with
          | inr s => Some s
          | inl _ => None
          end
      | inl _ => None
      end
  | _ => None
  end.

(** The items a reporter can print: dictionaries, with a dictionary of
    attributes or a list of application names where the reporter reads
    one, and with text that can be printed in the fields it shows; a metric
    is printed whatever it is, if it can be printed. *)
Definition item_ok (c : collection) (item : value) : bool :=
  match c with
  | Users =>
      is_dict item && is_dict (attributes item)
      && printable (field (attributes item) "email")
      && printable (field (attributes item) "status")
  | ApiKeys =>
      is_dict item && is_dict (attributes item)
      && printable (field (attributes item) "name")
      && printable (field (attributes item) "last4")
  | Roles =>
      is_dict item && is_dict (attributes item)
      && printable (field (attributes item) "name")
  | Dashboards =>
      is_dict item && printable (field item "title") && printable (field item "id")
  | Monitors =>
      is_dict item && printable (field item "name") && printable (field item "type")
  | Hosts =>
      match apps_text item with
      | Some s => printable (field item "name") && printable (VStr s)
      | None => false
      end
  | Metrics => printable item
  end.

(** The line a reporter prints for an item. *)
Definition item_line (c : collection) (item : value) : text_line :=
  match c with
  | Users =>
      [Fmt Colors.BLUE; Lit "[i] "; Lit "    - "; Data (field (attributes item) "email");
       Lit " ("; Data (field (attributes item) "status"); Lit ")"; Fmt Colors.END]
  | ApiKeys =>
      [Fmt Colors.BLUE; Lit "[i] "; Lit "    - "; Data (field (attributes item) "name");
       Lit " (Last 4: ..."; Data (field (attributes item) "last4"); Lit ")";
       Fmt Colors.END]
  | Roles =>
      [Fmt Colors.BLUE; Lit "[i] "; Lit "    - "; Data (field (attributes item) "name");
       Fmt Colors.END]
  | Dashboards =>
      [Fmt Colors.BLUE; Lit "[i] "; Lit "    - "; Data (field item "title");
       Lit " (ID: "; Data (field item "id"); Lit ")"; Fmt Colors.END]
  | Monitors =>
      [Fmt Colors.BLUE; Lit "[i] "; Lit "    - "; Data (field item "name");
       Lit " (Type: "; Data (field item "type"); Lit ")"; Fmt Colors.END]
  | Hosts =>
      [Fmt Colors.BLUE; Lit "[i] "; Lit "    - "; Data (field item "name");
       Lit " (Apps: ";
       Data (VStr (match apps_text item with Some s => s | None => "" end));
       Lit ")"; Fmt Colors.END]
  | Metrics => [Fmt Colors.BLUE; Lit "[i] "; Lit "    - "; Data item; Fmt Colors.END]
  end.

(** The total the hosts reporter shows: the body's ['total_matching'], or
    the number of hosts when the body has none. *)
Definition hosts_total (body : value) (n : Z) : value :=
  match body with
  | VDict d => dict_get d "total_matching" (VInt n)
  | _ => VInt n
  end.

(** Whether the count a reporter shows can be printed: it is a number,
    but for the hosts reporter, which shows a value of the body. *)
Definition count_ok (c : collection) (body : value) (n : Z) : bool :=
  match c with
  | Hosts => printable (hosts_total body n)
  | _ => true
  end.

(** The first line of a summary: the number of items. *)
Definition count_line (c : collection) (body : value) (n : Z) : text_line :=
  match c with
  | Users =>
      [Fmt Colors.BLUE; Lit "[i] "; Lit "  Found "; Fmt (VInt n); Lit " users";
       Fmt Colors.END]
  | ApiKeys =>
      [Fmt Colors.BLUE; Lit "[i] "; Lit "  Found "; Fmt (VInt n); Lit " API keys";
       Fmt Colors.END]
  | Roles =>
      [Fmt Colors.BLUE; Lit "[i] "; Lit "  Found "; Fmt (VInt n); Lit " roles";
       Fmt Colors.END]
  | Dashboards =>
      [Fmt Colors.BLUE; Lit "[i] "; Lit "  Found "; Fmt (VInt n); Lit " dashboards";
       Fmt Colors.END]
  | Monitors =>
      [Fmt Colors.BLUE; Lit "[i] "; Lit "  Found "; Fmt (VInt n); Lit " monitors";
       Fmt Colors.END]
  | Hosts =>
      [Fmt Colors.BLUE; Lit "[i] "; Lit "  Total hosts: "; Data (hosts_total body n);
       Fmt Colors.END]
  | Metrics =>
      [Fmt Colors.BLUE; Lit "[i] "; Lit "  Found "; Fmt (VInt n); Lit " active metrics";
       Fmt Colors.END]
  end.

(** What a reporter says after a truncated list: the remainder, counted;
    that there are more, uncounted; or nothing. *)
Inductive trailer_kind : Type := Remainder | AndMore | NoTrailer.

Definition trailer (c : collection) : trailer_kind :=
  match c with
  | Users | Metrics | Dashboards | Monitors => Remainder
  | Hosts => AndMore
  | ApiKeys | Roles => NoTrailer
  end.

(** The lines a reporter prints after its header (three lines) and the two
    lines of an accessible probe. *)
Definition summary_of (R : M unit) (w : World) : list text_line :=
  skipn (List.length (stdout w) + 5) (stdout (snd (R w))).

(** The trailing lines the code prints, by the number of items. *)
Definition printed_trailer (c : collection) (n : Z) : list text_line :=
  match c with
  | Users | Metrics =>
      if 10 <? n
      then [[Fmt Colors.BLUE; Lit "[i] "; Lit "    ... and "; Fmt (VInt (n - 10));
             Lit " more"; Fmt Colors.END]]
      else []
  | Dashboards | Monitors =>
      if 5 <? n
      then [[Fmt Colors.BLUE; Lit "[i] "; Lit "    ... and "; Fmt (VInt (n - 5));
             Lit " more"; Fmt Colors.END]]
      else []
  | Hosts =>
      if 5 <? n
      then [[Fmt Colors.BLUE; Lit "[i] "; Lit "    ... and more"; Fmt Colors.END]]
      else []
  | ApiKeys | Roles => []
  end.

(** Twelve hosts, and twelve API keys. *)
Definition twelve_hosts : list value :=
  map (fun i => VDict [("name", VStr ("web-" ++ str_of_Z i));
                       ("apps", VList [VStr "nginx"; VStr "agent"])])
      [1; 2; 3; 4; 5; 6; 7; 8; 9; 10; 11; 12].

Definition twelve_keys : list value :=
  map (fun i => VDict [("attributes",
                        VDict [("name", VStr ("key-" ++ str_of_Z i));
                               ("last4", VStr "abcd")])])
      [1; 2; 3; 4; 5; 6; 7; 8; 9; 10; 11; 12].

(** Twelve users, and three. *)
Definition twelve_users : list value :=
  map (fun i => VDict [("attributes",
                        VDict [("email", VStr ("user" ++ str_of_Z i ++ "@example.com"));
                               ("status", VStr "Active")])])
      [1; 2; 3; 4; 5; 6; 7; 8; 9; 10; 11; 12].

(** ** How a run can end, and what it prints first *)

(** The three lines of [print_header]. *)
Definition header_lines (title : string) : list text_line :=
  [ [Lit nl; Fmt Colors.BOLD; Fmt Colors.CYAN; Fmt (VStr (str_mul "=" 60)); Fmt Colors.END];
    [Fmt Colors.BOLD; Fmt Colors.CYAN; Fmt (VStr title); Fmt Colors.END];
    [Fmt Colors.BOLD; Fmt Colors.CYAN; Fmt (VStr (str_mul "=" 60)); Fmt Colors.END] ].

Definition typed {A} (r : exn + A) : Prop :=
  forall e, r = inl e -> misread e.

(** [m] only adds to the output, and an exception that leaves it is one of
    a misread value. *)
Definition Tame {A} (m : M A) : Prop :=
  forall w,
    (exists ls, stdout (snd (m w)) = stdout w ++ ls)
    /\ (forall e, fst (m w) = Raise e -> misread e).

(** ** Reporters that count *)

(** The reporters that print the size of a collection and nothing else. *)
Inductive tally : Type :=
| AppKeys | Synthetics | Notebooks | Slos | Events.

Definition tally_reporter (net : nat -> Request -> Reply) (tz : Z -> Z) (t : tally) : M unit :=
  match t with
  | AppKeys => enumerate_app_keys net
  | Synthetics => enumerate_synthetics net
  | Notebooks => enumerate_notebooks net
  | Slos => enumerate_slos net
  | Events => enumerate_events net tz
  end.

Definition tally_endpoint (tz : Z -> Z) (t : tally) (now : Z) : string :=
  match t with
  | AppKeys => "/api/v2/application_keys"
  | Synthetics => "/api/v1/synthetics/tests"
  | Notebooks => "/api/v1/notebooks"
  | Slos => "/api/v1/slo"
  | Events => events_endpoint (events_now tz now)
  end.

Definition tally_key (t : tally) : string :=
  match t with
  | AppKeys | Notebooks | Slos => "data"
  | Synthetics => "tests"
  | Events => "events"
  end.

Definition tally_noun (t : tally) : string :=
  match t with
  | AppKeys => " application keys"
  | Synthetics => " synthetic tests"
  | Notebooks => " notebooks"
  | Slos => " SLOs"
  | Events => " events in last 24h"
  end.

(** The reporters that summarise what their probe returns. *)
Definition summarising_reporters (net : nat -> Request -> Reply) (tz : Z -> Z)
    : list (M unit) :=
  [ enumerate_organization net; enumerate_users net; enumerate_api_keys net;
    enumerate_app_keys net; enumerate_roles net; enumerate_hosts net;
    enumerate_metrics net tz; enumerate_dashboards net; enumerate_monitors net;
    enumerate_events net tz; enumerate_downtimes net; enumerate_slos net;
    enumerate_notebooks net; enumerate_synthetics net ].

(** The same reporters, each with its header, the name it gives its probe
    and the description it gives it. *)
Definition summarising_probes (net : nat -> Request -> Reply) (tz : Z -> Z)
    : list (M unit * string * string * string) :=
  [ (enumerate_organization net, "ORGANIZATION INFO", "Organization Details",
     "Organization settings and info");
    (enumerate_users net, "USERS", "List Users", "All users in the organization");
    (enumerate_api_keys net, "API KEYS", "List API Keys",
     "All API keys in the organization");
    (enumerate_app_keys net, "APPLICATION KEYS", "List Application Keys",
     "All application keys");
    (enumerate_roles net, "ROLES & PERMISSIONS", "List Roles", "RBAC roles");
    (enumerate_hosts net, "HOSTS", "List Hosts", "All monitored hosts");
    (enumerate_metrics net tz, "METRICS", "List Metrics",
     "Active metrics in the last hour");
    (enumerate_dashboards net, "DASHBOARDS", "List Dashboards", "All dashboards");
    (enumerate_monitors net, "MONITORS", "List Monitors",
     "All configured monitors/alerts");
    (enumerate_events net tz, "EVENTS", "Recent Events", "Events from last 24 hours");
    (enumerate_downtimes net, "DOWNTIMES", "List Downtimes", "Scheduled downtimes");
    (enumerate_slos net, "SERVICE LEVEL OBJECTIVES (SLOs)", "List SLOs", "All SLOs");
    (enumerate_notebooks net, "NOTEBOOKS", "List Notebooks", "All notebooks");
    (enumerate_synthetics net, "SYNTHETICS", "Synthetic Tests",
     "Synthetic monitoring tests") ].

(** The reporters that cannot raise. *)
Definition safe_reporters (net : nat -> Request -> Reply) : list (M unit) :=
  [ enumerate_service_accounts net; enumerate_logs net; enumerate_apm net;
    enumerate_rum net; enumerate_integrations net; enumerate_security net;
    enumerate_downtimes net ].

(** ** Answers a reporter can read *)

(** What a reporter does with the body of an accessible answer: nothing
    that can go wrong ([Unread]: the body is not looked at, or only its
    being a list is), or the summary of the organization, of a collection,
    of a count. *)
Inductive shape : Type :=
| Unread
| OrgInfo
| Listing (c : collection)
| Count (t : tally).

(** The values [len] accepts. *)
Definition sized (v : value) : bool :=
  match v with
  | VStr _ | VList _ | VDict _ => true
  | _ => false
  end.

(** A body the reporter can summarise: for the organization, a dictionary
    whose ['org'] entry (when present) is a dictionary with printable name,
    public id and creation date; for a collection, a body that holds a list
    (under the reporter's key) whose shown items the reporter can print, or,
    for the monitors, a body that is no list at all; for a count, a
    dictionary that holds something with a size under the reporter's key. *)
Definition readable (sh : shape) (body : value) : bool :=
  match sh with
  | Unread => true
  | OrgInfo =>
      match body with
      | VDict d =>
          match dict_get d "org" (VDict []) with
          | VDict org =>
              printable (dict_get org "name" na)
              && printable (dict_get org "public_id" na)
              && printable (dict_get org "created" na)
          | _ => false
          end
      | _ => false
      end
  | Listing c =>
      match collection_of c body with
      | Some items =>
          count_ok c body (Z.of_nat (List.length items))
          && forallb (item_ok c) (firstn (cap c) items)
      | None =>
          match c with
          | Monitors => true
          | _ => false
          end
      end
  | Count t =>
      match body with
      | VDict d => sized (dict_get d (tally_key t) (VList []))
      | _ => false
      end
  end.

(** An answer that cannot make the reporter raise: the probe did not come
    back accessible, or its body counts as false, or the reporter can read
    it. *)
Definition acceptable (sh : shape) (o : outcome) : bool :=
  match probe_value o with
  | (true, body) => negb (truthy body) || readable sh body
  | (false, _) => true
  end.

(** What the reporters do with the answers to the 27 requests that follow
    the validation probe, in the order of the requests. *)
Definition later_shapes : list shape :=
  [ OrgInfo; Listing Users; Listing ApiKeys; Count AppKeys; Listing Roles; Unread;
    Listing Hosts; Listing Metrics; Listing Dashboards; Listing Monitors; Count Events;
    Unread; Count Slos; Count Notebooks; Unread; Unread; Unread; Count Synthetics; Unread;
    Unread; Unread; Unread; Unread; Unread; Unread; Unread; Unread ].

(** [R] returns when the answers to its probes are acceptable: the i-th of
    them for the i-th of [shapes]. *)
Definition Reads (net : nat -> Request -> Reply) (R : M unit) (shapes : list shape) : Prop :=
  forall w,
    (forall i sh req,
       nth_error shapes i = Some sh ->
       acceptable sh (result_of (net (List.length (calls w) + i)%nat req)) = true) ->
    fst (R w) = Ok tt.

(** A network that validates the key, lists twelve users, twelve hosts and
    one monitor, and forbids everything else. *)
Definition sample_network : nat -> Request -> Reply :=
  fun n _ =>
    match n with
    | 0%nat => valid_reply
    | 2%nat => replied 200 "{...}" (inr (VDict [("data", VList twelve_users)]))
    | 7%nat => replied 200 "{...}" (inr (VDict [("host_list", VList twelve_hosts)]))
    | 10%nat =>
        replied 200 "[...]"
          (inr (VList [VDict [("name", VStr "CPU load"); ("type", VStr "metric alert")]]))
    | _ => forbidden_reply
    end.


(** * Reasoning about runs *)

(** ** The probe primitive *)

Lemma say_say w l1 l2 : say (say w l1) l2 = say w (l1 ++ l2).
Proof. unfold say; simpl. now rewrite <- app_assoc. Qed.

Lemma say_nil w : say w [] = w.
Proof. destruct w; unfold say; simpl. now rewrite app_nil_r. Qed.

Lemma get_headers_eq w : get_headers w = (Ok (headers_for (API_KEY w) (APP_KEY w)), w).
Proof.
  unfold get_headers, headers_for, bind, read, ret.
  destruct (str_truthy (APP_KEY w)); simpl; now rewrite ?app_nil_r.
Qed.

Lemma print_eq l w : forallb encodable l = true -> print l w = (Ok tt, say w [l]).
Proof. intros H. unfold print. now rewrite H. Qed.

Lemma print_info_eq t w :
  print_info t w
  = if forallb encodable t then (Ok tt, say w [info_line t]) else (Raise unprintable, w).
Proof.
  unfold print_info, print, info_line.
  rewrite forallb_app, forallb_app. cbn [forallb encodable andb].
  rewrite andb_true_r. reflexivity.
Qed.

(** With a method it knows, [test_endpoint] always returns; what it returns
    and prints is decided by the way the one request it sends ends. *)
Lemma test_endpoint_method net name m endpoint data description w :
  let req := request_of w m endpoint data in
  let reply := net (List.length (calls w)) req in
  test_endpoint net name (method_name m) endpoint data description w
  = (Ok (probe_value (result_of reply)),
     say (sent w req reply) (probe_lines name description (result_of reply))).
Proof.
  intros req reply.
  unfold test_endpoint, try_except.
  unfold bind at 1. unfold read at 1.
  assert (Hcall :
    (if String.eqb (method_name m) "GET"
     then bind get_headers (fun h => requests_get net (BASE_URL w ++ endpoint) h 10)
     else if String.eqb (method_name m) "POST"
     then bind get_headers (fun h => requests_post net (BASE_URL w ++ endpoint) h data 10)
     else raise (Exn UnboundLocalError
                   "cannot access local variable 'response' where it is not associated with a value")) w
    = match result_of reply with
      | Responded r => (Ok r, sent w req reply)
      | Raised msg => (Raise (Exn RequestException msg), sent w req reply)
      end).
  { subst reply req. unfold request_of.
    destruct m; cbn [method_name String.eqb Ascii.eqb Bool.eqb];
      unfold bind; rewrite get_headers_eq;
      unfold requests_get, requests_post, send, sent; simpl; reflexivity. }
  unfold bind at 1. rewrite Hcall. clear Hcall.
  destruct (result_of reply) as [r | msg]; simpl.
  - destruct (status_code r =? 200).
    + unfold bind, print_success, print_info, print, when, ret, response_json, raise,
        print_error, say, sent; simpl.
      destruct (str_truthy description); simpl;
        destruct (str_truthy (text r)); simpl;
        try (destruct (json r) as [msg | v]; simpl);
        rewrite <- ?app_assoc; reflexivity.
    + destruct (status_code r =? 403); [|destruct (status_code r =? 401);
        [|destruct (status_code r =? 404)]];
        unfold bind, print_error, print_warning, print, ret, say, sent; simpl; reflexivity.
  - unfold bind, print_error, print, ret, say, sent; simpl. reflexivity.
Qed.

(** The probes of the program are GETs. *)
Lemma test_endpoint_eq net name endpoint data description w :
  let req := request_of w GET endpoint data in
  let reply := net (List.length (calls w)) req in
  test_endpoint net name "GET" endpoint data description w
  = (Ok (probe_value (result_of reply)),
     say (sent w req reply) (probe_lines name description (result_of reply))).
Proof. exact (test_endpoint_method net name GET endpoint data description w). Qed.

(** With any other method nothing is sent. *)
Lemma test_endpoint_other net name method endpoint data description w :
  method <> "GET" -> method <> "POST" ->
  test_endpoint net name method endpoint data description w
  = (Ok (false, VNone),
     say w [error_line
              [Fmt (VStr name); Lit ": Error - ";
               Fmt (VStr "cannot access local variable 'response' where it is not associated with a value")]]).
Proof.
  intros Hg Hp. unfold test_endpoint, try_except.
  unfold bind at 1. unfold read at 1. unfold bind at 1.
  apply String.eqb_neq in Hg, Hp. rewrite Hg, Hp.
  unfold raise. cbv beta iota. reflexivity.
Qed.

(** ** Footprints *)

Lemma titles_in_app l1 l2 : titles_in (l1 ++ l2) = titles_in l1 ++ titles_in l2.
Proof.
  induction l1 as [|l l1 IH]; simpl; [reflexivity|].
  destruct (title_of l); simpl; now rewrite IH.
Qed.

Lemma Extends_refl w : Extends w w [] [].
Proof. unfold Extends; simpl. now rewrite !app_nil_r. Qed.

Lemma probe_request_ext w w' :
  API_KEY w' = API_KEY w -> APP_KEY w' = APP_KEY w -> BASE_URL w' = BASE_URL w ->
  forall ep, probe_request w' ep = probe_request w ep.
Proof. intros Ha Hb Hc ep. unfold probe_request, request_of. now rewrite Ha, Hb, Hc. Qed.

Lemma Extends_trans w1 w2 w3 e1 e2 t1 t2 :
  Extends w1 w2 e1 t1 -> Extends w2 w3 e2 t2 -> Extends w1 w3 (e1 ++ e2) (t1 ++ t2).
Proof.
  intros (Ha & Hb & Hc & Hd & He) (Ha' & Hb' & Hc' & Hd' & He').
  unfold Extends. repeat split; try congruence.
  - rewrite Hd', Hd, map_app, <- app_assoc. do 2 f_equal.
    apply map_ext. intros ep. now apply probe_request_ext.
  - now rewrite He', He, <- app_assoc.
Qed.

Lemma Extends_step w1 w2 w3 e1 e2 t1 t2 e t :
  Extends w1 w2 e1 t1 -> Extends w2 w3 e2 t2 ->
  e = (e1 ++ e2)%list -> t = (t1 ++ t2)%list -> Extends w1 w3 e t.
Proof. intros H1 H2 -> ->. eapply Extends_trans; eassumption. Qed.

Lemma Extends_say w ls : titles_in ls = [] -> Extends w (say w ls) [] [].
Proof.
  intros H. unfold Extends, say, titles; simpl.
  now rewrite titles_in_app, H, !app_nil_r.
Qed.

Lemma foot_ret {A} (a : A) : Silent (ret a).
Proof. intros w; split; [apply Extends_refl | intros c; discriminate]. Qed.

Lemma foot_raise {A} (e : exn) : Silent (@raise A e).
Proof. intros w; split; [apply Extends_refl | intros c; discriminate]. Qed.

Lemma foot_lift {A} (r : exn + A) : Silent (lift r).
Proof. destruct r; [apply foot_raise | apply foot_ret]. Qed.

Lemma foot_read {A} (f : World -> A) : Silent (read f).
Proof. intros w; split; [apply Extends_refl | intros c; discriminate]. Qed.

Lemma foot_print l : title_of l = None -> Silent (print l).
Proof.
  intros H w. unfold print. destruct (forallb encodable l); cbn [fst snd].
  - split; [|intros c; discriminate].
    apply (Extends_say w [l]). simpl. now rewrite H.
  - split; [apply Extends_refl | intros c; discriminate].
Qed.

Lemma foot_print_info t : Silent (print_info t).
Proof. apply foot_print. reflexivity. Qed.

Lemma foot_print_warning t : Silent (print_warning t).
Proof. apply foot_print. reflexivity. Qed.

Lemma foot_print_error t : Silent (print_error t).
Proof. apply foot_print. reflexivity. Qed.

Lemma foot_print_success t : Silent (print_success t).
Proof. apply foot_print. reflexivity. Qed.

(** Sequencing when the second part sends nothing. *)
Lemma foot_bind_silent {A B} (m : M A) (k : A -> M B) e :
  Foot m e -> (forall a, Silent (k a)) -> Foot (bind m k) e.
Proof.
  intros Hm Hk w. unfold bind.
  destruct (Hm w) as [He Hx]. destruct (m w) as [[a | ex | c] w1]; simpl in *.
  - destruct (Hk a w1) as [He' Hx']. split; [|exact Hx'].
    rewrite <- (app_nil_r e), <- (app_nil_r (@nil string)).
    eapply Extends_trans; eassumption.
  - split; [exact He | intros c; discriminate].
  - exfalso. now apply (Hx c).
Qed.

(** Sequencing when the first part always returns. *)
Lemma foot_bind_steady {A B} (m : M A) (k : A -> M B) e1 e2 :
  Foot m e1 -> Steady m -> (forall a, Foot (k a) e2) -> Foot (bind m k) (e1 ++ e2).
Proof.
  intros Hm Hs Hk w. unfold bind.
  destruct (Hm w) as [He _]. destruct (Hs w) as [a Ha].
  destruct (m w) as [r w1]; simpl in *; subst r.
  destruct (Hk a w1) as [He' Hx']. split; [|exact Hx'].
  rewrite <- (app_nil_r (@nil string)).
  eapply Extends_trans; eassumption.
Qed.

Lemma steady_bind {A B} (m : M A) (k : A -> M B) :
  Steady m -> (forall a, Steady (k a)) -> Steady (bind m k).
Proof.
  intros Hm Hk w. unfold bind. destruct (Hm w) as [a Ha].
  destruct (m w) as [r w1]; simpl in *; subst r. apply Hk.
Qed.

Lemma steady_ret {A} (a : A) : Steady (ret a).
Proof. intros w; now exists a. Qed.

Lemma foot_when b (m : M unit) : Silent m -> Silent (when b m).
Proof. destruct b; simpl; [trivial | intros _; apply foot_ret]. Qed.

Lemma foot_for_each {A} (l : list A) (body : A -> M unit) :
  (forall x, Silent (body x)) -> Silent (for_each l body).
Proof.
  intros H. induction l as [|x l IH]; simpl; [apply foot_ret|].
  apply foot_bind_silent; [apply H | intros _; exact IH].
Qed.

Lemma titles_probe_lines name description o :
  titles_in (probe_lines name description o) = [].
Proof.
  destruct o as [r | msg]; simpl; [|reflexivity].
  destruct (status_code r =? 200).
  - destruct (str_truthy description), (str_truthy (text r)); simpl;
      try destruct (json r); reflexivity.
  - destruct (status_code r =? 403); [reflexivity|].
    destruct (status_code r =? 401); [reflexivity|].
    destruct (status_code r =? 404); reflexivity.
Qed.

Lemma probe_fails_value o : probe_fails o = true -> fst (probe_value o) = false.
Proof.
  destruct o as [r | msg]; simpl; [|reflexivity].
  destruct (status_code r =? 200); [discriminate | reflexivity].
Qed.

Lemma probe_value_false o : fst (probe_value o) = false -> probe_value o = (false, VNone).
Proof.
  destruct o as [r | msg]; simpl; [|reflexivity].
  destruct (status_code r =? 200); [|reflexivity].
  destruct (str_truthy (text r)); [|discriminate].
  destruct (json r); [reflexivity | discriminate].
Qed.

(** ** What can leave a piece of the program *)

Ltac misread_class := unfold misread; cbn [exn_class_of]; auto 6.

Lemma typed_py_get v k d : typed (py_get v k d).
Proof. intros e. destruct v; cbn; intros [= <-]; misread_class. Qed.

Lemma typed_py_len v : typed (py_len v).
Proof. intros e. destruct v; cbn; intros [= <-]; misread_class. Qed.

Lemma typed_py_slice v n : typed (py_slice v n).
Proof. intros e. destruct v; cbn [py_slice]; intros [= <-]; misread_class. Qed.

Lemma typed_py_iter v : typed (py_iter v).
Proof. intros e. destruct v; cbn; intros [= <-]; misread_class. Qed.

Lemma typed_join_items sep l : forall i, typed (join_items sep i l).
Proof.
  induction l as [|x l IH]; intros i e; cbn; [discriminate|].
  destruct x; try (intros [= <-]; misread_class).
  destruct l as [|y l]; [discriminate|].
  destruct (join_items sep (S i) (y :: l)) as [e'|r] eqn:E; [|discriminate].
  intros [= <-]. exact (IH (S i) e' E).
Qed.

Lemma typed_py_join sep v : typed (py_join sep v).
Proof.
  intros e. unfold py_join. destruct (py_iter v) as [e'|l].
  - intros [= <-]. misread_class.
  - apply typed_join_items.
Qed.

Lemma tame_ret {A} (a : A) : Tame (ret a).
Proof. intros w. split; [exists []; cbn; now rewrite app_nil_r | discriminate]. Qed.

Lemma tame_read {A} (f : World -> A) : Tame (read f).
Proof. intros w. split; [exists []; cbn; now rewrite app_nil_r | discriminate]. Qed.

Lemma tame_sys_exit {A} c : Tame (@sys_exit A c).
Proof. intros w. split; [exists []; cbn; now rewrite app_nil_r | discriminate]. Qed.

Lemma tame_lift {A} (r : exn + A) : typed r -> Tame (lift r).
Proof.
  intros H w. split; [exists []; destruct r; cbn; now rewrite app_nil_r|].
  destruct r as [e'|a]; cbn; [|discriminate]. intros e [= <-]. now apply H.
Qed.

Lemma tame_print l : Tame (print l).
Proof.
  intros w. unfold print. destruct (forallb encodable l); cbn [fst snd stdout].
  - split; [exists [l]; reflexivity | discriminate].
  - split; [exists []; now rewrite app_nil_r | intros e [= <-]; misread_class].
Qed.

Lemma tame_bind {A B} (m : M A) (k : A -> M B) :
  Tame m -> (forall a, Tame (k a)) -> Tame (bind m k).
Proof.
  intros Hm Hk w. unfold bind. destruct (Hm w) as [[ls Hls] He].
  destruct (m w) as [[a | e | c] w1]; cbn [fst snd] in *.
  - destruct (Hk a w1) as [[ls' Hls'] He']. split; [|exact He'].
    exists (ls ++ ls'). now rewrite Hls', Hls, app_assoc.
  - split; [now exists ls|]. intros e' [= <-]. now apply He.
  - split; [now exists ls | discriminate].
Qed.

Lemma tame_when b (m : M unit) : Tame m -> Tame (when b m).
Proof. destruct b; cbn; [trivial | intros _; apply tame_ret]. Qed.

Lemma tame_for_each {A} (l : list A) (body : A -> M unit) :
  (forall x, Tame (body x)) -> Tame (for_each l body).
Proof.
  intros H. induction l as [|x l IH]; cbn; [apply tame_ret|].
  apply tame_bind; [apply H | intros _; exact IH].
Qed.

Lemma tame_test_endpoint net name endpoint data description :
  Tame (test_endpoint net name "GET" endpoint data description).
Proof.
  intros w. rewrite test_endpoint_eq. cbv zeta. cbn [fst snd say sent stdout].
  split; [eauto | discriminate].
Qed.

Ltac split_pair x :=
  lazymatch type of x with
  | prod _ _ => destruct x as [? ?]
  | _ => idtac
  end.

Ltac tame :=
  repeat first
    [ apply tame_ret | apply tame_read | apply tame_sys_exit
    | apply tame_test_endpoint | apply tame_print
    | apply tame_lift;
      first [ apply typed_py_get | apply typed_py_len | apply typed_py_slice
            | apply typed_py_iter | apply typed_py_join ]
    | apply tame_when
    | apply tame_for_each; let x := fresh "x" in intros x; split_pair x
    | apply tame_bind; [| let x := fresh "x" in intros x; split_pair x] ].

Section Footprints.

Variable net : nat -> Request -> Reply.

Lemma foot_test_endpoint name endpoint description :
  Foot (test_endpoint net name "GET" endpoint None description) [endpoint].
Proof.
  intros w. rewrite test_endpoint_eq. simpl. split; [|intros c; discriminate].
  unfold Extends, titles; simpl.
  rewrite titles_in_app, titles_probe_lines, app_nil_r. repeat split; reflexivity.
Qed.

Lemma steady_test_endpoint name endpoint data description :
  Steady (test_endpoint net name "GET" endpoint data description).
Proof. intros w. rewrite test_endpoint_eq. simpl. eauto. Qed.

Lemma print_header_eq title w : print_header title w = (Ok tt, headed w title).
Proof. reflexivity. Qed.

Lemma titles_in_one l :
  titles_in [l] = match title_of l with Some t => [t] | None => [] end.
Proof. reflexivity. Qed.

Lemma title_of_rule a b c : title_of [Fmt a; Fmt b; Fmt rule; Fmt c] = None.
Proof. reflexivity. Qed.

Lemma title_of_title a b c title :
  String.eqb title (str_mul "=" 60) = false ->
  title_of [Fmt a; Fmt b; Fmt (VStr title); Fmt c] = Some title.
Proof. intros H. unfold title_of. now rewrite H. Qed.

Lemma Extends_headed w title :
  String.eqb title (str_mul "=" 60) = false -> Extends w (headed w title) [] [title].
Proof.
  intros H. unfold Extends, headed, say, titles.
  cbn [API_KEY APP_KEY BASE_URL calls stdout map].
  rewrite !titles_in_app, !titles_in_one, title_of_rule, (title_of_title _ _ _ _ H).
  cbn [title_of]. rewrite !app_nil_r. repeat split; reflexivity.
Qed.

Lemma nothing_to_report_pair o s d :
  probe_value o = (s, d) -> nothing_to_report o = negb (s && truthy d).
Proof. unfold nothing_to_report. now intros ->. Qed.

(** A reporter that probes one endpoint and summarises the answer. *)
Lemma summarising_section R title name (endpoint : Z -> string) description
    (K : bool * value -> M unit) :
  String.eqb title (str_mul "=" 60) = false ->
  (forall w, R w = bind (test_endpoint net name "GET" (endpoint (clock w)) None description)
                     K (headed w title)) ->
  (forall r, Silent (K r)) ->
  (forall r, Tame (K r)) ->
  (forall s d w, s && truthy d = false -> K (s, d) w = (Ok tt, w)) ->
  SectionSpec net R title (fun c => [endpoint c]).
Proof.
  intros Ht HR HK HT Hskip w. rewrite HR.
  pose proof (foot_bind_steady _ K [endpoint (clock w)] []
                (foot_test_endpoint name (endpoint (clock w)) description)
                (steady_test_endpoint name (endpoint (clock w)) None description)
                HK (headed w title)) as [He Hx].
  split; [|split; [|split]].
  - change [title] with ([title] ++ [])%list.
    change [endpoint (clock w)] with ([] ++ ([endpoint (clock w)] ++ []))%list.
    eapply Extends_trans; [apply Extends_headed; exact Ht | exact He].
  - exact Hx.
  - intros Hquiet. unfold bind. rewrite test_endpoint_eq. cbv zeta.
    specialize (Hquiet (List.length (calls w))
                  (request_of (headed w title) GET (endpoint (clock w)) None)
                  (Nat.le_refl _)).
    change (calls (headed w title)) with (calls w).
    unfold nothing_to_report in Hquiet. revert Hquiet.
    destruct (probe_value _) as [s d]. cbn [fst snd]. intros Hquiet.
    apply negb_true_iff in Hquiet. now rewrite Hskip.
  - intros e. unfold bind. rewrite test_endpoint_eq. cbv zeta.
    set (req := request_of (headed w title) GET (endpoint (clock w)) None).
    set (reply := net (List.length (calls (headed w title))) req).
    destruct (probe_value (result_of reply)) as [s d] eqn:Hv.
    set (w1 := say (sent (headed w title) req reply)
                 (probe_lines name description (result_of reply))).
    cbv beta iota.
    destruct (s && truthy d) eqn:Hsd.
    + intros Hr. split; [|exact (proj2 (HT (s, d) w1) e Hr)].
      destruct (HK (s, d) w1) as [(_ & _ & _ & Hc & _) _].
      apply andb_true_iff in Hsd as [-> Hd].
      exists (calls (headed w title)), req, d.
      split; [|split; [exact Hv | exact Hd]].
      rewrite Hc. cbn [map]. now rewrite app_nil_r.
    + rewrite (Hskip s d w1 Hsd). discriminate.
Qed.

(** A reporter that only probes. *)
Lemma probing_section R title (body : M unit) endpoints :
  String.eqb title (str_mul "=" 60) = false ->
  (forall w, R w = body (headed w title)) ->
  Foot body endpoints -> Steady body ->
  SectionSpec net R title (fun _ => endpoints).
Proof.
  intros Ht HR Hf Hs w. rewrite HR.
  destruct (Hf (headed w title)) as [He Hx]. split; [|split; [|split]].
  - change [title] with ([title] ++ [])%list.
    change endpoints with ([] ++ endpoints)%list.
    eapply Extends_trans; [apply Extends_headed; exact Ht | exact He].
  - exact Hx.
  - intros _. destruct (Hs (headed w title)) as [[] Ha]. exact Ha.
  - intros e Hr. destruct (Hs (headed w title)) as [[] Ha]. congruence.
Qed.

End Footprints.

(** ** The twenty section reporters *)

Ltac silent :=
  repeat first
    [ apply foot_ret | apply foot_raise | apply foot_lift | apply foot_read
    | apply foot_print_info | apply foot_when | apply foot_for_each; intros ?
    | apply foot_bind_silent; [|intros ?] ].

Ltac enter_section :=
  let w := fresh "w" in
  intros w; unfold bind at 1; rewrite print_header_eq; cbv beta iota.

Ltac read_clock :=
  unfold bind at 1; unfold datetime_now, read; cbv beta iota zeta.

Ltac summarising_with enter ep :=
  eapply summarising_section with (endpoint := ep);
  [ reflexivity
  | enter; reflexivity
  | intros [? ?]; cbv beta iota; silent
  | intros [? ?]; cbv beta iota; tame
  | let H := fresh "H" in intros ? ? ? H; cbv beta iota; rewrite H; reflexivity ].

Ltac summarising ep := summarising_with ltac:(enter_section) ep.
Ltac summarising_timed ep := summarising_with ltac:(enter_section; read_clock) ep.

Ltac probing :=
  eapply probing_section;
  [ reflexivity
  | enter_section; reflexivity
  | repeat first [ apply foot_ret
                 | apply foot_test_endpoint
                 | apply (foot_bind_steady _ _ [_] _); [ | | intros ? ]
                 | apply steady_test_endpoint
                 | apply steady_ret
                 | apply steady_bind; [ | intros ? ] ]
  | repeat first [ apply steady_ret
                 | apply steady_test_endpoint
                 | apply steady_bind; [ | intros ? ] ] ].

Section Reporters.

Variable net : nat -> Request -> Reply.
Variable tz : Z -> Z.

Lemma enumerate_organization_section :
  SectionSpec net (enumerate_organization net) "ORGANIZATION INFO" (fun _ => ["/api/v1/org"]).
Proof. unfold enumerate_organization. summarising (fun _ : Z => "/api/v1/org"). Qed.

Lemma enumerate_users_section :
  SectionSpec net (enumerate_users net) "USERS" (fun _ => ["/api/v2/users"]).
Proof. unfold enumerate_users. summarising (fun _ : Z => "/api/v2/users"). Qed.

Lemma enumerate_api_keys_section :
  SectionSpec net (enumerate_api_keys net) "API KEYS" (fun _ => ["/api/v2/api_keys"]).
Proof. unfold enumerate_api_keys. summarising (fun _ : Z => "/api/v2/api_keys"). Qed.

Lemma enumerate_app_keys_section :
  SectionSpec net (enumerate_app_keys net) "APPLICATION KEYS" (fun _ => ["/api/v2/application_keys"]).
Proof. unfold enumerate_app_keys. summarising (fun _ : Z => "/api/v2/application_keys"). Qed.

Lemma enumerate_roles_section :
  SectionSpec net (enumerate_roles net) "ROLES & PERMISSIONS" (fun _ => ["/api/v2/roles"]).
Proof. unfold enumerate_roles. summarising (fun _ : Z => "/api/v2/roles"). Qed.

Lemma enumerate_hosts_section :
  SectionSpec net (enumerate_hosts net) "HOSTS" (fun _ => ["/api/v1/hosts"]).
Proof. unfold enumerate_hosts. summarising (fun _ : Z => "/api/v1/hosts"). Qed.

Lemma enumerate_dashboards_section :
  SectionSpec net (enumerate_dashboards net) "DASHBOARDS" (fun _ => ["/api/v1/dashboard"]).
Proof. unfold enumerate_dashboards. summarising (fun _ : Z => "/api/v1/dashboard"). Qed.

Lemma enumerate_monitors_section :
  SectionSpec net (enumerate_monitors net) "MONITORS" (fun _ => ["/api/v1/monitor"]).
Proof. unfold enumerate_monitors. summarising (fun _ : Z => "/api/v1/monitor"). Qed.

Lemma enumerate_downtimes_section :
  SectionSpec net (enumerate_downtimes net) "DOWNTIMES" (fun _ => ["/api/v1/downtime"]).
Proof. unfold enumerate_downtimes. summarising (fun _ : Z => "/api/v1/downtime"). Qed.

Lemma enumerate_slos_section :
  SectionSpec net (enumerate_slos net) "SERVICE LEVEL OBJECTIVES (SLOs)" (fun _ => ["/api/v1/slo"]).
Proof. unfold enumerate_slos. summarising (fun _ : Z => "/api/v1/slo"). Qed.

Lemma enumerate_notebooks_section :
  SectionSpec net (enumerate_notebooks net) "NOTEBOOKS" (fun _ => ["/api/v1/notebooks"]).
Proof. unfold enumerate_notebooks. summarising (fun _ : Z => "/api/v1/notebooks"). Qed.

Lemma enumerate_synthetics_section :
  SectionSpec net (enumerate_synthetics net) "SYNTHETICS" (fun _ => ["/api/v1/synthetics/tests"]).
Proof. unfold enumerate_synthetics. summarising (fun _ : Z => "/api/v1/synthetics/tests"). Qed.

Lemma enumerate_metrics_section :
  SectionSpec net (enumerate_metrics net tz) "METRICS"
    (fun c => [metrics_endpoint (metrics_from tz c)]).
Proof.
  unfold enumerate_metrics.
  summarising_timed (fun c => metrics_endpoint (metrics_from tz c)).
Qed.

Lemma enumerate_events_section :
  SectionSpec net (enumerate_events net tz) "EVENTS"
    (fun c => [events_endpoint (events_now tz c)]).
Proof.
  unfold enumerate_events.
  summarising_timed (fun c => events_endpoint (events_now tz c)).
Qed.

Lemma enumerate_service_accounts_section :
  SectionSpec net (enumerate_service_accounts net) "SERVICE ACCOUNTS"
    (fun _ => ["/api/v2/service_accounts"]).
Proof. unfold enumerate_service_accounts. probing. Qed.

Lemma enumerate_logs_section :
  SectionSpec net (enumerate_logs net) "LOGS"
    (fun _ => ["/api/v1/logs/config/indexes"; "/api/v1/logs/config/pipelines"]).
Proof. unfold enumerate_logs. probing. Qed.

Lemma enumerate_apm_section :
  SectionSpec net (enumerate_apm net) "APM / TRACING"
    (fun _ => ["/api/v1/services"]).
Proof. unfold enumerate_apm. probing. Qed.

Lemma enumerate_rum_section :
  SectionSpec net (enumerate_rum net) "REAL USER MONITORING (RUM)"
    (fun _ => ["/api/v2/rum/applications"]).
Proof. unfold enumerate_rum. probing. Qed.

Lemma enumerate_security_section :
  SectionSpec net (enumerate_security net) "SECURITY"
    (fun _ => ["/api/v2/security_monitoring/rules"; "/api/v2/security_monitoring/signals"]).
Proof. unfold enumerate_security. probing. Qed.

Lemma enumerate_integrations_section :
  SectionSpec net (enumerate_integrations net) "INTEGRATIONS"
    (fun _ => map snd integrations).
Proof.
  unfold enumerate_integrations, integrations.
  cbn [for_each map snd]. cbv beta iota. probing.
Qed.

End Reporters.

(** ** What a reporter prints and returns *)

Ltac enter_reporter R :=
  unfold R; unfold bind at 1; rewrite print_header_eq; cbv beta iota.

Lemma stdout_headed w title : stdout (headed w title) = stdout w ++ header_lines title.
Proof. unfold headed, say, header_lines. cbn [stdout]. now rewrite <- !app_assoc. Qed.

Lemma for_each_lines {A} (l : list A) (body : A -> M unit) (line : A -> text_line) :
  (forall x, In x l -> forall w, body x w = (Ok tt, say w [line x])) ->
  forall w, for_each l body w = (Ok tt, say w (map line l)).
Proof.
  induction l as [|x l IH]; intros H w; cbn [for_each map].
  - now rewrite say_nil.
  - unfold bind. rewrite (H x (or_introl eq_refl)).
    rewrite IH by (intros y Hy; apply H; now right).
    now rewrite say_say.
Qed.

Lemma bind_for_each_lines {A B} (l : list A) (body : A -> M unit) (line : A -> text_line)
    (k : unit -> M B) w :
  (forall x, In x l -> forall w, body x w = (Ok tt, say w [line x])) ->
  bind (for_each l body) k w = k tt (say w (map line l)).
Proof. intros H. unfold bind. now rewrite (for_each_lines l body line H). Qed.

Lemma bind_print_info {B} t (k : unit -> M B) w :
  forallb encodable t = true ->
  bind (print_info t) k w = k tt (say w [info_line t]).
Proof. intros H. unfold bind. now rewrite print_info_eq, H. Qed.

Lemma print_info_ok t w :
  forallb encodable t = true -> print_info t w = (Ok tt, say w [info_line t]).
Proof. intros H. now rewrite print_info_eq, H. Qed.

Lemma bind_ret {A B} (a : A) (k : A -> M B) w : bind (ret a) k w = k a w.
Proof. reflexivity. Qed.

Lemma print_info_data lit v w :
  print_info [Lit lit; Data v] w
  = if printable v then (Ok tt, say w [info_line [Lit lit; Data v]])
    else (Raise unprintable, w).
Proof.
  rewrite print_info_eq. cbn [forallb encodable andb]. now rewrite andb_true_r.
Qed.

Lemma bind_print_info_data {B} lit v (k : unit -> M B) w :
  bind (print_info [Lit lit; Data v]) k w
  = if printable v then k tt (say w [info_line [Lit lit; Data v]])
    else (Raise unprintable, w).
Proof. unfold bind. rewrite print_info_data. now destruct (printable v). Qed.

Lemma when_print_info (b : bool) t w :
  forallb encodable t = true ->
  when b (print_info t) w = (Ok tt, say w (if b then [info_line t] else [])).
Proof.
  intros H. destruct b; cbn [when]; [now apply print_info_ok | now rewrite say_nil].
Qed.

Lemma skipn_after {A} (a five ls : list A) :
  List.length five = 5%nat -> skipn (List.length a + 5) ((a ++ five) ++ ls) = ls.
Proof.
  intros H. rewrite <- H, <- length_app, skipn_app, skipn_all, Nat.sub_diag.
  reflexivity.
Qed.

Lemma probe_lines_accessible name description o body :
  probe_value o = (true, body) ->
  probe_lines name description o
  = success_line [Fmt (VStr name); Lit ": ACCESSIBLE"]
    :: (if str_truthy description
        then [info_line [Lit "  → "; Fmt (VStr description)]] else []).
Proof.
  destruct o as [r|msg]; cbn [probe_value probe_lines]; [|discriminate].
  destruct (status_code r =? 200); [|discriminate].
  destruct (str_truthy (text r)).
  - destruct (json r); [discriminate|]. intros _. cbn [app]. now rewrite app_nil_r.
  - intros _. cbn [app]. now rewrite app_nil_r.
Qed.

(** The summary of a reporter whose probe returns [(True, body)]. *)
Lemma summary_when net (R : M unit) title name endpoint description
    (K : bool * value -> M unit) w body ls res :
  R w = bind (test_endpoint net name "GET" endpoint None description) K (headed w title) ->
  probe_value (result_of (net (List.length (calls w)) (probe_request w endpoint)))
  = (true, body) ->
  str_truthy description = true ->
  (forall W, K (true, body) W = (res, say W ls)) ->
  fst (R w) = res /\ summary_of R w = ls.
Proof.
  intros HR Hv Hd HK. unfold summary_of. rewrite HR.
  unfold bind. rewrite test_endpoint_eq. cbv zeta.
  change (request_of (headed w title) GET endpoint None) with (probe_request w endpoint).
  change (calls (headed w title)) with (calls w).
  rewrite (probe_lines_accessible _ _ _ _ Hv), Hv, Hd, HK. cbn [fst snd].
  split; [reflexivity|].
  unfold headed, say, sent. cbn [stdout].
  rewrite <- !app_assoc. cbn [app].
  match goal with
  | |- skipn _ (stdout w ++ ?a :: ?b :: ?c :: ?d :: ?e :: ls) = _ =>
      change (stdout w ++ a :: b :: c :: d :: e :: ls)
        with (stdout w ++ ([a; b; c; d; e] ++ ls))
  end.
  rewrite app_assoc. apply skipn_after. reflexivity.
Qed.

Lemma probe_value_decoded r body :
  status_code r = 200 -> text r <> "" -> json r = inr body ->
  probe_value (Responded r) = (true, body).
Proof.
  intros Hs Ht Hj. cbn [probe_value]. rewrite Hs, Hj. cbn [Z.eqb Pos.eqb].
  destruct (text r); [contradiction | reflexivity].
Qed.

Ltac summary_of_reporter R :=
  eapply summary_when;
  [ enter_reporter R; try read_clock; reflexivity
  | first [ eassumption
          | match goal with H : forall _, probe_value _ = _ |- _ => apply H end ]
  | reflexivity
  | ].

Ltac eval_summary :=
  repeat first
    [ rewrite bind_ret
    | rewrite bind_print_info by reflexivity
    | progress cbn [py_get py_len py_slice py_iter lift andb when isinstance_list] ].

Ltac split_ok H :=
  repeat match type of H with
         | _ && _ = true =>
             let H' := fresh "Hp" in apply andb_true_iff in H as [H H']
         end.

(** An item line is printed when its fields can be. *)
Ltac print_item :=
  rewrite print_info_ok;
  [ reflexivity
  | cbn [forallb encodable andb];
    repeat match goal with
           | H : printable ?v = true |- context [printable ?v] => rewrite H
           end;
    reflexivity ].

Ltac item_case Hok :=
  let x := fresh "x" in
  let Hx := fresh "Hx" in
  let W := fresh "W" in
  intros x Hx W; rewrite forallb_forall in Hok; specialize (Hok x Hx);
  cbn [item_ok] in Hok; split_ok Hok;
  destruct x as [ | | | | | | entries ]; try discriminate Hok;
  unfold item_line, attributes, field in *;
  cbn [py_get lift]; rewrite ?bind_ret.

Ltac attributes_case :=
  match goal with
  | H : is_dict (dict_get ?e ?k ?d) = true |- _ =>
      destruct (dict_get e k d); try discriminate H
  end;
  cbn [py_get lift]; rewrite ?bind_ret.

(** What a collection reporter prints for an accessible, decodable answer
    whose shown items it can read. *)
Lemma collection_summary_exact net tz c w r body items :
  result_of (net (List.length (calls w)) (probe_request w (endpoint_of tz c (clock w))))
  = Responded r ->
  status_code r = 200 -> text r <> "" -> json r = inr body ->
  truthy body = true ->
  collection_of c body = Some items ->
  let n := Z.of_nat (List.length items) in
  count_ok c body n = true ->
  forallb (item_ok c) (firstn (cap c) items) = true ->
  fst (reporter net tz c w) = Ok tt
  /\ summary_of (reporter net tz c) w
     = count_line c body n :: map (item_line c) (firstn (cap c) items)
       ++ printed_trailer c n.
Proof.
  intros Hr Hs Ht Hj Hb Hc n Hcount Hok.
  assert (Hv : probe_value
                 (result_of (net (List.length (calls w))
                               (probe_request w (endpoint_of tz c (clock w)))))
               = (true, body)).
  { rewrite Hr. now apply probe_value_decoded. }
  clear Hr Hs Ht Hj. subst n.
  unfold collection_of in Hc.
  destruct c; cbn [collection_key] in Hc;
    destruct body as [ | | | | | l | d ]; try discriminate Hc;
    try (match type of Hc with
         | match dict_get d ?k ?dflt with _ => _ end = _ =>
             destruct (dict_get d k dflt) as [ | | | | | l | ] eqn:Hget;
             try discriminate Hc
         end);
    injection Hc as ->;
    cbn [reporter endpoint_of cap count_ok] in *.
  - (* users *)
    summary_of_reporter enumerate_users.
    intros W. cbv beta iota. rewrite Hb. eval_summary. rewrite Hget. eval_summary.
    rewrite (bind_for_each_lines _ _ (item_line Users)).
    + rewrite when_print_info by reflexivity. rewrite !say_say. reflexivity.
    + item_case Hok. attributes_case. print_item.
  - (* API keys *)
    summary_of_reporter enumerate_api_keys.
    intros W. cbv beta iota. rewrite Hb. eval_summary. rewrite Hget. eval_summary.
    rewrite (for_each_lines _ _ (item_line ApiKeys)).
    + rewrite !say_say. cbn [printed_trailer]. rewrite app_nil_r. reflexivity.
    + item_case Hok. attributes_case. print_item.
  - (* roles *)
    summary_of_reporter enumerate_roles.
    intros W. cbv beta iota. rewrite Hb. eval_summary. rewrite Hget. eval_summary.
    rewrite (for_each_lines _ _ (item_line Roles)).
    + rewrite !say_say. cbn [printed_trailer]. rewrite app_nil_r. reflexivity.
    + item_case Hok. attributes_case. print_item.
  - (* dashboards *)
    summary_of_reporter enumerate_dashboards.
    intros W. cbv beta iota. rewrite Hb. eval_summary. rewrite Hget. eval_summary.
    rewrite (bind_for_each_lines _ _ (item_line Dashboards)).
    + rewrite when_print_info by reflexivity. rewrite !say_say. reflexivity.
    + item_case Hok. print_item.
  - (* monitors *)
    summary_of_reporter enumerate_monitors.
    intros W. cbv beta iota. rewrite Hb. eval_summary.
    rewrite (bind_for_each_lines _ _ (item_line Monitors)).
    + rewrite when_print_info by reflexivity. rewrite !say_say. reflexivity.
    + item_case Hok. print_item.
  - (* hosts *)
    summary_of_reporter enumerate_hosts.
    intros W. cbv beta iota. rewrite Hb. eval_summary. rewrite Hget. eval_summary.
    cbn [hosts_total] in Hcount.
    rewrite bind_print_info by (cbn [forallb encodable]; now rewrite Hcount).
    eval_summary.
    rewrite (bind_for_each_lines _ _ (item_line Hosts)).
    + rewrite when_print_info by reflexivity. rewrite !say_say. reflexivity.
    + intros x Hx W'. rewrite forallb_forall in Hok. specialize (Hok x Hx).
      cbn [item_ok] in Hok. unfold apps_text in *.
      destruct x as [ | | | | | | entries ]; try discriminate Hok.
      unfold item_line, apps_text, field in *.
      cbn [py_get lift]. rewrite !bind_ret.
      destruct (py_slice (dict_get entries "apps" (VList [])) 3) as [e|shown];
        try discriminate Hok.
      cbn [lift]. rewrite bind_ret.
      destruct (py_join ", " shown) as [e|joined]; try discriminate Hok.
      cbn [lift]. rewrite bind_ret. split_ok Hok. print_item.
  - (* metrics *)
    summary_of_reporter enumerate_metrics.
    intros W. cbv beta iota. rewrite Hb. eval_summary. rewrite Hget. eval_summary.
    rewrite (bind_for_each_lines _ _ (item_line Metrics)).
    + rewrite when_print_info by reflexivity. rewrite !say_say. reflexivity.
    + intros x Hx W'. rewrite forallb_forall in Hok. specialize (Hok x Hx).
      cbn [item_ok] in Hok. unfold item_line. print_item.
Qed.

Lemma probing_returns (R body : M unit) title :
  (forall w, R w = body (headed w title)) -> Steady body -> forall w, fst (R w) = Ok tt.
Proof. intros HR Hs w. rewrite HR. destruct (Hs (headed w title)) as [[] H]. exact H. Qed.

Ltac returns_always R :=
  eapply probing_returns;
  [ let w := fresh "w" in
    intros w; unfold R; unfold bind at 1; rewrite print_header_eq; cbv beta iota;
    reflexivity
  | repeat first [ apply steady_ret | apply steady_test_endpoint
                 | apply steady_bind; [|intros ?] ] ].

Lemma enumerate_downtimes_returns net w : fst (enumerate_downtimes net w) = Ok tt.
Proof.
  unfold enumerate_downtimes. unfold bind at 1. rewrite print_header_eq. cbv beta iota.
  unfold bind at 1. rewrite test_endpoint_eq. cbv zeta.
  destruct (probe_value _) as [s d]. cbv beta iota.
  destruct s; [|reflexivity]. cbn [andb].
  destruct d as [ | b | n | f | str | l | e ]; cbn [truthy isinstance_list];
    try reflexivity;
    try (destruct b); try (destruct (n =? 0)); try (destruct f);
    try (destruct str); try (destruct l); try (destruct e); reflexivity.
Qed.

Lemma safe_reporters_return net :
  Forall (fun R => forall w, fst (R w) = Ok tt) (safe_reporters net).
Proof.
  unfold safe_reporters.
  repeat (apply Forall_cons; [|]); [..|apply Forall_nil].
  - returns_always enumerate_service_accounts.
  - returns_always enumerate_logs.
  - returns_always enumerate_apm.
  - returns_always enumerate_rum.
  - unfold enumerate_integrations, integrations. cbn [for_each]. cbv beta iota.
    eapply probing_returns;
      [ intros w; unfold bind at 1; rewrite print_header_eq; cbv beta iota; reflexivity
      | repeat first [ apply steady_ret | apply steady_test_endpoint
                     | apply steady_bind; [|intros ?] ] ].
  - returns_always enumerate_security.
  - apply enumerate_downtimes_returns.
Qed.

(** ** Answers a reporter can read *)

Lemma probe_value_accessible o body :
  probe_value o = (true, body) -> truthy body = true ->
  exists r, o = Responded r /\ status_code r = 200 /\ text r <> "" /\ json r = inr body.
Proof.
  destruct o as [r|msg]; cbn [probe_value]; [|discriminate].
  destruct (Z.eqb_spec (status_code r) 200) as [E|_]; [|discriminate].
  destruct (text r) as [|c t] eqn:Ht; cbn [str_truthy].
  - intros [= <-] H. cbn in H. discriminate H.
  - destruct (json r) as [e|v] eqn:Hj; [discriminate|]. intros [= <-] _.
    exists r. split; [reflexivity|]. split; [exact E|]. split; [|exact Hj].
    rewrite Ht. discriminate.
Qed.

(** A reporter whose probe gives it nothing to summarise returns. *)
Lemma skipped net (R : M unit) title name endpoint description
    (K : bool * value -> M unit) w :
  R w = bind (test_endpoint net name "GET" endpoint None description) K (headed w title) ->
  nothing_to_report (result_of (net (List.length (calls w)) (probe_request w endpoint)))
  = true ->
  (forall s d W, s && truthy d = false -> K (s, d) W = (Ok tt, W)) ->
  fst (R w) = Ok tt.
Proof.
  intros HR Hn HK. rewrite HR. unfold bind. rewrite test_endpoint_eq. cbv zeta.
  change (request_of (headed w title) GET endpoint None) with (probe_request w endpoint).
  change (calls (headed w title)) with (calls w).
  unfold nothing_to_report in Hn. revert Hn.
  destruct (probe_value _) as [s d]. cbn [fst snd]. intros Hn.
  apply negb_true_iff in Hn. now rewrite HK.
Qed.

Ltac skip_reporter R :=
  eapply skipped;
  [ enter_reporter R; try read_clock; reflexivity
  | eassumption
  | let H := fresh "H" in intros ? ? ? H; cbv beta iota; rewrite H; reflexivity ].

(** A reporter with one probe reads its answer when it returns both on an
    answer with nothing to summarise and on a body of its shape. *)
Lemma reads_one net (R : M unit) (ep : Z -> string) sh :
  (forall w,
     nothing_to_report
       (result_of (net (List.length (calls w)) (probe_request w (ep (clock w))))) = true ->
     fst (R w) = Ok tt) ->
  (forall w body,
     probe_value (result_of (net (List.length (calls w)) (probe_request w (ep (clock w)))))
     = (true, body) ->
     truthy body = true -> readable sh body = true -> fst (R w) = Ok tt) ->
  Reads net R [sh].
Proof.
  intros Hskip Hread w H.
  specialize (H 0%nat sh (probe_request w (ep (clock w))) eq_refl).
  rewrite Nat.add_0_r in H. unfold acceptable in H.
  specialize (Hskip w). specialize (Hread w). unfold nothing_to_report in Hskip.
  destruct (probe_value
              (result_of (net (List.length (calls w)) (probe_request w (ep (clock w))))))
    as [[|] body]; cbn [fst snd andb negb] in *.
  - destruct (truthy body) eqn:Ht; cbn [negb orb] in *.
    + exact (Hread body eq_refl Ht H).
    + exact (Hskip eq_refl).
  - exact (Hskip eq_refl).
Qed.

Lemma reads_always net (R : M unit) shapes : (forall w, fst (R w) = Ok tt) -> Reads net R shapes.
Proof. intros H w _. apply H. Qed.

Lemma reads_organization net : Reads net (enumerate_organization net) [OrgInfo].
Proof.
  apply (reads_one net _ (fun _ => "/api/v1/org")).
  - intros w Hn. skip_reporter enumerate_organization.
  - intros w body Hv Ht Hr. cbn [readable] in Hr.
    destruct body as [ | | | | | | d ]; try discriminate Hr.
    destruct (dict_get d "org" (VDict [])) as [ | | | | | | org ] eqn:Horg;
      try discriminate Hr.
    apply andb_true_iff in Hr as [Hr Hc]. apply andb_true_iff in Hr as [Hn Hp].
    eapply proj1. summary_of_reporter enumerate_organization.
    intros W. cbv beta iota. rewrite Ht. eval_summary. rewrite Horg. eval_summary.
    rewrite bind_print_info by (cbn [forallb encodable]; now rewrite Hn).
    eval_summary.
    rewrite bind_print_info by (cbn [forallb encodable]; now rewrite Hp).
    eval_summary.
    rewrite print_info_ok by (cbn [forallb encodable]; now rewrite Hc).
    rewrite !say_say. reflexivity.
Qed.

Lemma reads_listing net tz c : Reads net (reporter net tz c) [Listing c].
Proof.
  apply (reads_one net _ (endpoint_of tz c)).
  - intros w Hn. destruct c; cbn [reporter endpoint_of] in *.
    + skip_reporter enumerate_users.
    + skip_reporter enumerate_api_keys.
    + skip_reporter enumerate_roles.
    + skip_reporter enumerate_dashboards.
    + skip_reporter enumerate_monitors.
    + skip_reporter enumerate_hosts.
    + skip_reporter enumerate_metrics.
  - intros w body Hv Ht Hr. cbn [readable] in Hr.
    destruct (collection_of c body) as [items|] eqn:Hc.
    + apply andb_true_iff in Hr as [Hcount Hok].
      destruct (probe_value_accessible _ _ Hv Ht) as (r & Hr' & Hs & Htx & Hj).
      exact (proj1 (collection_summary_exact net tz c w r body items
                      Hr' Hs Htx Hj Ht Hc Hcount Hok)).
    + destruct c; try discriminate Hr. cbn [reporter endpoint_of] in *.
      assert (Hl : isinstance_list body = false).
      { destruct body; try reflexivity. discriminate Hc. }
      eapply proj1. summary_of_reporter enumerate_monitors.
      intros W. cbv beta iota. rewrite Ht, Hl. cbn [andb when].
      unfold ret. now rewrite <- (say_nil W) at 1.
Qed.

Lemma reads_count net tz t : Reads net (tally_reporter net tz t) [Count t].
Proof.
  apply (reads_one net _ (tally_endpoint tz t)).
  - intros w Hn. destruct t; cbn [tally_reporter tally_endpoint] in *.
    + skip_reporter enumerate_app_keys.
    + skip_reporter enumerate_synthetics.
    + skip_reporter enumerate_notebooks.
    + skip_reporter enumerate_slos.
    + skip_reporter enumerate_events.
  - intros w body Hv Ht Hr. cbn [readable] in Hr.
    destruct body as [ | | | | | | d ]; try discriminate Hr.
    destruct t; cbn [tally_reporter tally_endpoint tally_key] in *;
      destruct (dict_get d _ (VList [])) eqn:Hget; try discriminate Hr;
      eapply proj1;
      match goal with
      | |- fst (?R net w) = _ /\ _ => summary_of_reporter R
      | |- fst (?R net tz w) = _ /\ _ => summary_of_reporter R
      end;
      intros W; cbv beta iota; rewrite Ht; cbn [andb when py_get lift];
      rewrite ?bind_ret; rewrite Hget; cbn [py_len lift]; rewrite ?bind_ret;
      rewrite print_info_ok by reflexivity; reflexivity.
Qed.

(** ** The sequence of reporters in [main] *)

Lemma sections_spec net tz :
  Forall (fun s => SectionSpec net (sec_run s) (sec_title s) (sec_endpoints s))
         (sections net tz).
Proof.
  unfold sections.
  repeat (apply Forall_cons; [cbn [sec_run sec_title sec_endpoints]|]);
    [ apply enumerate_organization_section | apply enumerate_users_section
    | apply enumerate_api_keys_section | apply enumerate_app_keys_section
    | apply enumerate_roles_section | apply enumerate_service_accounts_section
    | apply enumerate_hosts_section | apply enumerate_metrics_section
    | apply enumerate_dashboards_section | apply enumerate_monitors_section
    | apply enumerate_events_section | apply enumerate_downtimes_section
    | apply enumerate_slos_section | apply enumerate_notebooks_section
    | apply enumerate_logs_section | apply enumerate_apm_section
    | apply enumerate_synthetics_section | apply enumerate_rum_section
    | apply enumerate_integrations_section | apply enumerate_security_section
    | apply Forall_nil ].
Qed.

Lemma Extends_calls_length w w' e t :
  Extends w w' e t -> (List.length (calls w) <= List.length (calls w'))%nat.
Proof. intros (_ & _ & _ & H & _). rewrite H, length_app. lia. Qed.

Lemma seq_cons (m : M unit) l final w :
  seq (m :: l) final w
  = match m w with
    | (Ok _, w1) => seq l final w1
    | (Raise e, w1) => (Raise e, w1)
    | (Exit c, w1) => (Exit c, w1)
    end.
Proof. reflexivity. Qed.

(** A sequence of reporters runs them in order, each once, until one raises:
    the sections in [ran] were entered, the rest were not; it goes on to
    [final] when none raised, and none does when no answer gives anything
    to summarise; one that raises does so on an accessible answer. *)
Lemma seq_sections net (secs : list section_info) (final : M unit) :
  Forall (fun s => SectionSpec net (sec_run s) (sec_title s) (sec_endpoints s)) secs ->
  forall w, exists ran rest w',
    secs = map fst ran ++ rest
    /\ Extends w w' (endpoints_of ran) (map (fun sc => sec_title (fst sc)) ran)
    /\ ((rest = [] /\ seq (map sec_run secs) final w = final w')
        \/ (exists e, seq (map sec_run secs) final w = (Raise e, w')
                      /\ stopped_on_answer net w' /\ misread e))
    /\ (quiet_from net (List.length (calls w)) ->
        rest = [] /\ seq (map sec_run secs) final w = final w').
Proof.
  induction 1 as [|s secs Hs _ IH]; intros w.
  - exists [], [], w. split; [reflexivity|]. split; [apply Extends_refl|].
    split; [left|intros _]; split; reflexivity.
  - destruct (Hs w) as (He & Hx & Hf & Hr).
    cbn [map]. rewrite !seq_cons.
    destruct (sec_run s w) as [[[] | e | c] w1] eqn:E; cbn [fst snd] in *.
    + destruct (IH w1) as (ran & rest & w' & Hsecs & He' & Hres & Hf').
      exists ((s, clock w) :: ran), rest, w'. split; [|split; [|split]].
      * cbn [map fst app]. now rewrite Hsecs.
      * cbn [map fst snd endpoints_of flat_map].
        change (sec_title s :: ?l) with ([sec_title s] ++ l)%list.
        eapply Extends_trans; eassumption.
      * exact Hres.
      * intros Hquiet. apply Hf'. intros n req Hn. apply Hquiet.
        pose proof (Extends_calls_length _ _ _ _ He). lia.
    + exists [(s, clock w)], secs, w1. split; [|split; [|split]].
      * reflexivity.
      * cbn [map fst snd endpoints_of flat_map]. now rewrite app_nil_r.
      * right. exists e. split; [reflexivity|]. exact (Hr e eq_refl).
      * intros Hquiet. specialize (Hf Hquiet). discriminate.
    + exfalso. now apply (Hx c).
Qed.

(** ** [main], stage by stage *)

Lemma parse_args_eq argv w :
  parse_args argv w
  = (match namespace_of argv with Some args => Ok args | None => Exit 2 end, w).
Proof.
  unfold parse_args, namespace_of.
  destruct (cl_region argv) as [r|]; [|reflexivity].
  destruct (str_in r region_choices); reflexivity.
Qed.

Lemma main_eq net tz argv w :
  main net tz argv w
  = match namespace_of argv with
    | None => (Exit 2, w)
    | Some args =>
        let w1 := with_keys args w in
        if str_truthy (API_KEY w1)
        then probing_phase net tz (greeted (with_base_url args w1))
        else (Exit 1, usage_shown w1)
    end.
Proof.
  unfold main. unfold bind at 1. rewrite parse_args_eq.
  destruct (namespace_of argv) as [[a b r]|]; [|reflexivity].
  cbn [api_key app_key region].
  assert (Hkeys :
    forall (rest : M unit),
      bind (match a with Some k => when (str_truthy k) (set_API_KEY k) | None => ret tt end)
        (fun _ =>
           bind (match b with Some k => when (str_truthy k) (set_APP_KEY k) | None => ret tt end)
             (fun _ => rest)) w
      = rest (with_keys (mkNamespace a b r) w)).
  { intros rest. unfold with_keys, bind, when, set_API_KEY, set_APP_KEY, ret.
    cbn [api_key app_key].
    destruct a as [ka|], b as [kb|];
      try destruct (str_truthy ka); try destruct (str_truthy kb);
      cbn; destruct w; reflexivity. }
  rewrite Hkeys. clear Hkeys. cbv zeta.
  generalize (with_keys (mkNamespace a b r) w). intros w1.
  destruct w1 as [api app base c cs out].
  unfold probing_phase, enumeration. cbn [sections map sec_run seq].
  unfold bind at 1. unfold read at 1. cbv beta iota. cbn [API_KEY].
  destruct api as [|x api]; cbn [str_truthy negb].
  - unfold when at 1. unfold bind at 1.
    unfold bind, print, sys_exit. reflexivity.
  - unfold when at 1. unfold bind at 1. unfold ret at 1. cbv beta iota.
    unfold bind at 1. unfold set_BASE_URL at 1. cbv beta iota.
    unfold bind at 1. unfold print at 1. cbv beta iota.
    unfold bind at 1. unfold read at 1. cbv beta iota.
    unfold bind at 1. unfold print_info at 1. unfold print at 1. cbv beta iota.
    unfold bind at 1. unfold read at 1. cbv beta iota.
    cbn [API_KEY APP_KEY BASE_URL clock calls stdout].
    unfold greeted, with_base_url, say.
    cbn [API_KEY APP_KEY BASE_URL clock calls stdout region].
    destruct app as [|y app]; cbn [str_truthy negb].
    + unfold bind at 1. unfold when at 1.
      unfold bind at 1. unfold print_warning at 1. unfold print at 1. cbv beta iota.
      unfold print_warning at 1. unfold print at 1. cbv beta iota.
      cbn [API_KEY APP_KEY BASE_URL clock calls stdout].
      reflexivity.
    + unfold bind at 1. unfold when at 1. unfold ret at 1. cbv beta iota.
      reflexivity.
Qed.

Lemma closing_eq w : closing w = (Ok tt, closed w).
Proof. reflexivity. Qed.

Lemma Extends_closed w : Extends w (closed w) [] ["ENUMERATION COMPLETE"].
Proof.
  unfold closed. rewrite say_say.
  apply (Extends_step w (headed w "ENUMERATION COMPLETE") _
           [] [] ["ENUMERATION COMPLETE"] []);
    [apply Extends_headed; reflexivity | apply Extends_say; reflexivity
    | reflexivity | reflexivity].
Qed.

Lemma validate_api_key_eq net w :
  let o := result_of (net (List.length (calls w)) (probe_request w "/api/v1/validate")) in
  validate_api_key net w
  = (let '(success, data) := probe_value o in
     when (success && truthy data)
       (valid <- lift (py_get data "valid" (VStr "Unknown")) ;;
        print_info [Lit "  Valid: "; Data valid]) ;;
     ret success)%monad
      (say (sent (headed w "VALIDATING API KEY") (probe_request w "/api/v1/validate")
              (net (List.length (calls w)) (probe_request w "/api/v1/validate")))
         (probe_lines "API Key Validation" "Confirms the API key is valid" o)).
Proof.
  intros o. unfold validate_api_key. unfold bind at 1. rewrite print_header_eq.
  cbv beta iota. unfold bind at 1. rewrite test_endpoint_eq. reflexivity.
Qed.

(** What [validate_api_key] does, by the answer to its probe. *)
Lemma validate_api_key_result net w :
  let req := probe_request w "/api/v1/validate" in
  let reply := net (List.length (calls w)) req in
  let w1 := say (sent (headed w "VALIDATING API KEY") req reply)
              (probe_lines "API Key Validation" "Confirms the API key is valid"
                 (result_of reply)) in
  validate_api_key net w
  = match probe_value (result_of reply) with
    | (false, _) => (Ok false, w1)
    | (true, d) =>
        if truthy d then
          match d with
          | VDict entries =>
              if printable (dict_get entries "valid" (VStr "Unknown"))
              then (Ok true,
                    say w1 [info_line [Lit "  Valid: ";
                                       Data (dict_get entries "valid" (VStr "Unknown"))]])
              else (Raise unprintable, w1)
          | _ => (Raise (Exn AttributeError
                           ("'" ++ type_name d ++ "' object has no attribute 'get'")), w1)
          end
        else (Ok true, w1)
    end.
Proof.
  intros req reply w1. rewrite validate_api_key_eq. cbv zeta. fold req reply w1.
  destruct (probe_value (result_of reply)) as [[|] d]; cbn [andb]; [|reflexivity].
  destruct (truthy d); cbn [when]; [|reflexivity].
  unfold bind at 1. unfold bind at 1.
  destruct d; cbn [py_get lift type_name]; try reflexivity.
  unfold ret at 1. cbv beta iota. rewrite print_info_eq.
  cbn [forallb encodable]. rewrite andb_true_r.
  destruct (printable _); reflexivity.
Qed.

Lemma validate_api_key_spec net w :
  let o := result_of (net (List.length (calls w)) (probe_request w "/api/v1/validate")) in
  Extends w (snd (validate_api_key net w)) ["/api/v1/validate"] ["VALIDATING API KEY"]
  /\ (fst (probe_value o) = false -> fst (validate_api_key net w) = Ok false)
  /\ (fst (probe_value o) = true ->
      fst (validate_api_key net w) = Ok true
      \/ exists e, fst (validate_api_key net w) = Raise e
                   /\ stopped_on_answer net (snd (validate_api_key net w))
                   /\ misread e)
  /\ (validation_passes o = true -> fst (validate_api_key net w) = Ok true).
Proof.
  intros o.
  assert (HR : validate_api_key net w
               = bind (test_endpoint net "API Key Validation" "GET" "/api/v1/validate" None
                         "Confirms the API key is valid")
                   (fun r => let '(success, data) := r in
                      when (success && truthy data)
                        (valid <- lift (py_get data "valid" (VStr "Unknown")) ;;
                         print_info [Lit "  Valid: "; Data valid]) ;;
                      ret success)
                   (headed w "VALIDATING API KEY")) by reflexivity.
  assert (He : Extends w (snd (validate_api_key net w))
                 ["/api/v1/validate"] ["VALIDATING API KEY"]).
  { rewrite HR.
    apply (Extends_step w (headed w "VALIDATING API KEY") _
             [] ["/api/v1/validate"] ["VALIDATING API KEY"] []);
      [apply Extends_headed; reflexivity | | reflexivity | reflexivity].
    apply (foot_bind_steady _ _ ["/api/v1/validate"] []);
      [apply foot_test_endpoint | apply steady_test_endpoint|].
    intros [s d]; cbv beta iota; silent. }
  split; [exact He|].
  assert (Hstop : forall body,
            probe_value o = (true, body) -> truthy body = true ->
            stopped_on_answer net (snd (validate_api_key net w))).
  { intros body Hv Hb. destruct He as (_ & _ & _ & Hc & _).
    exists (calls w), (probe_request w "/api/v1/validate"), body.
    split; [exact Hc | split; [exact Hv | exact Hb]]. }
  clear He HR. revert Hstop.
  rewrite validate_api_key_result. cbv zeta. fold o. unfold validation_passes.
  destruct (probe_value o) as [[|] d]; cbn [fst snd]; intros Hstop.
  - split; [discriminate|].
    destruct (truthy d) eqn:Hd.
    + specialize (Hstop d eq_refl Hd).
      destruct d; cbn [negb];
        try (split; [intros _; right; eexists; split; [reflexivity|];
                     split; [exact Hstop | misread_class]
                    | discriminate]).
      destruct (printable _); cbn [fst].
      * split; [intros _; left|intros _]; reflexivity.
      * split; [|discriminate]. intros _. right. eexists. split; [reflexivity|].
        split; [exact Hstop | unfold unprintable; misread_class].
    + split; [intros _; left; reflexivity | intros _; reflexivity].
  - split; [intros _; reflexivity|]. split; discriminate.
Qed.

Lemma probing_phase_eq net tz w :
  probing_phase net tz w
  = match validate_api_key net w with
    | (Ok true, wv) => enumeration net tz wv
    | (Ok false, wv) => (Exit 1, say wv [validation_failed_line])
    | (Raise e, wv) => (Raise e, wv)
    | (Exit c, wv) => (Exit c, wv)
    end.
Proof.
  unfold probing_phase. unfold bind at 1.
  destruct (validate_api_key net w) as [[[|] | e | c] wv]; reflexivity.
Qed.

(** After the validation probe [main] leaves with status 1, dies in
    [validate_api_key], or goes on to the reporters. *)
Lemma probing_phase_spec net tz w :
  let o := result_of (net (List.length (calls w)) (probe_request w "/api/v1/validate")) in
  exists wv,
    Extends w wv ["/api/v1/validate"] ["VALIDATING API KEY"]
    /\ ((fst (probe_value o) = false
         /\ probing_phase net tz w = (Exit 1, say wv [validation_failed_line]))
        \/ (fst (probe_value o) = true
            /\ exists e, probing_phase net tz w = (Raise e, wv)
                         /\ stopped_on_answer net wv /\ misread e)
        \/ (fst (probe_value o) = true /\ probing_phase net tz w = enumeration net tz wv))
    /\ (validation_passes o = true -> probing_phase net tz w = enumeration net tz wv).
Proof.
  intros o. destruct (validate_api_key_spec net w) as (He & Hf & Ht & Hp).
  fold o in Hf, Ht, Hp. rewrite probing_phase_eq.
  destruct (validate_api_key net w) as [[b | e | c] wv]; cbn [fst snd] in *.
  - exists wv. split; [exact He|].
    destruct (fst (probe_value o)) eqn:Ho.
    + assert (b = true) as ->.
      { destruct (Ht eq_refl) as [H | (e & H & _)]; congruence. }
      split; [right; right; split; reflexivity | intros _; reflexivity].
    + assert (b = false) as -> by (specialize (Hf eq_refl); congruence).
      split; [left; split; reflexivity|].
      intros H. specialize (Hp H). discriminate.
  - exists wv. split; [exact He|].
    destruct (fst (probe_value o)) eqn:Ho.
    + split.
      * right; left. split; [reflexivity|]. exists e. split; [reflexivity|].
        destruct (Ht eq_refl) as [H | (e' & H & Hs & Hm)]; [discriminate|].
        injection H as <-. split; assumption.
      * intros H. specialize (Hp H). discriminate.
    + specialize (Hf eq_refl). discriminate.
  - exfalso. destruct (fst (probe_value o)).
    + destruct (Ht eq_refl) as [H | (e & H & _)]; discriminate.
    + specialize (Hf eq_refl). discriminate.
Qed.

(** The reporters after a passed validation. *)
Lemma enumeration_spec net tz w :
  exists ran rest w1,
    sections net tz = map fst ran ++ rest
    /\ Extends w w1 (endpoints_of ran) (map (fun sc => sec_title (fst sc)) ran)
    /\ ((rest = [] /\ enumeration net tz w = (Ok tt, closed w1))
        \/ (exists e, enumeration net tz w = (Raise e, w1)
                      /\ stopped_on_answer net w1 /\ misread e))
    /\ (quiet_from net (List.length (calls w)) ->
        rest = [] /\ enumeration net tz w = (Ok tt, closed w1)).
Proof.
  destruct (seq_sections net (sections net tz) closing (sections_spec net tz) w)
    as (ran & rest & w1 & H1 & H2 & H3 & H4).
  exists ran, rest, w1. unfold enumeration.
  split; [exact H1|]. split; [exact H2|]. split.
  - destruct H3 as [[Hr H3] | H3]; [left | right; exact H3].
    split; [exact Hr|]. rewrite H3. apply closing_eq.
  - intros H. destruct (H4 H) as [Hr H5].
    split; [exact Hr|]. rewrite H5. apply closing_eq.
Qed.

Lemma Extends_greeted w : Extends w (greeted w) [] [].
Proof.
  unfold greeted. destruct (str_truthy (APP_KEY w)); cbv zeta;
    rewrite !say_say; apply Extends_say; reflexivity.
Qed.

Lemma Extends_said w w' e t ls :
  Extends w w' e t -> titles_in ls = [] -> Extends w (say w' ls) e t.
Proof.
  intros H Hl.
  apply (Extends_step w w' _ e [] t []); auto using Extends_say, app_nil_r.
  all: now rewrite app_nil_r.
Qed.

(** Whatever happens from the validation probe on, the globals stay and the
    log grows by probes only, the validation probe first. *)
Lemma probing_phase_extends net tz w :
  exists eps ts,
    Extends w (snd (probing_phase net tz w))
      ("/api/v1/validate" :: eps) ("VALIDATING API KEY" :: ts).
Proof.
  destruct (probing_phase_spec net tz w)
    as (wv & He & [[_ H] | [[_ (e & H & _)] | [_ H]]] & _);
    rewrite H; cbn [snd].
  - exists [], []. apply Extends_said; [exact He | reflexivity].
  - exists [], []. exact He.
  - destruct (enumeration_spec net tz wv)
      as (ran & rest & w1 & _ & He1 & [[_ H1] | (e & H1 & _)] & _);
      rewrite H1; cbn [snd]; do 2 eexists.
    + eapply Extends_step; [exact He | | reflexivity | reflexivity].
      eapply Extends_trans; [exact He1 | apply Extends_closed].
    + eapply Extends_step; [exact He | exact He1 | reflexivity | reflexivity].
Qed.

(** ** Whole runs *)

Lemma namespace_keys argv args :
  namespace_of argv = Some args ->
  api_key args = cl_api_key argv /\ app_key args = cl_app_key argv
  /\ (cl_region argv = None /\ region args = "us1"
      \/ cl_region argv = Some (region args) /\ str_in (region args) region_choices = true).
Proof.
  unfold namespace_of. destruct (cl_region argv) as [r|].
  - destruct (str_in r region_choices) eqn:E; [|discriminate].
    intros [= <-]. cbn. auto.
  - intros [= <-]. cbn. auto.
Qed.

Lemma ready_facts environ now argv args :
  namespace_of argv = Some args ->
  let w := ready environ now args in
  API_KEY w = resolved_api_key environ argv
  /\ APP_KEY w = resolved_app_key environ argv
  /\ BASE_URL w = regions_get regions (region args) "https://api.datadoghq.com"
  /\ calls w = [] /\ titles w = [] /\ clock w = now.
Proof.
  intros H w. destruct (namespace_keys _ _ H) as (Ha & Hb & _).
  destruct (Extends_greeted (with_base_url args (with_keys args (module_init environ now))))
    as (E1 & E2 & E3 & E4 & E5).
  fold (ready environ now args) in E1, E2, E3, E4, E5. fold w in E1, E2, E3, E4, E5.
  rewrite E1, E2, E3, E4, E5.
  unfold resolved_api_key, resolved_app_key. rewrite <- Ha, <- Hb.
  repeat split; try reflexivity.
  unfold w, ready, greeted. destruct (str_truthy _); reflexivity.
Qed.

(** The three ways a run can go before the first probe. *)
Lemma run_eq net tz environ now argv :
  run net tz environ now argv
  = match namespace_of argv with
    | None => (Exit 2, module_init environ now)
    | Some args =>
        if str_truthy (resolved_api_key environ argv)
        then probing_phase net tz (ready environ now args)
        else (Exit 1, usage_shown (with_keys args (module_init environ now)))
    end.
Proof.
  unfold run. rewrite main_eq.
  destruct (namespace_of argv) as [args|] eqn:E; [|reflexivity].
  destruct (namespace_keys _ _ E) as (Ha & Hb & _).
  cbv zeta. unfold resolved_api_key. rewrite <- Ha. reflexivity.
Qed.

Lemma Extends_from_start w w' eps ts :
  Extends w w' eps ts -> calls w = [] -> titles w = [] ->
  calls w' = map (probe_request w') eps /\ titles w' = ts.
Proof.
  intros (Ha & Hb & Hc & Hd & He) Hcalls Ht.
  rewrite Hd, He, Hcalls, Ht. split; [|reflexivity].
  cbn [app]. apply map_ext. intros ep. symmetry. now apply probe_request_ext.
Qed.

Lemma ran_all {A B} (l : list A) (ran : list (A * B)) :
  l = map fst ran ++ [] -> ran = combine l (map snd ran).
Proof.
  rewrite app_nil_r. intros ->.
  induction ran as [|[a b] ran IH]; cbn; [reflexivity | now rewrite <- IH].
Qed.

(** The headers of the sections that ran are the first of the fixed list. *)
Lemma ran_titles net tz (ran : list (section_info * Z)) rest :
  sections net tz = map fst ran ++ rest ->
  (List.length ran <= 20)%nat
  /\ map (fun sc => sec_title (fst sc)) ran = firstn (List.length ran) (tl all_titles).
Proof.
  intros Hs.
  assert (Hlen : (List.length ran <= 20)%nat).
  { apply (f_equal (@List.length _)) in Hs.
    rewrite length_app, length_map in Hs.
    change (List.length (sections net tz)) with 20%nat in Hs. lia. }
  split; [exact Hlen|].
  assert (Hfst : map fst ran = firstn (List.length ran) (sections net tz)).
  { rewrite Hs, <- (length_map fst ran), firstn_app, Nat.sub_diag, firstn_all.
    cbn [firstn]. now rewrite app_nil_r. }
  rewrite <- (map_map fst sec_title), Hfst, <- firstn_map.
  change (map sec_title (sections net tz)) with (firstn 20 (tl all_titles)).
  rewrite firstn_firstn. f_equal. lia.
Qed.

(** When the reporters all return, each was entered once, in order. *)
Lemma enumeration_ok net tz w w' :
  enumeration net tz w = (Ok tt, w') ->
  exists t_metrics t_events,
    Extends w w' (tl (all_endpoints t_metrics t_events)) (tl all_titles).
Proof.
  intros H.
  destruct (enumeration_spec net tz w)
    as (ran & rest & w1 & Hs & He & [[-> H1] | (e & H1 & _)] & _);
    [|congruence].
  rewrite H in H1. injection H1 as ->.
  assert (Hlen : List.length (map snd ran) = 20%nat).
  { apply (f_equal (@List.length _)) in Hs.
    rewrite app_nil_r, length_map in Hs. rewrite length_map, <- Hs. reflexivity. }
  apply ran_all in Hs. revert Hlen Hs. generalize (map snd ran). intros cs Hlen Hs.
  do 20 (destruct cs as [|? cs]; [discriminate|]).
  destruct cs; [|discriminate]. clear Hlen. subst ran.
  cbn [sections combine endpoints_of flat_map fst snd sec_endpoints sec_title map app
       integrations] in He.
  do 2 eexists.
  eapply Extends_step; [exact He | apply Extends_closed | |]; reflexivity.
Qed.

(** When [main] returns, every reporter was entered once, in order. *)
Lemma run_ok_full net tz environ now argv w' :
  run net tz environ now argv = (Ok tt, w') ->
  exists t_metrics t_events,
    calls w' = map (probe_request w') (all_endpoints t_metrics t_events)
    /\ titles w' = all_titles.
Proof.
  rewrite run_eq. destruct (namespace_of argv) as [args|] eqn:Hn; [|discriminate].
  destruct (str_truthy _); [|discriminate].
  destruct (ready_facts environ now argv args Hn) as (_ & _ & _ & Hc & Ht & _).
  destruct (probing_phase_spec net tz (ready environ now args))
    as (wv & He & [[_ H] | [[_ (e & H & _)] | [_ H]]] & _); rewrite H; try discriminate.
  intros Hen. apply enumeration_ok in Hen as (tm & te & He').
  exists tm, te. eapply Extends_from_start; [|exact Hc|exact Ht].
  eapply Extends_step; [exact He | exact He' | |]; reflexivity.
Qed.

Lemma ready_validation_request environ now argv args :
  namespace_of argv = Some args ->
  probe_request (ready environ now args) "/api/v1/validate"
  = validation_request environ argv args.
Proof.
  intros Hn. destruct (ready_facts environ now argv args Hn) as (Ha & Hb & Hc & _).
  unfold probe_request, request_of, validation_request. now rewrite Ha, Hb, Hc.
Qed.

(** With a passed validation and nothing to summarise afterwards, [main]
    returns. *)
Lemma run_completes net tz environ now argv args :
  namespace_of argv = Some args ->
  str_truthy (resolved_api_key environ argv) = true ->
  validation_passes (result_of (net 0%nat (validation_request environ argv args))) = true ->
  quiet_from net 1 ->
  exists w', run net tz environ now argv = (Ok tt, w').
Proof.
  intros Hn Hk Hv Hf. rewrite run_eq, Hn, Hk.
  destruct (ready_facts environ now argv args Hn) as (_ & _ & _ & Hc & _).
  destruct (probing_phase_spec net tz (ready environ now args)) as (wv & He & _ & Hp).
  rewrite Hp by (rewrite Hc, (ready_validation_request _ _ _ _ Hn); exact Hv).
  destruct (enumeration_spec net tz wv) as (ran & rest & w1 & _ & _ & _ & H).
  destruct H as [_ H].
  - destruct He as (_ & _ & _ & Hcalls & _). rewrite Hcalls, Hc. exact Hf.
  - eauto.
Qed.

(** A failed validation ends the run before any reporter. *)
Lemma run_rejected net tz environ now argv args :
  namespace_of argv = Some args ->
  str_truthy (resolved_api_key environ argv) = true ->
  fst (probe_value (result_of (net 0%nat (validation_request environ argv args)))) = false ->
  exists w',
    run net tz environ now argv = (Exit 1, w')
    /\ calls w' = [validation_request environ argv args]
    /\ titles w' = ["VALIDATING API KEY"].
Proof.
  intros Hn Hk Hv. rewrite run_eq, Hn, Hk.
  destruct (ready_facts environ now argv args Hn) as (_ & _ & _ & Hc & Ht & _).
  destruct (probing_phase_spec net tz (ready environ now args))
    as (wv & He & [[_ H] | [[Hacc _] | [Hacc _]]] & _).
  - rewrite H. eexists. split; [reflexivity|].
    destruct (Extends_from_start _ _ _ _ (Extends_said _ _ _ _ [validation_failed_line]
                                            He eq_refl) Hc Ht) as [H1 H2].
    rewrite H1, H2. split; [|reflexivity]. cbn [map]. f_equal.
    rewrite <- (ready_validation_request environ now argv args Hn).
    apply probe_request_ext; apply He.
  - rewrite Hc, (ready_validation_request _ _ _ _ Hn) in Hacc.
    cbn [List.length] in Hacc. congruence.
  - rewrite Hc, (ready_validation_request _ _ _ _ Hn) in Hacc.
    cbn [List.length] in Hacc. congruence.
Qed.

(** After an accessible validation probe a run ends in one of two ways:
    [main] returns, every reporter having run; or an exception leaves a
    reporter (or [validate_api_key]) that was summarising an accessible
    answer, and nothing after it runs. *)
Lemma run_accepted net tz environ now argv args :
  namespace_of argv = Some args ->
  str_truthy (resolved_api_key environ argv) = true ->
  fst (probe_value (result_of (net 0%nat (validation_request environ argv args)))) = true ->
  exists w',
    (run net tz environ now argv = (Ok tt, w') /\ titles w' = all_titles)
    \/ (exists e k,
          run net tz environ now argv = (Raise e, w')
          /\ (1 <= k <= 21)%nat
          /\ titles w' = firstn k all_titles
          /\ stopped_on_answer net w'
          /\ misread e).
Proof.
  intros Hn Hk Hv.
  destruct (ready_facts environ now argv args Hn) as (_ & _ & _ & Hc & Ht & _).
  destruct (probing_phase_spec net tz (ready environ now args))
    as (wv & He & [[Hacc _] | [[_ (e & H & Hs & Hm)] | [_ H]]] & _).
  - rewrite Hc, (ready_validation_request _ _ _ _ Hn) in Hacc.
    cbn [List.length] in Hacc. congruence.
  - exists wv. right. exists e, 1%nat. rewrite run_eq, Hn, Hk.
    split; [exact H|]. split; [lia|]. split; [|split; assumption].
    exact (proj2 (Extends_from_start _ _ _ _ He Hc Ht)).
  - destruct (enumeration_spec net tz wv)
      as (ran & rest & w1 & Hsec & He1 & [[_ H1] | (e & H1 & Hs & Hm)] & _).
    + exists (closed w1). left.
      assert (Hrun : run net tz environ now argv = (Ok tt, closed w1)).
      { rewrite run_eq, Hn, Hk, H. exact H1. }
      split; [exact Hrun|].
      destruct (run_ok_full _ _ _ _ _ _ Hrun) as (tm & te & _ & Htl). exact Htl.
    + exists w1. right. exists e, (S (List.length ran)).
      destruct (ran_titles net tz ran rest Hsec) as [Hlen Htitles].
      split; [rewrite run_eq, Hn, Hk, H; exact H1|].
      split; [lia|]. split; [|split; assumption].
      assert (Hext : Extends (ready environ now args) w1
                       ("/api/v1/validate" :: endpoints_of ran)
                       ("VALIDATING API KEY" :: map (fun sc => sec_title (fst sc)) ran)).
      { eapply Extends_step; [exact He | exact He1 | reflexivity | reflexivity]. }
      rewrite (proj2 (Extends_from_start _ _ _ _ Hext Hc Ht)), Htitles.
      reflexivity.
Qed.

Lemma prefix_combine {A B} (ran : list (A * B)) :
  forall l rest,
    l = map fst ran ++ rest ->
    ran = combine (firstn (List.length ran) l) (map snd ran).
Proof.
  induction ran as [|[a b] ran IH]; intros l rest ->; cbn; [reflexivity|].
  f_equal. now apply (IH _ rest).
Qed.

Lemma endpoints_prefix net tz (cs : list Z) :
  (List.length cs <= 20)%nat ->
  let ran := combine (firstn (List.length cs) (sections net tz)) cs in
  endpoints_of ran
  = firstn (List.length (endpoints_of ran))
      (tl (all_endpoints (metrics_from tz (nth 7 cs 0)) (events_now tz (nth 10 cs 0)))).
Proof.
  intros H.
  do 21 (destruct cs as [|? cs]; [reflexivity|]).
  cbn [List.length] in H. lia.
Qed.

(** The sections that ran probed a prefix of the fixed list. *)
Lemma ran_prefix net tz ran rest :
  sections net tz = map fst ran ++ rest ->
  exists t_metrics t_events k,
    endpoints_of ran = firstn k (tl (all_endpoints t_metrics t_events)).
Proof.
  intros Hs.
  assert (Hlen : (List.length (map snd ran) <= 20)%nat).
  { apply (f_equal (@List.length _)) in Hs.
    rewrite length_app, length_map in Hs. rewrite length_map.
    change (List.length (sections net tz)) with 20%nat in Hs. lia. }
  pose proof (prefix_combine ran _ _ Hs) as Hran.
  rewrite <- (length_map snd) in Hran.
  pose proof (endpoints_prefix net tz (map snd ran) Hlen) as H. cbv zeta in H.
  rewrite <- Hran in H. eauto.
Qed.

(** In every run the requests are a prefix of the fixed sequence. *)
Lemma run_requests net tz environ now argv :
  exists t_metrics t_events k,
    calls (snd (run net tz environ now argv))
    = map (probe_request (snd (run net tz environ now argv)))
          (firstn k (all_endpoints t_metrics t_events)).
Proof.
  rewrite run_eq. destruct (namespace_of argv) as [args|] eqn:Hn;
    [|exists 0, 0, 0%nat; reflexivity].
  destruct (str_truthy (resolved_api_key environ argv));
    [|exists 0, 0, 0%nat; reflexivity].
  destruct (ready_facts environ now argv args Hn) as (_ & _ & _ & Hc & Ht & _).
  destruct (probing_phase_spec net tz (ready environ now args))
    as (wv & He & [[_ H] | [[_ (e & H & _)] | [_ H]]] & _); rewrite H; cbn [snd].
  - exists 0, 0, 1%nat.
    exact (proj1 (Extends_from_start _ _ _ _
                    (Extends_said _ _ _ _ [validation_failed_line] He eq_refl) Hc Ht)).
  - exists 0, 0, 1%nat. exact (proj1 (Extends_from_start _ _ _ _ He Hc Ht)).
  - destruct (enumeration_spec net tz wv)
      as (ran & rest & w1 & Hs & He1 & [[_ H1] | (e & H1 & _)] & _);
      rewrite H1; cbn [snd];
      destruct (ran_prefix net tz ran rest Hs) as (tm & te & k & Hk);
      exists tm, te, (S k); rewrite Hk in He1.
    + refine (proj1 (Extends_from_start _ _ _ _ _ Hc Ht)).
      eapply Extends_step; [exact He | | reflexivity | reflexivity].
      eapply Extends_step;
        [exact He1 | apply Extends_closed | symmetry; apply app_nil_r | reflexivity].
    + refine (proj1 (Extends_from_start _ _ _ _ _ Hc Ht)).
      eapply Extends_step; [exact He | exact He1 | reflexivity | reflexivity].
Qed.

(** A run that ends with an exception was cut short on an accessible
    answer. *)
Lemma run_cut_short net tz environ now argv args e w' :
  namespace_of argv = Some args ->
  run net tz environ now argv = (Raise e, w') ->
  exists k j t_metrics t_events earlier q body,
    (1 <= k <= 21)%nat
    /\ titles w' = firstn k all_titles
    /\ calls w' = map (probe_request w') (firstn j (all_endpoints t_metrics t_events))
    /\ calls w' = earlier ++ [q]
    /\ probe_value (result_of (net (List.length earlier) q)) = (true, body)
    /\ truthy body = true
    /\ (exn_class_of e = AttributeError \/ exn_class_of e = TypeError
        \/ exn_class_of e = KeyError \/ exn_class_of e = UnicodeEncodeError).
Proof.
  intros Hn Hw.
  destruct (run_requests net tz environ now argv) as (tm & te & j & Hreq).
  assert (Hk : str_truthy (resolved_api_key environ argv) = true).
  { rewrite run_eq, Hn in Hw. destruct (str_truthy _); [reflexivity | discriminate]. }
  destruct (fst (probe_value (result_of (net 0%nat (validation_request environ argv args)))))
    eqn:Hv.
  - destruct (run_accepted net tz environ now argv args Hn Hk Hv)
      as [w'' [[Hw' _] | (e' & k & Hw' & Hkk & Ht & (earlier & q & body & Hc & Hb & Htr) & Hm)]];
      rewrite Hw in Hw'; [discriminate|].
    injection Hw' as -> ->. rewrite Hw in Hreq. cbn [snd] in Hreq.
    exists k, j, tm, te, earlier, q, body. repeat split; try assumption; lia.
  - destruct (run_rejected net tz environ now argv args Hn Hk Hv) as (w'' & Hw' & _).
    rewrite Hw in Hw'. discriminate.
Qed.

(** The reporters in the order [main] calls them read the answers in the
    order of [later_shapes]. *)
Lemma sections_read net tz :
  Forall2
    (fun s shapes =>
       SectionSpec net (sec_run s) (sec_title s) (sec_endpoints s)
       /\ Reads net (sec_run s) shapes
       /\ forall c, List.length (sec_endpoints s c) = List.length shapes)
    (sections net tz)
    [ [OrgInfo]; [Listing Users]; [Listing ApiKeys]; [Count AppKeys]; [Listing Roles];
      [Unread]; [Listing Hosts]; [Listing Metrics]; [Listing Dashboards];
      [Listing Monitors]; [Count Events]; [Unread]; [Count Slos]; [Count Notebooks];
      [Unread; Unread]; [Unread]; [Count Synthetics]; [Unread];
      [Unread; Unread; Unread; Unread; Unread; Unread]; [Unread; Unread] ].
Proof.
  pose proof (safe_reporters_return net) as Hsafe. unfold safe_reporters in Hsafe.
  inversion_clear Hsafe as [|? ? Hsa Hsafe1].
  inversion_clear Hsafe1 as [|? ? Hlogs Hsafe2].
  inversion_clear Hsafe2 as [|? ? Hapm Hsafe3].
  inversion_clear Hsafe3 as [|? ? Hrum Hsafe4].
  inversion_clear Hsafe4 as [|? ? Hint Hsafe5].
  inversion_clear Hsafe5 as [|? ? Hsec Hsafe6].
  inversion_clear Hsafe6 as [|? ? Hdown _].
  unfold sections.
  repeat (apply Forall2_cons;
          [cbn [sec_run sec_title sec_endpoints]; split; [|split; [|intros c; reflexivity]]|]);
    [ .. | apply Forall2_nil ].
  - apply enumerate_organization_section.
  - apply reads_organization.
  - apply enumerate_users_section.
  - exact (reads_listing net tz Users).
  - apply enumerate_api_keys_section.
  - exact (reads_listing net tz ApiKeys).
  - apply enumerate_app_keys_section.
  - exact (reads_count net tz AppKeys).
  - apply enumerate_roles_section.
  - exact (reads_listing net tz Roles).
  - apply enumerate_service_accounts_section.
  - apply reads_always. exact Hsa.
  - apply enumerate_hosts_section.
  - exact (reads_listing net tz Hosts).
  - apply enumerate_metrics_section.
  - exact (reads_listing net tz Metrics).
  - apply enumerate_dashboards_section.
  - exact (reads_listing net tz Dashboards).
  - apply enumerate_monitors_section.
  - exact (reads_listing net tz Monitors).
  - apply enumerate_events_section.
  - exact (reads_count net tz Events).
  - apply enumerate_downtimes_section.
  - apply reads_always. exact Hdown.
  - apply enumerate_slos_section.
  - exact (reads_count net tz Slos).
  - apply enumerate_notebooks_section.
  - exact (reads_count net tz Notebooks).
  - apply enumerate_logs_section.
  - apply reads_always. exact Hlogs.
  - apply enumerate_apm_section.
  - apply reads_always. exact Hapm.
  - apply enumerate_synthetics_section.
  - exact (reads_count net tz Synthetics).
  - apply enumerate_rum_section.
  - apply reads_always. exact Hrum.
  - apply enumerate_integrations_section.
  - apply reads_always. exact Hint.
  - apply enumerate_security_section.
  - apply reads_always. exact Hsec.
Qed.

(** A sequence of reporters whose answers are all acceptable runs to its
    end. *)
Lemma seq_reads net (final : M unit) secs shapes :
  Forall2
    (fun s shs =>
       SectionSpec net (sec_run s) (sec_title s) (sec_endpoints s)
       /\ Reads net (sec_run s) shs
       /\ forall c, List.length (sec_endpoints s c) = List.length shs)
    secs shapes ->
  forall w,
    (forall i sh req,
       nth_error (List.concat shapes) i = Some sh ->
       acceptable sh (result_of (net (List.length (calls w) + i)%nat req)) = true) ->
    exists w', seq (map sec_run secs) final w = final w'.
Proof.
  induction 1 as [|s shs secs shapes (Hspec & Hreads & Hlen) _ IH]; intros w Hok.
  - exists w. reflexivity.
  - cbn [map]. rewrite seq_cons.
    assert (Hr : fst (sec_run s w) = Ok tt).
    { apply Hreads. intros i sh req Hi. apply Hok. cbn [List.concat].
      rewrite nth_error_app1; [exact Hi|]. apply nth_error_Some. congruence. }
    destruct (Hspec w) as ((_ & _ & _ & Hcalls & _) & _).
    destruct (sec_run s w) as [r w1]. cbn [fst snd] in *. subst r.
    apply IH. intros i sh req Hi.
    rewrite Hcalls, length_app, length_map, Hlen, <- Nat.add_assoc.
    apply Hok. cbn [List.concat]. rewrite nth_error_app2 by lia.
    now replace (List.length shs + i - List.length shs)%nat with i by lia.
Qed.

(** With a passed validation and acceptable answers afterwards, [main]
    returns. *)
Lemma run_goes_through net tz environ now argv args :
  namespace_of argv = Some args ->
  str_truthy (resolved_api_key environ argv) = true ->
  validation_passes (result_of (net 0%nat (validation_request environ argv args))) = true ->
  (forall n req sh,
     nth_error later_shapes n = Some sh ->
     acceptable sh (result_of (net (S n) req)) = true) ->
  exists w', run net tz environ now argv = (Ok tt, w').
Proof.
  intros Hn Hk Hv Hok. rewrite run_eq, Hn, Hk.
  destruct (ready_facts environ now argv args Hn) as (_ & _ & _ & Hc & _).
  destruct (probing_phase_spec net tz (ready environ now args)) as (wv & He & _ & Hp).
  rewrite Hp by (rewrite Hc, (ready_validation_request _ _ _ _ Hn); exact Hv).
  unfold enumeration.
  destruct (seq_reads net closing _ _ (sections_read net tz) wv) as [w1 H1].
  - intros i sh req Hi. destruct He as (_ & _ & _ & Hcalls & _).
    rewrite Hcalls, Hc. cbn [app map List.length Nat.add]. apply Hok. exact Hi.
  - rewrite H1, closing_eq. eauto.
Qed.

(** * The claims *)

(** ** C1 *)

(** C1, as stated, fails: a response with status 200 whose body is not JSON
    does not give [(True, parsed-body)]; [test_endpoint] returns
    [(False, None)] for it. *)
Lemma status_200_unparsed_counterexample :
  result_of (html_reply) = Responded (mkResponse 200 "<html>"
                             (inl "Expecting value: line 1 column 1 (char 0)"))
  /\ fst (test_endpoint (always html_reply) "List Users" "GET" "/api/v2/users" None
            "All users in the organization" keyed_world)
     = Ok (false, VNone)
  /\ ~ (exists body,
          fst (test_endpoint (always html_reply) "List Users" "GET" "/api/v2/users" None
                 "All users in the organization" keyed_world)
          = Ok (true, body)).
Proof.
  split; [reflexivity|]. split; [reflexivity|].
  intros [body H]. vm_compute in H. discriminate.
Qed.

(** C1 (amended): for every HTTP response [test_endpoint] receives (the
    method being GET or POST), status 200 prints the accessible line and,
    when the body is empty or decodes as JSON, returns [(True, {})] or
    [(True, parsed-body)]; 401, 403 and 404 print the unauthorized,
    forbidden and not-found lines; any other status prints a line with the
    literal code; every status other than 200 returns [(False, None)]. *)
Theorem test_endpoint_classifies net name m endpoint data description w r :
  result_of (net (List.length (calls w)) (request_of w m endpoint data)) = Responded r ->
  let res := fst (test_endpoint net name (method_name m) endpoint data description w) in
  let out :=
    stdout (snd (test_endpoint net name (method_name m) endpoint data description w)) in
  (status_code r = 200 ->
     (exists rest,
        out = stdout w
              ++ [Fmt Colors.GREEN; Lit "[✓] "; Fmt (VStr name); Lit ": ACCESSIBLE";
                  Fmt Colors.END] :: rest)
     /\ (text r = "" -> res = Ok (true, VDict []))
     /\ (forall v, text r <> "" -> json r = inr v -> res = Ok (true, v)))
  /\ (status_code r = 401 ->
      out = stdout w
            ++ [[Fmt Colors.RED; Lit "[✗] "; Fmt (VStr name); Lit ": UNAUTHORIZED (401)";
                 Fmt Colors.END]])
  /\ (status_code r = 403 ->
      out = stdout w
            ++ [[Fmt Colors.RED; Lit "[✗] "; Fmt (VStr name); Lit ": FORBIDDEN (403)";
                 Fmt Colors.END]])
  /\ (status_code r = 404 ->
      out = stdout w
            ++ [[Fmt Colors.YELLOW; Lit "[!] "; Fmt (VStr name); Lit ": NOT FOUND (404)";
                 Fmt Colors.END]])
  /\ (~ In (status_code r) [200; 401; 403; 404] ->
      out = stdout w
            ++ [[Fmt Colors.YELLOW; Lit "[!] "; Fmt (VStr name); Lit ": Status ";
                 Fmt (VInt (status_code r)); Fmt Colors.END]])
  /\ (status_code r <> 200 -> res = Ok (false, VNone)).
Proof.
  intros Hr res out. subst res out. rewrite test_endpoint_method. cbv zeta.
  rewrite Hr. cbn [fst snd say stdout sent probe_value probe_lines].
  split; [|split; [|split; [|split; [|split]]]].
  - intros H. rewrite H. cbn [Z.eqb Pos.eqb app]. split; [|split].
    + eexists. reflexivity.
    + intros Ht. rewrite Ht. reflexivity.
    + intros v Ht Hj. rewrite Hj. destruct (text r); [contradiction | reflexivity].
  - intros H. rewrite H. reflexivity.
  - intros H. rewrite H. reflexivity.
  - intros H. rewrite H. reflexivity.
  - intros H.
    destruct (Z.eqb_spec (status_code r) 200) as [E|_];
      [exfalso; apply H; rewrite E; cbn; auto|].
    destruct (Z.eqb_spec (status_code r) 403) as [E|_];
      [exfalso; apply H; rewrite E; cbn; auto|].
    destruct (Z.eqb_spec (status_code r) 401) as [E|_];
      [exfalso; apply H; rewrite E; cbn; auto|].
    destruct (Z.eqb_spec (status_code r) 404) as [E|_];
      [exfalso; apply H; rewrite E; cbn; auto|].
    reflexivity.
  - intros H.
    destruct (Z.eqb_spec (status_code r) 200) as [E|_]; [contradiction | reflexivity].
Qed.

(** A response with status 429: the line carries the literal code and the
    return is [(False, None)]. *)
Lemma test_endpoint_classifies_witness :
  result_of (always (replied 429 "{...}" (inr (VDict []))) (List.length (calls keyed_world))
               (request_of keyed_world GET "/api/v1/org" None))
  = Responded (mkResponse 429 "{...}" (inr (VDict [])))
  /\ fst (test_endpoint (always (replied 429 "{...}" (inr (VDict []))))
            "Organization Details" "GET" "/api/v1/org" None "" keyed_world)
     = Ok (false, VNone)
  /\ stdout (snd (test_endpoint (always (replied 429 "{...}" (inr (VDict []))))
                    "Organization Details" "GET" "/api/v1/org" None "" keyed_world))
     = [[Fmt Colors.YELLOW; Lit "[!] "; Fmt (VStr "Organization Details");
         Lit ": Status "; Fmt (VInt 429); Fmt Colors.END]].
Proof.
  split; [reflexivity|].
  destruct (test_endpoint_classifies (always (replied 429 "{...}" (inr (VDict []))))
              "Organization Details" GET "/api/v1/org" None "" keyed_world
              (mkResponse 429 "{...}" (inr (VDict []))) eq_refl)
    as (_ & _ & _ & _ & Hother & Hfalse).
  split.
  - apply Hfalse. discriminate.
  - apply Hother. cbn. intros [H | [H | [H | [H | []]]]]; discriminate.
Defined.

(** ** C2 *)

Lemma parsed_namespace argv w args :
  fst (parse_args argv w) = Ok args -> namespace_of argv = Some args.
Proof.
  rewrite parse_args_eq. cbn [fst].
  destruct (namespace_of argv); [intros [= ->]; reflexivity | discriminate].
Qed.



(** ** C10 *)

(** A summarising reporter whose probe comes back with status 200 and a body
    that does not decode. *)
Lemma unparsed_section net (R : M unit) title name endpoint description
    (K : bool * value -> M unit) w r msg :
  R w = bind (test_endpoint net name "GET" endpoint None description) K (headed w title) ->
  result_of (net (List.length (calls w)) (probe_request w endpoint)) = Responded r ->
  status_code r = 200 -> text r <> "" -> json r = inl msg ->
  str_truthy description = true ->
  (forall W, K (false, VNone) W = (Ok tt, W)) ->
  fst (R w) = Ok tt
  /\ stdout (snd (R w))
     = stdout w ++ header_lines title
       ++ [ [Fmt Colors.GREEN; Lit "[✓] "; Fmt (VStr name); Lit ": ACCESSIBLE";
             Fmt Colors.END];
            [Fmt Colors.BLUE; Lit "[i] "; Lit "  → "; Fmt (VStr description);
             Fmt Colors.END];
            [Fmt Colors.RED; Lit "[✗] "; Fmt (VStr name); Lit ": Error - ";
             Fmt (VStr msg); Fmt Colors.END] ].
Proof.
  intros HR Hr Hs Ht Hj Hd HK. rewrite HR.
  unfold bind. rewrite test_endpoint_eq. cbv zeta.
  change (request_of (headed w title) GET endpoint None) with (probe_request w endpoint).
  change (calls (headed w title)) with (calls w).
  rewrite Hr. cbn [probe_value probe_lines]. rewrite Hs, Hj, Hd. cbn [Z.eqb Pos.eqb].
  destruct (text r) as [|ch t]; [contradiction|]. cbn [str_truthy].
  rewrite HK. cbn [fst snd]. split; [reflexivity|].
  unfold say, sent. cbn [stdout]. rewrite stdout_headed, <- !app_assoc. reflexivity.
Qed.

Ltac unparsed R H :=
  eapply unparsed_section;
  [ enter_reporter R; try read_clock; reflexivity
  | apply H | eassumption | eassumption | eassumption | reflexivity
  | intros ?; reflexivity ].

(** C10: [test_endpoint] returns [True] only together with the decoded body
    (or the empty dictionary for an empty body); a response with status 200
    and a non-empty body that does not decode makes it print the accessible
    line, then the error line, and return [(False, None)]; a reporter then
    summarises nothing: after its header and these lines it prints nothing
    and returns. *)
Theorem unparsed_body_is_an_error net tz name m endpoint data description w :
  let reply := net (List.length (calls w)) (request_of w m endpoint data) in
  let res := fst (test_endpoint net name (method_name m) endpoint data description w) in
  let out :=
    stdout (snd (test_endpoint net name (method_name m) endpoint data description w)) in
  (forall body, res = Ok (true, body) ->
     exists r, result_of reply = Responded r /\ status_code r = 200
               /\ ((text r = "" /\ body = VDict [])
                   \/ (text r <> "" /\ json r = inr body)))
  /\ (forall r msg,
        result_of reply = Responded r -> status_code r = 200 ->
        text r <> "" -> json r = inl msg ->
        res = Ok (false, VNone)
        /\ out = stdout w
                 ++ [[Fmt Colors.GREEN; Lit "[✓] "; Fmt (VStr name); Lit ": ACCESSIBLE";
                      Fmt Colors.END]]
                 ++ (if str_truthy description
                     then [[Fmt Colors.BLUE; Lit "[i] "; Lit "  → ";
                            Fmt (VStr description); Fmt Colors.END]]
                     else [])
                 ++ [[Fmt Colors.RED; Lit "[✗] "; Fmt (VStr name); Lit ": Error - ";
                      Fmt (VStr msg); Fmt Colors.END]])
  /\ (forall r msg,
        (forall req, result_of (net (List.length (calls w)) req) = Responded r) ->
        status_code r = 200 -> text r <> "" -> json r = inl msg ->
        forall R title probe_name probe_description,
          In (R, title, probe_name, probe_description) (summarising_probes net tz) ->
          fst (R w) = Ok tt
          /\ stdout (snd (R w))
             = stdout w
               ++ [ [Lit nl; Fmt Colors.BOLD; Fmt Colors.CYAN; Fmt (VStr (str_mul "=" 60));
                     Fmt Colors.END];
                    [Fmt Colors.BOLD; Fmt Colors.CYAN; Fmt (VStr title); Fmt Colors.END];
                    [Fmt Colors.BOLD; Fmt Colors.CYAN; Fmt (VStr (str_mul "=" 60));
                     Fmt Colors.END];
                    [Fmt Colors.GREEN; Lit "[✓] "; Fmt (VStr probe_name);
                     Lit ": ACCESSIBLE"; Fmt Colors.END];
                    [Fmt Colors.BLUE; Lit "[i] "; Lit "  → "; Fmt (VStr probe_description);
                     Fmt Colors.END];
                    [Fmt Colors.RED; Lit "[✗] "; Fmt (VStr probe_name); Lit ": Error - ";
                     Fmt (VStr msg); Fmt Colors.END] ]).
Proof.
  intros reply res out. subst res out. rewrite test_endpoint_method. cbv zeta.
  fold reply. cbn [fst snd say stdout sent].
  split; [|split].
  - intros body H. injection H as H.
    destruct (result_of reply) as [r|msg]; cbn [probe_value] in H; [|discriminate].
    exists r. split; [reflexivity|].
    destruct (Z.eqb_spec (status_code r) 200) as [E|_]; [|discriminate].
    split; [exact E|].
    destruct (text r) as [|c t]; cbn [str_truthy] in H.
    + left. split; [reflexivity|]. now injection H as <-.
    + right. split; [discriminate|].
      destruct (json r) as [e|v]; [discriminate|]. now injection H as <-.
  - intros r msg Hr Hs Ht Hj. rewrite Hr. cbn [probe_value probe_lines].
    rewrite Hs, Hj. cbn [Z.eqb Pos.eqb].
    destruct (text r); [contradiction|]. cbn [str_truthy]. split; [reflexivity|].
    destruct (str_truthy description); reflexivity.
  - intros r msg Hr Hs Ht Hj.
    pose proof (fun ep => Hr (probe_request w ep)) as Hr'.
    assert (Hall : Forall
              (fun p : M unit * string * string * string =>
                 let '(R, title, probe_name, probe_description) := p in
                 fst (R w) = Ok tt
                 /\ stdout (snd (R w))
                    = stdout w ++ header_lines title
                      ++ [ [Fmt Colors.GREEN; Lit "[✓] "; Fmt (VStr probe_name);
                            Lit ": ACCESSIBLE"; Fmt Colors.END];
                           [Fmt Colors.BLUE; Lit "[i] "; Lit "  → ";
                            Fmt (VStr probe_description); Fmt Colors.END];
                           [Fmt Colors.RED; Lit "[✗] "; Fmt (VStr probe_name);
                            Lit ": Error - "; Fmt (VStr msg); Fmt Colors.END] ])
              (summarising_probes net tz)).
    { unfold summarising_probes.
      repeat (apply Forall_cons; [cbv beta iota|]); [..|apply Forall_nil].
      - unparsed enumerate_organization Hr'.
      - unparsed enumerate_users Hr'.
      - unparsed enumerate_api_keys Hr'.
      - unparsed enumerate_app_keys Hr'.
      - unparsed enumerate_roles Hr'.
      - unparsed enumerate_hosts Hr'.
      - unparsed enumerate_metrics Hr'.
      - unparsed enumerate_dashboards Hr'.
      - unparsed enumerate_monitors Hr'.
      - unparsed enumerate_events Hr'.
      - unparsed enumerate_downtimes Hr'.
      - unparsed enumerate_slos Hr'.
      - unparsed enumerate_notebooks Hr'.
      - unparsed enumerate_synthetics Hr'. }
    intros R title probe_name probe_description Hin.
    rewrite Forall_forall in Hall. exact (Hall _ Hin).
Qed.

(** An HTML page served with status 200: the probe returns [(False, None)],
    and the users reporter prints its header, the two lines of an
    accessible probe and the error line, and returns. *)
Lemma unparsed_body_is_an_error_witness :
  fst (test_endpoint (always html_reply) "List Users" "GET" "/api/v2/users" None
         "All users in the organization" keyed_world)
  = Ok (false, VNone)
  /\ fst (enumerate_users (always html_reply) keyed_world) = Ok tt
  /\ List.length (stdout (snd (enumerate_users (always html_reply) keyed_world)))
     = 6%nat.
Proof.
  destruct (unparsed_body_is_an_error (always html_reply) utc "List Users" GET
              "/api/v2/users" None "All users in the organization" keyed_world)
    as (_ & H & Hs).
  split.
  - refine (proj1 (H _ "Expecting value: line 1 column 1 (char 0)"
                     eq_refl eq_refl _ eq_refl)).
    discriminate.
  - destruct (Hs (mkResponse 200 "<html>" (inl "Expecting value: line 1 column 1 (char 0)"))
                "Expecting value: line 1 column 1 (char 0)"
                (fun _ => eq_refl) eq_refl ltac:(discriminate) eq_refl
                (enumerate_users (always html_reply)) "USERS" "List Users"
                "All users in the organization") as [Hres Hout].
    + unfold summarising_probes. right. left. reflexivity.
    + split; [exact Hres|]. rewrite Hout. reflexivity.
Defined.

(** ** C3 *)

(** C3: with no API key on the command line and none in the environment,
    [main] prints the error and usage lines and leaves with status 1 without
    having sent a request. *)
Theorem missing_api_key_exits_first net tz environ now argv args :
  fst (parse_args argv (module_init environ now)) = Ok args ->
  cl_api_key argv = None \/ cl_api_key argv = Some "" ->
  os_environ_get environ "DD_API_KEY" "" = "" ->
  exists w',
    run net tz environ now argv = (Exit 1, w')
    /\ exit_status (fst (run net tz environ now argv)) = 1
    /\ calls w' = []
    /\ stdout w'
       = [ [Fmt Colors.RED; Lit "Error: API Key is required"; Fmt Colors.END];
           [Lit "Usage: python3 datadog_enum.py <API_KEY> [APP_KEY] [--region REGION]"];
           [Lit "Or set DD_API_KEY environment variable"] ].
Proof.
  intros Hp Hk He. apply parsed_namespace in Hp.
  rewrite run_eq, Hp.
  assert (Hr : resolved_api_key environ argv = "").
  { unfold resolved_api_key. destruct Hk as [-> | ->]; exact He. }
  rewrite Hr. cbn [str_truthy]. eexists. repeat split.
Qed.

(** No key on the command line, none in the environment, region [eu]. *)
Lemma missing_api_key_exits_first_witness :
  fst (run (always valid_reply) utc [("HOME", "/root")] 1700000000000000
         (mkCommandLine None None (Some "eu")))
  = Exit 1
  /\ calls (snd (run (always valid_reply) utc [("HOME", "/root")] 1700000000000000
                   (mkCommandLine None None (Some "eu"))))
     = [].
Proof.
  destruct (missing_api_key_exits_first (always valid_reply) utc [("HOME", "/root")]
              1700000000000000 (mkCommandLine None None (Some "eu"))
              (mkNamespace None None "eu") eq_refl (or_introl eq_refl) eq_refl)
    as (w' & H & _ & Hc & _).
  rewrite H. split; [reflexivity | exact Hc].
Defined.

(** ** C4 *)

(** C4, as stated, fails: validation succeeds, yet the run ends with an
    uncaught [AttributeError] (status 1) in the second reporter, and the
    other eighteen never run. *)
Lemma validated_run_dies_counterexample :
  fst (probe_value (result_of (users_as_array 0%nat
         (validation_request [("DD_API_KEY", "k")] (mkCommandLine None None None)
            (mkNamespace None None "us1")))))
  = true
  /\ fst (run users_as_array utc [("DD_API_KEY", "k")] 1700000000000000
            (mkCommandLine None None None))
     = Raise (Exn AttributeError "'list' object has no attribute 'get'")
  /\ exit_status (fst (run users_as_array utc [("DD_API_KEY", "k")] 1700000000000000
                         (mkCommandLine None None None)))
     = 1
  /\ titles (snd (run users_as_array utc [("DD_API_KEY", "k")] 1700000000000000
                    (mkCommandLine None None None)))
     = ["VALIDATING API KEY"; "ORGANIZATION INFO"; "USERS"].
Proof. repeat split; vm_compute; reflexivity. Qed.

(** C4 (amended): when the validation probe does not come back accessible,
    [main] leaves with status 1 having sent that one request and entered no
    reporter; when it passes, [main] returns (status 0) with every reporter
    entered, however many of the later probes are forbidden or fail, as
    long as each of the others comes back empty or with a body its reporter
    can read; and after an accessible validation the only other way a run
    ends is with status 1, by an exception raised while the validation or a
    reporter summarises an accessible answer it misreads: the headers
    printed are the first [k] of the fixed list, the request that got that
    answer is the last one sent, and nothing after it runs. *)
Theorem validation_gates_the_run net tz environ now argv args :
  fst (parse_args argv (module_init environ now)) = Ok args ->
  str_truthy (resolved_api_key environ argv) = true ->
  let o := result_of (net 0%nat (validation_request environ argv args)) in
  (fst (probe_value o) = false ->
     exists w',
       run net tz environ now argv = (Exit 1, w')
       /\ exit_status (fst (run net tz environ now argv)) = 1
       /\ calls w' = [validation_request environ argv args]
       /\ titles w' = ["VALIDATING API KEY"])
  /\ (validation_passes o = true ->
      (forall n req sh,
         nth_error later_shapes n = Some sh ->
         probe_fails (result_of (net (S n) req)) = true
         \/ acceptable sh (result_of (net (S n) req)) = true) ->
      exists w',
        run net tz environ now argv = (Ok tt, w')
        /\ exit_status (fst (run net tz environ now argv)) = 0
        /\ titles w' = all_titles)
  /\ (fst (probe_value o) = true ->
      exists w',
        (run net tz environ now argv = (Ok tt, w')
         /\ exit_status (fst (run net tz environ now argv)) = 0
         /\ titles w' = all_titles)
        \/ (exists e k earlier q body,
              run net tz environ now argv = (Raise e, w')
              /\ exit_status (fst (run net tz environ now argv)) = 1
              /\ (1 <= k <= 21)%nat
              /\ titles w' = firstn k all_titles
              /\ calls w' = earlier ++ [q]
              /\ probe_value (result_of (net (List.length earlier) q)) = (true, body)
              /\ truthy body = true
              /\ (exn_class_of e = AttributeError \/ exn_class_of e = TypeError
                  \/ exn_class_of e = KeyError \/ exn_class_of e = UnicodeEncodeError))).
Proof.
  intros Hp Hk o. apply parsed_namespace in Hp. split; [|split].
  - intros Hv.
    destruct (run_rejected net tz environ now argv args Hp Hk Hv) as (w' & Hw & Hc & Ht).
    exists w'. rewrite Hw. repeat split; assumption.
  - intros Hv Hf.
    destruct (run_goes_through net tz environ now argv args Hp Hk Hv) as [w' Hw].
    { intros n req sh Hn. destruct (Hf n req sh Hn) as [H | H]; [|exact H].
      unfold acceptable.
      now rewrite (probe_value_false _ (probe_fails_value _ H)). }
    exists w'. rewrite Hw. split; [reflexivity|]. split; [reflexivity|].
    destruct (run_ok_full _ _ _ _ _ _ Hw) as (tm & te & _ & Ht). exact Ht.
  - intros Hv.
    destruct (run_accepted net tz environ now argv args Hp Hk Hv)
      as [w' [[Hw Ht] | (e & k & Hw & Hkk & Ht & (earlier & q & body & Hc & Hb & Htr) & Hm)]];
      exists w'; [left | right].
    + rewrite Hw. repeat split; assumption.
    + exists e, k, earlier, q, body. rewrite Hw. repeat split; try assumption; lia.
Qed.

(** A key that is forbidden everywhere, a key that validates and is
    forbidden everywhere else, and a key that validates, sees users, hosts
    and monitors, and is forbidden everywhere else. *)
Lemma validation_gates_the_run_witness :
  (exists w',
     run (always forbidden_reply) utc [("DD_API_KEY", "k")] 1700000000000000
         (mkCommandLine None None None)
     = (Exit 1, w')
     /\ calls w' = [validation_request [("DD_API_KEY", "k")] (mkCommandLine None None None)
                      (mkNamespace None None "us1")]
     /\ titles w' = ["VALIDATING API KEY"])
  /\ (exists w',
        run (first_then valid_reply forbidden_reply) utc [("DD_API_KEY", "k")]
            1700000000000000 (mkCommandLine None None None)
        = (Ok tt, w')
        /\ exit_status (fst (run (first_then valid_reply forbidden_reply) utc
                               [("DD_API_KEY", "k")] 1700000000000000
                               (mkCommandLine None None None)))
           = 0
        /\ titles w' = all_titles)
  /\ (exists w',
        run sample_network utc [("DD_API_KEY", "k")] 1700000000000000
            (mkCommandLine None None None)
        = (Ok tt, w')
        /\ exit_status (fst (run sample_network utc [("DD_API_KEY", "k")]
                               1700000000000000 (mkCommandLine None None None)))
           = 0
        /\ titles w' = all_titles).
Proof.
  split; [|split].
  - destruct (proj1 (validation_gates_the_run (always forbidden_reply) utc
                       [("DD_API_KEY", "k")] 1700000000000000
                       (mkCommandLine None None None)
                       (mkNamespace None None "us1") eq_refl eq_refl) eq_refl)
      as (w' & Hw & _ & Hc & Ht).
    exists w'. repeat split; assumption.
  - apply (validation_gates_the_run (first_then valid_reply forbidden_reply) utc
             [("DD_API_KEY", "k")] 1700000000000000 (mkCommandLine None None None)
             (mkNamespace None None "us1") eq_refl eq_refl).
    + reflexivity.
    + intros n req sh _. left. reflexivity.
  - apply (validation_gates_the_run sample_network utc
             [("DD_API_KEY", "k")] 1700000000000000 (mkCommandLine None None None)
             (mkNamespace None None "us1") eq_refl eq_refl).
    + reflexivity.
    + intros n req sh Hn. right.
      do 27 (destruct n as [|n]; [injection Hn as <-; reflexivity|]).
      destruct n; discriminate Hn.
Defined.

(** ** C8 *)

Lemma enumerate_integrations_returns net : Steady (enumerate_integrations net).
Proof.
  unfold enumerate_integrations, integrations. cbn [for_each]. cbv beta iota.
  apply steady_bind; [intros w; eexists; reflexivity | intros _].
  repeat first [ apply steady_ret | apply steady_test_endpoint
               | apply steady_bind; [|intros ?] ].
Qed.

(** C8, as stated, fails: the outcome of the hosts probe stops the run in
    the seventh reporter; the metrics reporter and the twelve after it are
    never invoked. *)
Lemma reporters_cut_short_counterexample :
  fst (run hosts_as_number utc [("DD_API_KEY", "k")] 1700000000000000
         (mkCommandLine None None None))
  = Raise (Exn TypeError "object of type 'int' has no len()")
  /\ titles (snd (run hosts_as_number utc [("DD_API_KEY", "k")] 1700000000000000
                    (mkCommandLine None None None)))
     = [ "VALIDATING API KEY"; "ORGANIZATION INFO"; "USERS"; "API KEYS";
         "APPLICATION KEYS"; "ROLES & PERMISSIONS"; "SERVICE ACCOUNTS"; "HOSTS" ]
  /\ List.length (calls (snd (run hosts_as_number utc [("DD_API_KEY", "k")]
                                1700000000000000 (mkCommandLine None None None))))
     = 8%nat.
Proof. repeat split; vm_compute; reflexivity. Qed.

(** C8 (amended): whenever [main] returns, the twenty reporters have each
    been invoked exactly once in the fixed order (their headers and their
    probes appear once each, in that order); it returns whenever the
    validation passes and every later probe is forbidden, fails, comes
    back with an empty body, or comes back with a body that its reporter
    can read; a run that passes the validation probe and
    does not return was cut short by an exception in the validation or in
    one reporter, which had received an accessible answer and misread it:
    the reporters before it ran once each, in order, and none after it;
    the integrations reporter probes exactly the six fixed integrations,
    each by a GET without a body, and always returns. *)
Theorem reporters_run_once_in_order net tz :
  (forall environ now argv w',
     run net tz environ now argv = (Ok tt, w') ->
     titles w' = all_titles
     /\ exists t_metrics t_events,
          calls w' = map (probe_request w') (all_endpoints t_metrics t_events))
  /\ (forall environ now argv args,
        fst (parse_args argv (module_init environ now)) = Ok args ->
        str_truthy (resolved_api_key environ argv) = true ->
        validation_passes (result_of (net 0%nat (validation_request environ argv args)))
        = true ->
        (forall n req sh,
           nth_error later_shapes n = Some sh ->
           acceptable sh (result_of (net (S n) req)) = true) ->
        exists w', run net tz environ now argv = (Ok tt, w'))
  /\ (forall environ now argv args e w',
        fst (parse_args argv (module_init environ now)) = Ok args ->
        run net tz environ now argv = (Raise e, w') ->
        exists k j t_metrics t_events earlier q body,
          (1 <= k <= 21)%nat
          /\ titles w' = firstn k all_titles
          /\ calls w' = map (probe_request w') (firstn j (all_endpoints t_metrics t_events))
          /\ calls w' = earlier ++ [q]
          /\ probe_value (result_of (net (List.length earlier) q)) = (true, body)
          /\ truthy body = true
          /\ (exn_class_of e = AttributeError \/ exn_class_of e = TypeError
              \/ exn_class_of e = KeyError \/ exn_class_of e = UnicodeEncodeError))
  /\ (forall w,
        fst (enumerate_integrations net w) = Ok tt
        /\ calls (snd (enumerate_integrations net w))
           = calls w
             ++ map (fun ne => mkRequest GET (BASE_URL w ++ snd ne)
                                 (headers_for (API_KEY w) (APP_KEY w)) None 10)
                    integrations
        /\ map fst integrations = ["AWS"; "Azure"; "GCP"; "Slack"; "PagerDuty"; "Webhooks"]).
Proof.
  split; [|split; [|split]].
  - intros environ now argv w' Hw.
    destruct (run_ok_full _ _ _ _ _ _ Hw) as (tm & te & Hc & Ht). eauto.
  - intros environ now argv args Hp Hk Hv Hf. apply parsed_namespace in Hp.
    exact (run_goes_through net tz environ now argv args Hp Hk Hv Hf).
  - intros environ now argv args e w' Hp Hw. apply parsed_namespace in Hp.
    exact (run_cut_short net tz environ now argv args e w' Hp Hw).
  - intros w. destruct (enumerate_integrations_section net w) as (He & _ & _).
    split; [|split; [|reflexivity]].
    + destruct (enumerate_integrations_returns net w) as [[] H]. exact H.
    + destruct He as (_ & _ & _ & Hc & _). rewrite Hc. reflexivity.
Qed.

(** A run in which every request after the validation raises goes through,
    and so does one in which users, hosts and monitors are listed; one in
    which the hosts probe is answered with a number in place of the host
    list stops there, after eight requests. *)
Lemma reporters_run_once_in_order_witness :
  (exists w',
     run (first_then valid_reply dns_failure) utc [("DD_API_KEY", "k")] 1700000000000000
         (mkCommandLine None None (Some "us5"))
     = (Ok tt, w')
     /\ titles w' = all_titles)
  /\ (exists w',
        run sample_network utc [("DD_API_KEY", "k")] 1700000000000000
            (mkCommandLine None None None)
        = (Ok tt, w')
        /\ titles w' = all_titles)
  /\ (exists k,
        titles (snd (run hosts_as_number utc [("DD_API_KEY", "k")] 1700000000000000
                       (mkCommandLine None None None)))
        = firstn k all_titles
        /\ (1 <= k <= 21)%nat).
Proof.
  destruct (reporters_run_once_in_order (first_then valid_reply dns_failure) utc)
    as (Hall & Hrun & _).
  destruct (reporters_run_once_in_order sample_network utc) as (Hall' & Hrun' & _).
  split; [|split].
  - destruct (Hrun [("DD_API_KEY", "k")] 1700000000000000
                (mkCommandLine None None (Some "us5")) (mkNamespace None None "us5")
                eq_refl eq_refl eq_refl) as [w' Hw].
    + intros n req sh _. reflexivity.
    + exists w'. split; [exact Hw|]. exact (proj1 (Hall _ _ _ _ Hw)).
  - destruct (Hrun' [("DD_API_KEY", "k")] 1700000000000000
                (mkCommandLine None None None) (mkNamespace None None "us1")
                eq_refl eq_refl eq_refl) as [w' Hw].
    + intros n req sh Hn.
      do 27 (destruct n as [|n]; [injection Hn as <-; reflexivity|]).
      destruct n; discriminate Hn.
    + exists w'. split; [exact Hw|]. exact (proj1 (Hall' _ _ _ _ Hw)).
  - destruct (proj1 (proj2 (proj2 (reporters_run_once_in_order hosts_as_number utc)))
                [("DD_API_KEY", "k")] 1700000000000000 (mkCommandLine None None None)
                (mkNamespace None None "us1")
                (Exn TypeError "object of type 'int' has no len()")
                (snd (run hosts_as_number utc [("DD_API_KEY", "k")] 1700000000000000
                        (mkCommandLine None None None)))
                eq_refl)
      as (k & _ & _ & _ & _ & _ & _ & Hk & Ht & _).
    + vm_compute. reflexivity.
    + exists k. split; assumption.
Defined.

(** ** C9 *)

(** C9, as stated, fails: in a run without an application key the request
    carries one credential header only. *)
Lemma single_credential_header_counterexample :
  map headers
    (calls (snd (run (always forbidden_reply) utc [("DD_API_KEY", "k")] 1700000000000000
                   (mkCommandLine None None None))))
  = [ [("DD-API-KEY", "k"); ("Content-Type", "application/json")] ].
Proof. vm_compute. reflexivity. Qed.

(** C9 (amended): in every run, every request carries the [DD-API-KEY]
    header with the API key in force and [Content-Type: application/json];
    it carries the [DD-APPLICATION-KEY] header, with the application key,
    exactly when that key is not empty. *)
Theorem credential_headers net tz environ now argv :
  Forall
    (fun q =>
       headers q
       = [("DD-API-KEY", resolved_api_key environ argv);
          ("Content-Type", "application/json")]
         ++ (if str_truthy (resolved_app_key environ argv)
             then [("DD-APPLICATION-KEY", resolved_app_key environ argv)]
             else []))
    (calls (snd (run net tz environ now argv))).
Proof.
  rewrite run_eq. destruct (namespace_of argv) as [args|] eqn:Hn; [|constructor].
  destruct (str_truthy (resolved_api_key environ argv)); [|constructor].
  destruct (ready_facts environ now argv args Hn) as (Ha & Hb & _ & Hc & Ht & _).
  destruct (probing_phase_extends net tz (ready environ now args)) as (eps & ts & He).
  destruct (Extends_from_start _ _ _ _ He Hc Ht) as [Hcalls _].
  destruct He as (Ha' & Hb' & _).
  rewrite Hcalls. apply Forall_forall. intros q Hq.
  apply in_map_iff in Hq as (ep & <- & _).
  cbn [probe_request request_of headers]. rewrite Ha', Hb', Ha, Hb. reflexivity.
Qed.

(** ** C6 *)

Lemma str_in_In s l : str_in s l = true <-> In s l.
Proof.
  unfold str_in. rewrite existsb_exists. split.
  - intros (x & Hx & E). apply String.eqb_eq in E. now subst.
  - intros H. exists s. split; [exact H | apply String.eqb_refl].
Qed.

(** C6: each of the five regions resolves to its host, which every request
    of the run then addresses, the validation probe first; [us1] is the
    default; a region outside the five is rejected by the argument parser
    (status 2) before anything is sent. *)
Theorem region_selects_base_url net tz environ now argv :
  (forall r host,
     In (r, host) [ ("us1", "https://api.datadoghq.com");
                    ("us3", "https://api.us3.datadoghq.com");
                    ("us5", "https://api.us5.datadoghq.com");
                    ("eu", "https://api.datadoghq.eu");
                    ("ap1", "https://api.ap1.datadoghq.com") ] ->
     cl_region argv = Some r \/ (cl_region argv = None /\ r = "us1") ->
     str_truthy (resolved_api_key environ argv) = true ->
     BASE_URL (snd (run net tz environ now argv)) = host
     /\ exists eps,
          map url (calls (snd (run net tz environ now argv)))
          = map (fun ep => host ++ ep)%string ("/api/v1/validate" :: eps))
  /\ (forall r,
        cl_region argv = Some r ->
        ~ In r ["us1"; "us3"; "us5"; "eu"; "ap1"] ->
        run net tz environ now argv = (Exit 2, module_init environ now)
        /\ calls (snd (run net tz environ now argv)) = []).
Proof.
  split.
  - intros r host Hin Hreg Hk.
    assert (Hn : namespace_of argv
                 = Some (mkNamespace (cl_api_key argv) (cl_app_key argv) r)
                 /\ regions_get regions r "https://api.datadoghq.com" = host).
    { unfold namespace_of.
      destruct Hreg as [-> | [-> ->]].
      - cbn in Hin.
        destruct Hin as [H | [H | [H | [H | [H | []]]]]]; injection H as <- <-;
          split; reflexivity.
      - cbn in Hin.
        destruct Hin as [H | [H | [H | [H | [H | []]]]]]; try discriminate;
          injection H as <-; split; reflexivity. }
    destruct Hn as [Hn Hhost].
    rewrite run_eq, Hn, Hk.
    destruct (ready_facts environ now argv _ Hn) as (_ & _ & Hb & Hc & Ht & _).
    cbn [region] in Hb. rewrite Hhost in Hb.
    destruct (probing_phase_extends net tz (ready environ now
                (mkNamespace (cl_api_key argv) (cl_app_key argv) r))) as (eps & ts & He).
    destruct (Extends_from_start _ _ _ _ He Hc Ht) as [Hcalls _].
    destruct He as (_ & _ & Hb' & _).
    split; [congruence|].
    exists eps. rewrite Hcalls, map_map. apply map_ext. intros ep.
    cbn [probe_request request_of url]. congruence.
  - intros r Hr Hnot.
    assert (Hn : namespace_of argv = None).
    { unfold namespace_of. rewrite Hr.
      destruct (str_in r region_choices) eqn:E; [|reflexivity].
      apply str_in_In in E. contradiction. }
    rewrite run_eq, Hn. split; reflexivity.
Qed.

(** Region [eu], and the unknown region [us2]. *)
Lemma region_selects_base_url_witness :
  BASE_URL (snd (run (always forbidden_reply) utc [("DD_API_KEY", "k")] 1700000000000000
                   (mkCommandLine None None (Some "eu"))))
  = "https://api.datadoghq.eu"
  /\ run (always forbidden_reply) utc [("DD_API_KEY", "k")] 1700000000000000
         (mkCommandLine None None (Some "us2"))
     = (Exit 2, module_init [("DD_API_KEY", "k")] 1700000000000000).
Proof.
  split.
  - refine (proj1 (proj1 (region_selects_base_url (always forbidden_reply) utc
                            [("DD_API_KEY", "k")] 1700000000000000
                            (mkCommandLine None None (Some "eu")))
                     "eu" "https://api.datadoghq.eu" _ (or_introl eq_refl) eq_refl)).
    cbn. auto.
  - refine (proj1 (proj2 (region_selects_base_url (always forbidden_reply) utc
                            [("DD_API_KEY", "k")] 1700000000000000
                            (mkCommandLine None None (Some "us2")))
                     "us2" eq_refl _)).
    cbn. intros [H | [H | [H | [H | [H | []]]]]]; discriminate.
Defined.

(** ** C7 *)








(** ** C5 *)

(** C5, as stated, fails: given twelve hosts the hosts reporter ends with a
    line that gives no count, and given twelve API keys the API keys
    reporter prints five items and no trailing line at all. *)
Lemma trailing_line_counterexample :
  summary_of
    (enumerate_hosts
       (always (replied 200 "{...}"
                  (inr (VDict [("host_list", VList twelve_hosts)])))))
    keyed_world
  = count_line Hosts (VDict []) 12
    :: map (item_line Hosts) (firstn 5 twelve_hosts)
    ++ [[Fmt Colors.BLUE; Lit "[i] "; Lit "    ... and more"; Fmt Colors.END]]
  /\ summary_of
       (enumerate_api_keys
          (always (replied 200 "{...}" (inr (VDict [("data", VList twelve_keys)])))))
       keyed_world
     = count_line ApiKeys (VDict []) 12
       :: map (item_line ApiKeys) (firstn 5 twelve_keys).
Proof. split; vm_compute; reflexivity. Qed.

(** C5 (amended): given an accessible answer with n items that it can read,
    a collection reporter prints the count line and then exactly the first
    N items (N = 10 for users and metrics, 5 for API keys, roles,
    dashboards, monitors and hosts); with at most N items (3, say) nothing
    follows; with more (12, say) the users, metrics, dashboards and monitors
    reporters add one line giving the exact remainder n - N (2 or 7), the
    hosts reporter adds a line saying that there are more, without a count,
    and the API keys and roles reporters add nothing. *)
Theorem collection_summaries net tz c w r body items :
  result_of (net (List.length (calls w)) (probe_request w (endpoint_of tz c (clock w))))
  = Responded r ->
  status_code r = 200 -> text r <> "" -> json r = inr body ->
  truthy body = true ->
  collection_of c body = Some items ->
  let n := Z.of_nat (List.length items) in
  count_ok c body n = true ->
  forallb (item_ok c) (firstn (cap c) items) = true ->
  fst (reporter net tz c w) = Ok tt
  /\ exists rest,
       summary_of (reporter net tz c) w
       = count_line c body n :: map (item_line c) (firstn (cap c) items) ++ rest
       /\ ((List.length items <= cap c)%nat -> rest = [])
       /\ ((cap c < List.length items)%nat ->
           match trailer c with
           | Remainder =>
               rest = [[Fmt Colors.BLUE; Lit "[i] "; Lit "    ... and ";
                        Fmt (VInt (n - Z.of_nat (cap c))); Lit " more"; Fmt Colors.END]]
           | AndMore =>
               rest = [[Fmt Colors.BLUE; Lit "[i] "; Lit "    ... and more";
                        Fmt Colors.END]]
           | NoTrailer => rest = []
           end).
Proof.
  intros Hr Hs Ht Hj Hb Hc n Hcount Hok.
  destruct (collection_summary_exact net tz c w r body items Hr Hs Ht Hj Hb Hc Hcount Hok)
    as [Hres Hsum].
  split; [exact Hres|].
  exists (printed_trailer c n). split; [exact Hsum|]. fold n in Hsum. split.
  - intros Hle. subst n.
    destruct c; cbn [cap printed_trailer] in *; try reflexivity;
      match goal with
      | |- context [?a <? ?b] => destruct (Z.ltb_spec a b); [lia | reflexivity]
      end.
  - intros Hlt. subst n.
    destruct c; cbn [cap printed_trailer trailer] in *; try reflexivity;
      match goal with
      | |- context [?a <? ?b] => destruct (Z.ltb_spec a b); [reflexivity | lia]
      end.
Qed.

(** Twelve users give ten item lines and the remainder 2; three users give
    three item lines and nothing more. *)
Lemma collection_summaries_witness :
  summary_of
    (enumerate_users
       (always (replied 200 "{...}" (inr (VDict [("data", VList twelve_users)])))))
    keyed_world
  = [Fmt Colors.BLUE; Lit "[i] "; Lit "  Found "; Fmt (VInt 12); Lit " users";
     Fmt Colors.END]
    :: map (item_line Users) (firstn 10 twelve_users)
    ++ [[Fmt Colors.BLUE; Lit "[i] "; Lit "    ... and "; Fmt (VInt 2); Lit " more";
         Fmt Colors.END]]
  /\ summary_of
       (enumerate_users
          (always (replied 200 "{...}"
                     (inr (VDict [("data", VList (firstn 3 twelve_users))])))))
       keyed_world
     = [Fmt Colors.BLUE; Lit "[i] "; Lit "  Found "; Fmt (VInt 3); Lit " users";
        Fmt Colors.END]
       :: map (item_line Users) (firstn 3 twelve_users).
Proof.
  split.
  - destruct (collection_summaries
                (always (replied 200 "{...}" (inr (VDict [("data", VList twelve_users)]))))
                utc Users keyed_world
                (mkResponse 200 "{...}" (inr (VDict [("data", VList twelve_users)])))
                (VDict [("data", VList twelve_users)]) twelve_users
                eq_refl eq_refl ltac:(discriminate) eq_refl eq_refl eq_refl eq_refl eq_refl)
      as (_ & rest & Hsum & _ & Hmore).
    cbn [reporter] in Hsum. rewrite Hsum.
    rewrite Hmore by (cbn; lia). reflexivity.
  - destruct (collection_summaries
                (always (replied 200 "{...}"
                           (inr (VDict [("data", VList (firstn 3 twelve_users))]))))
                utc Users keyed_world
                (mkResponse 200 "{...}"
                   (inr (VDict [("data", VList (firstn 3 twelve_users))])))
                (VDict [("data", VList (firstn 3 twelve_users))]) (firstn 3 twelve_users)
                eq_refl eq_refl ltac:(discriminate) eq_refl eq_refl eq_refl eq_refl eq_refl)
      as (_ & rest & Hsum & Hall & _).
    cbn [reporter] in Hsum. rewrite Hsum.
    rewrite Hall by (cbn; lia). rewrite app_nil_r. reflexivity.
Defined.

(** * Further properties of the code *)

(** ** One probe, one request *)

Lemma method_cases (method : string) :
  (exists m, method = method_name m) \/ (method <> "GET" /\ method <> "POST").
Proof.
  destruct (String.eqb_spec method "GET") as [-> | Hg]; [left; now exists GET|].
  destruct (String.eqb_spec method "POST") as [-> | Hp]; [left; now exists POST|].
  right. split; assumption.
Qed.

Lemma probe_lines_count name description o :
  (1 <= List.length (probe_lines name description o) <= 3)%nat.
Proof.
  destruct o as [r|msg]; cbn [probe_lines]; [|cbn; lia].
  destruct (status_code r =? 200).
  - destruct (str_truthy description), (str_truthy (text r));
      try destruct (json r); cbn; lia.
  - destruct (status_code r =? 403); [cbn; lia|].
    destruct (status_code r =? 401); [cbn; lia|].
    destruct (status_code r =? 404); cbn; lia.
Qed.

(** X1: with the method ["GET"] or ["POST"], whatever the outcome,
    [test_endpoint] sends exactly one request (no retry): to [BASE_URL]
    followed by the endpoint, with the headers of [get_headers] and a
    timeout of 10; a GET carries no body even when [data] is given, a POST
    carries [data].  With any other method it sends nothing, prints one
    error line and returns [(False, None)].  In every case the globals are
    left alone, the call returns a pair, and it prints between one and
    three lines. *)
Theorem test_endpoint_sends_once net name method endpoint data description w :
  let res := fst (test_endpoint net name method endpoint data description w) in
  let w' := snd (test_endpoint net name method endpoint data description w) in
  (method = "GET" ->
     calls w' = calls w ++ [mkRequest GET (BASE_URL w ++ endpoint)
                              (headers_for (API_KEY w) (APP_KEY w)) None 10])
  /\ (method = "POST" ->
      calls w' = calls w ++ [mkRequest POST (BASE_URL w ++ endpoint)
                               (headers_for (API_KEY w) (APP_KEY w)) data 10])
  /\ (method <> "GET" -> method <> "POST" ->
      calls w' = calls w
      /\ res = Ok (false, VNone)
      /\ stdout w'
         = stdout w
           ++ [[Fmt Colors.RED; Lit "[✗] "; Fmt (VStr name); Lit ": Error - ";
                Fmt (VStr "cannot access local variable 'response' where it is not associated with a value");
                Fmt Colors.END]])
  /\ (API_KEY w' = API_KEY w /\ APP_KEY w' = APP_KEY w /\ BASE_URL w' = BASE_URL w)
  /\ (exists success body, res = Ok (success, body))
  /\ exists printed,
       stdout w' = stdout w ++ printed
       /\ (1 <= List.length printed <= 3)%nat.
Proof.
  intros res w'. subst res w'.
  split; [|split; [|split]].
  - intros ->. rewrite (test_endpoint_method net name GET). reflexivity.
  - intros ->. rewrite (test_endpoint_method net name POST). reflexivity.
  - intros Hg Hp. rewrite (test_endpoint_other net name method) by assumption.
    repeat split.
  - destruct (method_cases method) as [[m ->] | [Hg Hp]].
    + rewrite test_endpoint_method. cbv zeta. cbn [fst snd].
      split; [repeat split|]. split.
      * destruct (probe_value _) as [s b]. eauto.
      * eexists. split; [reflexivity | apply probe_lines_count].
    + rewrite (test_endpoint_other net name method) by assumption. cbn [fst snd].
      split; [repeat split|]. split; [eauto|].
      eexists. split; [reflexivity | cbn; lia].
Qed.

(** A forbidden GET is sent once; a PUT is not sent at all. *)
Lemma test_endpoint_sends_once_witness :
  List.length (calls (snd (test_endpoint (always forbidden_reply) "List Users" "GET"
                             "/api/v2/users" None "" keyed_world)))
  = 1%nat
  /\ test_endpoint (always forbidden_reply) "List Users" "PUT" "/api/v2/users" None ""
       keyed_world
     = (Ok (false, VNone),
        mkWorld "k" "" "https://api.datadoghq.com" 1700000000000000 []
          [[Fmt Colors.RED; Lit "[✗] "; Fmt (VStr "List Users"); Lit ": Error - ";
            Fmt (VStr "cannot access local variable 'response' where it is not associated with a value");
            Fmt Colors.END]]).
Proof.
  split.
  - rewrite (proj1 (test_endpoint_sends_once (always forbidden_reply) "List Users" "GET"
                      "/api/v2/users" None "" keyed_world) eq_refl).
    reflexivity.
  - destruct (proj1 (proj2 (proj2 (test_endpoint_sends_once (always forbidden_reply)
                                     "List Users" "PUT" "/api/v2/users" None ""
                                     keyed_world)))
                ltac:(discriminate) ltac:(discriminate)) as (Hc & Hres & Hout).
    destruct (test_endpoint (always forbidden_reply) "List Users" "PUT" "/api/v2/users"
                None "" keyed_world) as [res w'] eqn:E.
    cbn [fst snd] in *. subst res. f_equal.
    pose proof (f_equal snd E) as Hw. cbn [snd] in Hw.
    rewrite <- Hw. reflexivity.
Defined.

(** ** The requests of a run *)

(** X2: the program only reads: every request of every run is a GET
    without a body, sent with a timeout of 10. *)
Theorem run_only_gets net tz environ now argv :
  Forall (fun q => method q = GET /\ json_body q = None /\ timeout q = 10)
         (calls (snd (run net tz environ now argv))).
Proof.
  destruct (run_requests net tz environ now argv) as (tm & te & k & H).
  rewrite H. apply Forall_forall. intros q Hq.
  apply in_map_iff in Hq as (ep & <- & _). repeat split.
Qed.

Lemma append_cancel (b x y : string) : (b ++ x = b ++ y)%string -> x = y.
Proof.
  induction b as [|c b IH]; cbn; [trivial|]. intros [= H]. now apply IH.
Qed.

Lemma NoDup_map_injective {A B} (f : A -> B) (l : list A) :
  (forall x y, f x = f y -> x = y) -> NoDup l -> NoDup (map f l).
Proof.
  intros Hf. induction 1 as [|x l Hx _ IH]; cbn; constructor; [|exact IH].
  intros Hin. apply in_map_iff in Hin as (y & Hy & Hin).
  apply Hf in Hy. now subst.
Qed.

Lemma NoDup_firstn {A} k (l : list A) : NoDup l -> NoDup (firstn k l).
Proof.
  intros H. rewrite <- (firstn_skipn k l) in H.
  apply NoDup_app_remove_r in H. exact H.
Qed.

Lemma all_endpoints_NoDup t_metrics t_events :
  NoDup (all_endpoints t_metrics t_events).
Proof.
  unfold all_endpoints, metrics_endpoint, events_endpoint.
  repeat (constructor;
          [ cbn [In]; intros H;
            repeat (destruct H as [H | H]; [discriminate H|]); exact H |]).
  constructor.
Qed.

(** X3: the requests of any run are a prefix of the fixed sequence of 28
    endpoints (whatever the answers, nothing is retried, reordered or
    skipped): at most 28 requests, to pairwise different URLs. *)
Theorem run_requests_follow_the_catalogue net tz environ now argv :
  let sent_requests := calls (snd (run net tz environ now argv)) in
  (exists t_metrics t_events k,
     map url sent_requests
     = map (fun ep => BASE_URL (snd (run net tz environ now argv)) ++ ep)%string
           (firstn k (all_endpoints t_metrics t_events)))
  /\ (List.length sent_requests <= 28)%nat
  /\ NoDup (map url sent_requests).
Proof.
  intros sent_requests. subst sent_requests.
  destruct (run_requests net tz environ now argv) as (tm & te & k & H).
  rewrite H, map_map. cbn [probe_request request_of url].
  split; [exists tm, te, k; reflexivity|]. split.
  - rewrite length_map, length_firstn. cbn [all_endpoints List.length]. lia.
  - apply NoDup_map_injective; [intros x y; apply append_cancel|].
    apply NoDup_firstn, all_endpoints_NoDup.
Qed.

(** ** The keys in force *)

Lemma run_headers net tz environ now argv :
  Forall (fun q => headers q
                   = headers_for (resolved_api_key environ argv)
                       (resolved_app_key environ argv))
         (calls (snd (run net tz environ now argv))).
Proof.
  destruct (run_requests net tz environ now argv) as (tm & te & k & H).
  rewrite H. apply Forall_forall. intros q Hq.
  apply in_map_iff in Hq as (ep & <- & Hep).
  cbn [probe_request request_of headers].
  rewrite run_eq in *. destruct (namespace_of argv) as [args|] eqn:Hn.
  - destruct (str_truthy (resolved_api_key environ argv)).
    + destruct (ready_facts environ now argv args Hn) as (Ha & Hb & _).
      destruct (probing_phase_extends net tz (ready environ now args))
        as (eps & ts & (Ha' & Hb' & _)).
      now rewrite Ha', Hb', Ha, Hb.
    + cbn [snd calls usage_shown say with_keys module_init] in H.
      destruct k; cbn in H; [destruct Hep | discriminate H].
  - cbn [snd calls module_init] in H. destruct k; cbn in H; [destruct Hep | discriminate H].
Qed.

(** X4: a key given on the command line wins over the environment, and an
    empty or absent argument falls back to it: every request carries as
    [DD-API-KEY] the non-empty command-line key, else the value of
    [DD_API_KEY]; as [DD-APPLICATION-KEY] the non-empty command-line
    application key, else the non-empty value of [DD_APP_KEY], else no such
    header. *)
Theorem command_line_keys_win net tz environ now argv q :
  In q (calls (snd (run net tz environ now argv))) ->
  (forall k, cl_api_key argv = Some k -> k <> "" ->
     forall v, In ("DD-API-KEY", v) (headers q) <-> v = k)
  /\ (cl_api_key argv = None \/ cl_api_key argv = Some "" ->
      forall v, In ("DD-API-KEY", v) (headers q)
                <-> v = os_environ_get environ "DD_API_KEY" "")
  /\ (forall k, cl_app_key argv = Some k -> k <> "" ->
        forall v, In ("DD-APPLICATION-KEY", v) (headers q) <-> v = k)
  /\ (cl_app_key argv = None \/ cl_app_key argv = Some "" ->
      forall v, In ("DD-APPLICATION-KEY", v) (headers q)
                <-> (v = os_environ_get environ "DD_APP_KEY" "" /\ v <> "")).
Proof.
  intros Hq.
  pose proof (run_headers net tz environ now argv) as H.
  rewrite Forall_forall in H. specialize (H q Hq). rewrite H. clear H Hq.
  unfold headers_for, resolved_api_key, resolved_app_key.
  assert (Hapi : forall a b v,
            In ("DD-API-KEY", v)
               ([("DD-API-KEY", a); ("Content-Type", "application/json")]
                ++ (if str_truthy b then [("DD-APPLICATION-KEY", b)] else []))
            <-> v = a).
  { intros a b v. destruct (str_truthy b); cbn; split.
    - intros [H | [H | [H | []]]]; try discriminate H. now injection H as <-.
    - intros ->. auto.
    - intros [H | [H | []]]; try discriminate H. now injection H as <-.
    - intros ->. auto. }
  assert (Happ : forall a b v,
            In ("DD-APPLICATION-KEY", v)
               ([("DD-API-KEY", a); ("Content-Type", "application/json")]
                ++ (if str_truthy b then [("DD-APPLICATION-KEY", b)] else []))
            <-> (v = b /\ v <> "")).
  { intros a b v. destruct b as [|c b]; cbn; split.
    - intros [H | [H | []]]; discriminate H.
    - intros [-> Hne]. contradiction.
    - intros [H | [H | [H | []]]]; try discriminate H.
      injection H as <-. split; [reflexivity | discriminate].
    - intros [-> _]. auto. }
  split; [|split; [|split]].
  - intros k -> Hk v. rewrite Hapi.
    destruct k; [contradiction | reflexivity].
  - intros [-> | ->] v; rewrite Hapi; reflexivity.
  - intros k -> Hk v. rewrite Happ.
    destruct k as [|c k]; [contradiction|]. cbn [str_truthy].
    split; [intros [-> _]; reflexivity | intros ->; split; [reflexivity | discriminate]].
  - intros [-> | ->] v; rewrite Happ; reflexivity.
Qed.

(** The key on the command line is ["cli"], the one in the environment
    ["env"]: the validation request carries ["cli"] and not ["env"]. *)
Lemma command_line_keys_win_witness :
  In ("DD-API-KEY", "cli")
     (headers (mkRequest GET "https://api.datadoghq.com/api/v1/validate"
                 [("DD-API-KEY", "cli"); ("Content-Type", "application/json")] None 10))
  /\ ~ In ("DD-API-KEY", "env")
         (headers (mkRequest GET "https://api.datadoghq.com/api/v1/validate"
                     [("DD-API-KEY", "cli"); ("Content-Type", "application/json")]
                     None 10)).
Proof.
  assert (Hq : In (mkRequest GET "https://api.datadoghq.com/api/v1/validate"
                     [("DD-API-KEY", "cli"); ("Content-Type", "application/json")] None 10)
                  (calls (snd (run (always forbidden_reply) utc [("DD_API_KEY", "env")]
                                 1700000000000000
                                 (mkCommandLine (Some "cli") None None))))).
  { vm_compute. left. reflexivity. }
  pose proof (proj1 (command_line_keys_win (always forbidden_reply) utc [("DD_API_KEY", "env")]
                       1700000000000000 (mkCommandLine (Some "cli") None None) _ Hq)
                "cli" eq_refl ltac:(discriminate)) as H.
  split.
  - apply H. reflexivity.
  - intros Hin. apply H in Hin. discriminate Hin.
Defined.

(** ** How a run can end *)

Lemma tame_sections net tz : Forall (fun s => Tame (sec_run s)) (sections net tz).
Proof.
  unfold sections.
  repeat (apply Forall_cons; [cbn [sec_run]|]); [..|apply Forall_nil].
  - unfold enumerate_organization. tame.
  - unfold enumerate_users. tame.
  - unfold enumerate_api_keys. tame.
  - unfold enumerate_app_keys. tame.
  - unfold enumerate_roles. tame.
  - unfold enumerate_service_accounts. tame.
  - unfold enumerate_hosts. tame.
  - unfold enumerate_metrics. tame.
  - unfold enumerate_dashboards. tame.
  - unfold enumerate_monitors. tame.
  - unfold enumerate_events. tame.
  - unfold enumerate_downtimes. tame.
  - unfold enumerate_slos. tame.
  - unfold enumerate_notebooks. tame.
  - unfold enumerate_logs. tame.
  - unfold enumerate_apm. tame.
  - unfold enumerate_synthetics. tame.
  - unfold enumerate_rum. tame.
  - unfold enumerate_integrations, integrations. tame.
  - unfold enumerate_security. tame.
Qed.

Lemma tame_seq (l : list (M unit)) (final : M unit) :
  Forall Tame l -> Tame final -> Tame (seq l final).
Proof.
  intros Hl Hf. induction Hl as [|m l Hm _ IH]; cbn [seq]; [exact Hf|].
  apply tame_bind; [exact Hm | intros _; exact IH].
Qed.

Lemma tame_enumeration net tz : Tame (enumeration net tz).
Proof.
  unfold enumeration. apply tame_seq.
  - apply Forall_map. exact (tame_sections net tz).
  - unfold closing. tame.
Qed.



(** ** What a run prints first *)

Lemma bind_assoc {A B C} (m : M A) (f : A -> M B) (k : B -> M C) w :
  bind (bind m f) k w = bind m (fun a => bind (f a) k) w.
Proof. unfold bind. destruct (m w) as [[a | e | c] w1]; reflexivity. Qed.

Lemma tame_after_header {A} (body : M A) title :
  Tame body ->
  forall w, exists rest,
    stdout (snd (bind (print_header title) (fun _ => body) w))
    = stdout w ++ header_lines title ++ rest.
Proof.
  intros Hb w. unfold bind at 1. rewrite print_header_eq. cbv beta iota.
  destruct (Hb (headed w title)) as [[ls Hls] _].
  exists ls. now rewrite Hls, stdout_headed, app_assoc.
Qed.

Lemma stdout_greeted w :
  stdout (greeted w)
  = stdout w
    ++ [ banner; info_line [Lit "Using API endpoint: "; Fmt (VStr (BASE_URL w))] ]
    ++ (if str_truthy (APP_KEY w) then []
        else [ warning_line
                 [Lit "No Application Key provided - some endpoints may be inaccessible"];
               warning_line
                 [Lit "API keys can only submit data, Application keys are needed to read data"] ]).
Proof.
  unfold greeted. cbv zeta. destruct (str_truthy (APP_KEY w));
    rewrite !say_say; unfold say; cbn [stdout]; reflexivity.
Qed.

Lemma stdout_ready environ now argv args :
  namespace_of argv = Some args ->
  stdout (ready environ now args)
  = [ banner;
      info_line [Lit "Using API endpoint: ";
                 Fmt (VStr (regions_get regions (region args)
                              "https://api.datadoghq.com"))] ]
    ++ (if str_truthy (resolved_app_key environ argv) then []
        else [ warning_line
                 [Lit "No Application Key provided - some endpoints may be inaccessible"];
               warning_line
                 [Lit "API keys can only submit data, Application keys are needed to read data"] ]).
Proof.
  intros Hn. destruct (ready_facts environ now argv args Hn) as (_ & Hb & _).
  unfold ready in *. rewrite stdout_greeted.
  destruct (Extends_greeted (with_base_url args (with_keys args (module_init environ now))))
    as (_ & Hb' & _).
  rewrite <- Hb, Hb'. reflexivity.
Qed.

Lemma region_host argv args :
  namespace_of argv = Some args ->
  In (region args, regions_get regions (region args) "https://api.datadoghq.com")
     [ ("us1", "https://api.datadoghq.com");
       ("us3", "https://api.us3.datadoghq.com");
       ("us5", "https://api.us5.datadoghq.com");
       ("eu", "https://api.datadoghq.eu");
       ("ap1", "https://api.ap1.datadoghq.com") ].
Proof.
  intros Hn. destruct (namespace_keys _ _ Hn) as (_ & _ & [[_ Hr] | [_ Hr]]).
  - rewrite Hr. cbn. auto.
  - apply str_in_In in Hr. cbn in Hr.
    destruct Hr as [<- | [<- | [<- | [<- | [<- | []]]]]]; cbn; auto 6.
Qed.

(** X12: a run that has a key prints, before anything else, the banner
    (the block letters, then the box with the version and the author) and
    the line naming the API host of the chosen region, then the two warning
    lines exactly when no application key is in force, and only then the
    header of the validation probe. *)
Theorem run_greets_before_probing net tz environ now argv args :
  fst (parse_args argv (module_init environ now)) = Ok args ->
  str_truthy (resolved_api_key environ argv) = true ->
  exists host rest,
    In (region args, host)
       [ ("us1", "https://api.datadoghq.com");
         ("us3", "https://api.us3.datadoghq.com");
         ("us5", "https://api.us5.datadoghq.com");
         ("eu", "https://api.datadoghq.eu");
         ("ap1", "https://api.ap1.datadoghq.com") ]
    /\ stdout (snd (run net tz environ now argv))
       = [ [Lit nl; Fmt Colors.BOLD; Fmt Colors.CYAN;
            Lit "
    ██████╗  █████╗ ████████╗ █████╗ ██████╗  ██████╗  ██████╗ 
    ██╔══██╗██╔══██╗╚══██╔══╝██╔══██╗██╔══██╗██╔═══██╗██╔════╝ 
    ██║  ██║███████║   ██║   ███████║██║  ██║██║   ██║██║  ███╗
    ██║  ██║██╔══██║   ██║   ██╔══██║██║  ██║██║   ██║██║   ██║
    ██████╔╝██║  ██║   ██║   ██║  ██║██████╔╝╚██████╔╝╚██████╔╝
    ╚═════╝ ╚═╝  ╚═╝   ╚═╝   ╚═╝  ╚═╝╚═════╝  ╚═════╝  ╚═════╝ 
                                                               
    ███████╗███╗   ██╗██╗   ██╗███╗   ███╗███████╗██████╗      
    ██╔════╝████╗  ██║██║   ██║████╗ ████║██╔════╝██╔══██╗     
    █████╗  ██╔██╗ ██║██║   ██║██╔████╔██║█████╗  ██████╔╝     
    ██╔══╝  ██║╚██╗██║██║   ██║██║╚██╔╝██║██╔══╝  ██╔══██╗     
    ███████╗██║ ╚████║╚██████╔╝██║ ╚═╝ ██║███████╗██║  ██║     
    ╚══════╝╚═╝  ╚═══╝ ╚═════╝ ╚═╝     ╚═╝╚══════╝╚═╝  ╚═╝     
";
            Fmt Colors.END; Lit nl; Fmt Colors.YELLOW;
            Lit "    ╔══════════════════════════════════════════════════════════╗
    ║  Datadog API Key Enumeration Tool v";
            Fmt (VStr "1.0.0");
            Lit "                  ║
    ║  Author: ";
            Fmt (VStr "l0lsec");
            Lit "                                         ║
    ║  GitHub: github.com/l0lsec                                 ║
    ╚══════════════════════════════════════════════════════════╝";
            Fmt Colors.END; Lit nl];
           [Fmt Colors.BLUE; Lit "[i] "; Lit "Using API endpoint: "; Fmt (VStr host);
            Fmt Colors.END] ]
         ++ (if str_truthy (resolved_app_key environ argv) then []
             else [ [Fmt Colors.YELLOW; Lit "[!] ";
                     Lit "No Application Key provided - some endpoints may be inaccessible";
                     Fmt Colors.END];
                    [Fmt Colors.YELLOW; Lit "[!] ";
                     Lit "API keys can only submit data, Application keys are needed to read data";
                     Fmt Colors.END] ])
         ++ [ [Lit nl; Fmt Colors.BOLD; Fmt Colors.CYAN; Fmt (VStr (str_mul "=" 60));
               Fmt Colors.END];
              [Fmt Colors.BOLD; Fmt Colors.CYAN; Fmt (VStr "VALIDATING API KEY");
               Fmt Colors.END];
              [Fmt Colors.BOLD; Fmt Colors.CYAN; Fmt (VStr (str_mul "=" 60));
               Fmt Colors.END] ]
         ++ rest.
Proof.
  intros Hp Hk. apply parsed_namespace in Hp. rewrite run_eq, Hp, Hk.
  exists (regions_get regions (region args) "https://api.datadoghq.com").
  unfold probing_phase, validate_api_key. rewrite bind_assoc.
  match goal with
  | |- context [bind (print_header ?t) (fun _ => ?b) ?w] =>
      assert (Hb : Tame b);
      [| destruct (tame_after_header b t Hb w) as [rest Hrest] ]
  end.
  - apply tame_bind; [tame|]. intros valid.
    apply tame_bind; [tame | intros _; apply tame_enumeration].
  - exists rest. split; [exact (region_host argv args Hp)|].
    rewrite Hrest, (stdout_ready environ now argv args Hp).
    rewrite <- !app_assoc. reflexivity.
Qed.

(** No application key, region [eu]: the endpoint line names the EU host,
    and the two warnings come after it. *)
Lemma run_greets_before_probing_witness :
  firstn 3 (skipn 1 (stdout (snd (run (always forbidden_reply) utc [("DD_API_KEY", "k")]
                                    1700000000000000
                                    (mkCommandLine None None (Some "eu"))))))
  = [ [Fmt Colors.BLUE; Lit "[i] "; Lit "Using API endpoint: ";
       Fmt (VStr "https://api.datadoghq.eu"); Fmt Colors.END];
      [Fmt Colors.YELLOW; Lit "[!] ";
       Lit "No Application Key provided - some endpoints may be inaccessible";
       Fmt Colors.END];
      [Fmt Colors.YELLOW; Lit "[!] ";
       Lit "API keys can only submit data, Application keys are needed to read data";
       Fmt Colors.END] ].
Proof.
  destruct (run_greets_before_probing (always forbidden_reply) utc [("DD_API_KEY", "k")]
              1700000000000000 (mkCommandLine None None (Some "eu"))
              (mkNamespace None None "eu") eq_refl eq_refl)
    as (host & rest & Hin & H).
  rewrite H. cbn [str_truthy resolved_app_key cl_app_key os_environ_get String.eqb
                  Ascii.eqb Bool.eqb app skipn firstn].
  cbn [region] in Hin. cbn [In] in Hin.
  destruct Hin as [E | [E | [E | [E | [E | []]]]]]; try discriminate E.
  injection E as <-. reflexivity.
Defined.

(** ** What the reporters do with an accessible answer *)

(** X7: given an accessible answer that is a non-empty dictionary, the
    organization reporter prints the name, the public id and the creation
    date of its ['org'] entry, each replaced by ['N/A'] when missing (all
    three when ['org'] itself is missing); when ['org'] is not a dictionary
    it prints nothing and an [AttributeError] leaves it; when one of the
    three values is text that cannot be printed, a [UnicodeEncodeError]
    leaves it. *)
Theorem organization_summary net w d :
  probe_value (result_of (net (List.length (calls w)) (probe_request w "/api/v1/org")))
  = (true, VDict d) ->
  d <> [] ->
  match dict_get d "org" (VDict []) with
  | VDict org =>
      let name := dict_get org "name" (VStr "N/A") in
      let public_id := dict_get org "public_id" (VStr "N/A") in
      let created := dict_get org "created" (VStr "N/A") in
      if printable name && printable public_id && printable created then
        fst (enumerate_organization net w) = Ok tt
        /\ summary_of (enumerate_organization net) w
           = [ [Fmt Colors.BLUE; Lit "[i] "; Lit "  Name: "; Data name; Fmt Colors.END];
               [Fmt Colors.BLUE; Lit "[i] "; Lit "  Public ID: "; Data public_id;
                Fmt Colors.END];
               [Fmt Colors.BLUE; Lit "[i] "; Lit "  Created: "; Data created;
                Fmt Colors.END] ]
      else
        exists e, fst (enumerate_organization net w) = Raise e
                  /\ exn_class_of e = UnicodeEncodeError
  | other =>
      fst (enumerate_organization net w)
      = Raise (Exn AttributeError
                 ("'" ++ type_name other ++ "' object has no attribute 'get'"))
      /\ summary_of (enumerate_organization net) w = []
  end.
Proof.
  intros Hv Hd.
  assert (Ht : truthy (VDict d) = true) by (destruct d; [contradiction | reflexivity]).
  destruct (dict_get d "org" (VDict [])) as [ | b | n | f | s | l | org ] eqn:Horg;
    try (summary_of_reporter enumerate_organization;
         intros W; cbv beta iota; rewrite Ht; eval_summary; rewrite Horg;
         cbn [py_get lift type_name];
         unfold bind, raise; now rewrite say_nil).
  cbv zeta.
  assert (HK : forall W,
            (fun r : bool * value =>
               let '(success, data) := r in
               when (success && truthy data)
                 (org <- lift (py_get data "org" (VDict [])) ;;
                  name <- lift (py_get org "name" na) ;;
                  print_info [Lit "  Name: "; Data name] ;;
                  public_id <- lift (py_get org "public_id" na) ;;
                  print_info [Lit "  Public ID: "; Data public_id] ;;
                  created <- lift (py_get org "created" na) ;;
                  print_info [Lit "  Created: "; Data created])) (true, VDict d) W
            = if printable (dict_get org "name" (VStr "N/A"))
              then if printable (dict_get org "public_id" (VStr "N/A"))
                   then if printable (dict_get org "created" (VStr "N/A"))
                        then (Ok tt,
                              say W [ info_line [Lit "  Name: ";
                                                 Data (dict_get org "name" (VStr "N/A"))];
                                      info_line [Lit "  Public ID: ";
                                                 Data (dict_get org "public_id" (VStr "N/A"))];
                                      info_line [Lit "  Created: ";
                                                 Data (dict_get org "created" (VStr "N/A"))] ])
                        else (Raise unprintable,
                              say W [ info_line [Lit "  Name: ";
                                                 Data (dict_get org "name" (VStr "N/A"))];
                                      info_line [Lit "  Public ID: ";
                                                 Data (dict_get org "public_id" (VStr "N/A"))] ])
                   else (Raise unprintable,
                         say W [ info_line [Lit "  Name: ";
                                            Data (dict_get org "name" (VStr "N/A"))] ])
              else (Raise unprintable, say W [])).
  { intros W. cbv beta iota. rewrite Ht. cbn [andb when py_get lift]. rewrite bind_ret.
    rewrite Horg. cbn [py_get lift]. rewrite bind_ret. unfold na.
    rewrite bind_print_info_data.
    destruct (printable (dict_get org "name" (VStr "N/A"))); [|now rewrite say_nil].
    rewrite bind_ret, bind_print_info_data.
    destruct (printable (dict_get org "public_id" (VStr "N/A"))); [|reflexivity].
    rewrite bind_ret, print_info_data.
    destruct (printable (dict_get org "created" (VStr "N/A")));
      rewrite ?say_say; reflexivity. }
  destruct (printable (dict_get org "name" (VStr "N/A"))) eqn:Hn;
    [destruct (printable (dict_get org "public_id" (VStr "N/A"))) eqn:Hp;
     [destruct (printable (dict_get org "created" (VStr "N/A"))) eqn:Hc|]|];
    cbn [andb].
  - summary_of_reporter enumerate_organization. exact HK.
  - exists unprintable. split; [|reflexivity].
    eapply proj1. summary_of_reporter enumerate_organization. exact HK.
  - exists unprintable. split; [|reflexivity].
    eapply proj1. summary_of_reporter enumerate_organization. exact HK.
  - exists unprintable. split; [|reflexivity].
    eapply proj1. summary_of_reporter enumerate_organization. exact HK.
Qed.

(** An organization with a name and a public id, and no creation date. *)
Lemma organization_summary_witness :
  summary_of
    (enumerate_organization
       (always (replied 200 "{...}"
                  (inr (VDict [("org", VDict [("name", VStr "Acme");
                                              ("public_id", VStr "abc123")])])))))
    keyed_world
  = [ [Fmt Colors.BLUE; Lit "[i] "; Lit "  Name: "; Data (VStr "Acme"); Fmt Colors.END];
      [Fmt Colors.BLUE; Lit "[i] "; Lit "  Public ID: "; Data (VStr "abc123");
       Fmt Colors.END];
      [Fmt Colors.BLUE; Lit "[i] "; Lit "  Created: "; Data (VStr "N/A");
       Fmt Colors.END] ].
Proof.
  exact (proj2 (organization_summary
                  (always (replied 200 "{...}"
                             (inr (VDict [("org", VDict [("name", VStr "Acme");
                                                         ("public_id", VStr "abc123")])]))))
                  keyed_world
                  [("org", VDict [("name", VStr "Acme"); ("public_id", VStr "abc123")])]
                  eq_refl ltac:(discriminate))).
Defined.

(** X8: given an accessible answer that counts as true, the application
    keys, synthetics, notebooks, SLOs and events reporters print one line
    with the size of what the answer holds under their key: the number of
    items of a list (0 when the key is missing), of entries of a
    dictionary, of characters of a string; when the answer is not a
    dictionary, or what it holds has no size, an [AttributeError] or a
    [TypeError] leaves the reporter and nothing is printed. *)
Theorem tally_summary net tz t w body :
  probe_value (result_of (net (List.length (calls w))
                            (probe_request w (tally_endpoint tz t (clock w)))))
  = (true, body) ->
  truthy body = true ->
  let R := tally_reporter net tz t in
  let found (n : nat) :=
    fst (R w) = Ok tt
    /\ summary_of R w
       = [[Fmt Colors.BLUE; Lit "[i] "; Lit "  Found "; Fmt (VInt (Z.of_nat n));
           Lit (tally_noun t); Fmt Colors.END]] in
  match body with
  | VDict d =>
      match dict_get d (tally_key t) (VList []) with
      | VList items => found (List.length items)
      | VDict entries => found (List.length entries)
      | VStr s => found (List.length (code_points s))
      | other =>
          fst (R w)
          = Raise (Exn TypeError ("object of type '" ++ type_name other ++ "' has no len()"))
          /\ summary_of R w = []
      end
  | other =>
      fst (R w)
      = Raise (Exn AttributeError
                 ("'" ++ type_name other ++ "' object has no attribute 'get'"))
      /\ summary_of R w = []
  end.
Proof.
  intros Hv Ht R found. subst R found. cbv beta.
  destruct t; cbn [tally_reporter tally_endpoint tally_key tally_noun] in *;
    (destruct body as [ | | | | | | d ];
     [ .. | destruct (dict_get d _ (VList [])) eqn:Hget ]);
    match goal with
    | |- fst (?R net w) = _ /\ _ => summary_of_reporter R
    | |- fst (?R net tz w) = _ /\ _ => summary_of_reporter R
    end;
    intros W; cbv beta iota; rewrite Ht; cbn [andb when py_get lift type_name];
    rewrite ?bind_ret; rewrite ?Hget; cbn [py_len lift type_name]; rewrite ?bind_ret;
    try (unfold bind, raise; now rewrite say_nil);
    rewrite print_info_ok by reflexivity; reflexivity.
Qed.

(** No ['data'] entry: zero notebooks; a string of two characters under
    ['data']: two SLOs; a number under ['tests']: a [TypeError]. *)
Lemma tally_summary_witness :
  summary_of (enumerate_notebooks
                (always (replied 200 "{...}" (inr (VDict [("meta", VDict [])])))))
    keyed_world
  = [[Fmt Colors.BLUE; Lit "[i] "; Lit "  Found "; Fmt (VInt 0); Lit " notebooks";
      Fmt Colors.END]]
  /\ summary_of (enumerate_slos
                   (always (replied 200 "{...}" (inr (VDict [("data", VStr "日本")])))))
       keyed_world
     = [[Fmt Colors.BLUE; Lit "[i] "; Lit "  Found "; Fmt (VInt 2); Lit " SLOs";
         Fmt Colors.END]]
  /\ fst (enumerate_synthetics
            (always (replied 200 "{...}" (inr (VDict [("tests", VInt 3)]))))
            keyed_world)
     = Raise (Exn TypeError "object of type 'int' has no len()").
Proof.
  split; [|split].
  - exact (proj2 (tally_summary
                    (always (replied 200 "{...}" (inr (VDict [("meta", VDict [])]))))
                    utc Notebooks keyed_world (VDict [("meta", VDict [])])
                    eq_refl eq_refl)).
  - exact (proj2 (tally_summary
                    (always (replied 200 "{...}" (inr (VDict [("data", VStr "日本")]))))
                    utc Slos keyed_world (VDict [("data", VStr "日本")])
                    eq_refl eq_refl)).
  - exact (proj1 (tally_summary
                    (always (replied 200 "{...}" (inr (VDict [("tests", VInt 3)]))))
                    utc Synthetics keyed_world (VDict [("tests", VInt 3)])
                    eq_refl eq_refl)).
Defined.

(** ** The validation probe *)

(** X6: when its probe returns [(True, body)], [validate_api_key] prints the
    header and the probe's two lines, and then: for a body that counts as
    false, nothing more, returning [True]; for a non-empty dictionary, the
    line [Valid:] with its ['valid'] entry (['Unknown'] when missing),
    returning [True], or nothing and a [UnicodeEncodeError] when the entry
    is text that cannot be printed; for any other body, nothing more, and
    an [AttributeError] leaves it. *)
Theorem validate_api_key_reports net w body :
  probe_value (result_of (net (List.length (calls w))
                            (probe_request w "/api/v1/validate")))
  = (true, body) ->
  let res := fst (validate_api_key net w) in
  let out := stdout (snd (validate_api_key net w)) in
  let shown :=
    stdout w
    ++ [ [Lit nl; Fmt Colors.BOLD; Fmt Colors.CYAN; Fmt (VStr (str_mul "=" 60));
          Fmt Colors.END];
         [Fmt Colors.BOLD; Fmt Colors.CYAN; Fmt (VStr "VALIDATING API KEY");
          Fmt Colors.END];
         [Fmt Colors.BOLD; Fmt Colors.CYAN; Fmt (VStr (str_mul "=" 60));
          Fmt Colors.END];
         [Fmt Colors.GREEN; Lit "[✓] "; Fmt (VStr "API Key Validation");
          Lit ": ACCESSIBLE"; Fmt Colors.END];
         [Fmt Colors.BLUE; Lit "[i] "; Lit "  → ";
          Fmt (VStr "Confirms the API key is valid"); Fmt Colors.END] ] in
  (truthy body = false -> res = Ok true /\ out = shown)
  /\ (forall d, body = VDict d -> d <> [] ->
        let valid := dict_get d "valid" (VStr "Unknown") in
        if printable valid then
          res = Ok true
          /\ out = shown ++ [[Fmt Colors.BLUE; Lit "[i] "; Lit "  Valid: "; Data valid;
                              Fmt Colors.END]]
        else
          (exists e, res = Raise e /\ exn_class_of e = UnicodeEncodeError)
          /\ out = shown)
  /\ (truthy body = true -> is_dict body = false ->
      res = Raise (Exn AttributeError
                     ("'" ++ type_name body ++ "' object has no attribute 'get'"))
      /\ out = shown).
Proof.
  intros Hv res out shown. subst res out shown.
  rewrite validate_api_key_result. cbv zeta.
  rewrite (probe_lines_accessible _ _ _ _ Hv), Hv. cbn [str_truthy].
  split; [|split].
  - intros Hf. rewrite Hf. cbn [fst snd say sent stdout].
    rewrite stdout_headed, <- !app_assoc. split; reflexivity.
  - intros d -> Hd. destruct d as [|kv d]; [contradiction|]. cbn [truthy].
    destruct (printable _); cbn [fst snd say sent stdout];
      rewrite stdout_headed, <- !app_assoc.
    + split; reflexivity.
    + split; [exists unprintable; split; reflexivity | reflexivity].
  - intros Ht Hn. rewrite Ht.
    destruct body; try discriminate Hn;
      cbn [fst snd say sent stdout type_name];
      rewrite stdout_headed, <- !app_assoc; split; reflexivity.
Qed.

(** The usual answer shows [Valid: True]; an answer without the entry shows
    [Valid: Unknown]. *)
Lemma validate_api_key_reports_witness :
  last (stdout (snd (validate_api_key (always valid_reply) keyed_world))) []
  = [Fmt Colors.BLUE; Lit "[i] "; Lit "  Valid: "; Data (VBool true); Fmt Colors.END]
  /\ last (stdout (snd (validate_api_key
                          (always (replied 200 "{...}" (inr (VDict [("ok", VInt 1)]))))
                          keyed_world))) []
     = [Fmt Colors.BLUE; Lit "[i] "; Lit "  Valid: "; Data (VStr "Unknown");
        Fmt Colors.END].
Proof.
  split.
  - rewrite (proj2 (proj1 (proj2 (validate_api_key_reports (always valid_reply) keyed_world
                                    (VDict [("valid", VBool true)]) eq_refl))
                      [("valid", VBool true)] eq_refl ltac:(discriminate))).
    reflexivity.
  - rewrite (proj2 (proj1 (proj2 (validate_api_key_reports
                                    (always (replied 200 "{...}"
                                               (inr (VDict [("ok", VInt 1)]))))
                                    keyed_world (VDict [("ok", VInt 1)]) eq_refl))
                      [("ok", VInt 1)] eq_refl ltac:(discriminate))).
    reflexivity.
Defined.

(** X9: an accessible validation answer that is neither a dictionary nor a
    value that counts as false (a JSON array, a string, a number) ends the
    run with an uncaught [AttributeError] (status 1): the validation request
    is the only one sent and no reporter runs. *)
Theorem run_dies_in_validation net tz environ now argv args body :
  fst (parse_args argv (module_init environ now)) = Ok args ->
  str_truthy (resolved_api_key environ argv) = true ->
  probe_value (result_of (net 0%nat (validation_request environ argv args)))
  = (true, body) ->
  truthy body = true -> is_dict body = false ->
  exists w',
    run net tz environ now argv
    = (Raise (Exn AttributeError
                ("'" ++ type_name body ++ "' object has no attribute 'get'")), w')
    /\ exit_status (fst (run net tz environ now argv)) = 1
    /\ calls w' = [validation_request environ argv args]
    /\ titles w' = ["VALIDATING API KEY"].
Proof.
  intros Hp Hk Hv Ht Hn. apply parsed_namespace in Hp.
  rewrite run_eq, Hp, Hk.
  destruct (ready_facts environ now argv args Hp) as (_ & _ & _ & Hc & Htl & _).
  pose proof (ready_validation_request environ now argv args Hp) as Hreq.
  set (w := ready environ now args) in *.
  destruct (validate_api_key_spec net w) as (He & _).
  assert (Hres : fst (validate_api_key net w)
                 = Raise (Exn AttributeError
                            ("'" ++ type_name body ++ "' object has no attribute 'get'"))).
  { rewrite validate_api_key_eq. cbv zeta. rewrite Hc. cbn [List.length].
    rewrite Hreq, Hv. cbv beta iota. cbn [andb]. rewrite Ht. cbn [when].
    destruct body; try discriminate Hn; reflexivity. }
  rewrite probing_phase_eq.
  destruct (validate_api_key net w) as [r wv]. cbn [fst snd] in *. subst r.
  exists wv. split; [reflexivity|]. split; [reflexivity|].
  destruct (Extends_from_start _ _ _ _ He Hc Htl) as [H1 H2].
  rewrite H1, H2. split; [|reflexivity]. cbn [map]. f_equal.
  rewrite <- Hreq. apply probe_request_ext; apply He.
Qed.

(** The validation endpoint answers with a JSON array. *)
Lemma run_dies_in_validation_witness :
  fst (run (always (replied 200 "[...]" (inr (VList [VBool true])))) utc
         [("DD_API_KEY", "k")] 1700000000000000 (mkCommandLine None None None))
  = Raise (Exn AttributeError "'list' object has no attribute 'get'").
Proof.
  destruct (run_dies_in_validation
              (always (replied 200 "[...]" (inr (VList [VBool true])))) utc
              [("DD_API_KEY", "k")] 1700000000000000 (mkCommandLine None None None)
              (mkNamespace None None "us1") (VList [VBool true])
              eq_refl eq_refl eq_refl eq_refl eq_refl) as (w' & H & _).
  rewrite H. reflexivity.
Defined.

(** ** Answers with nothing in them *)

Ltac skip_summary R Hf :=
  let W := fresh "W" in
  summary_of_reporter R;
  intros W; cbv beta iota; rewrite Hf; cbn [andb when]; unfold ret;
  now rewrite say_nil.

(** A summarising reporter whose probe returns [(True, body)] with a body
    that counts as false prints no summary and returns. *)
Lemma empty_body_skipped net tz w body :
  (forall req, probe_value (result_of (net (List.length (calls w)) req)) = (true, body)) ->
  truthy body = false ->
  Forall (fun R => fst (R w) = Ok tt /\ summary_of R w = []) (summarising_reporters net tz).
Proof.
  intros Hv Hf. unfold summarising_reporters.
  pose proof (fun ep => Hv (probe_request w ep)) as Hv'.
  repeat (apply Forall_cons; [|]); [..|apply Forall_nil].
  - skip_summary enumerate_organization Hf.
  - skip_summary enumerate_users Hf.
  - skip_summary enumerate_api_keys Hf.
  - skip_summary enumerate_app_keys Hf.
  - skip_summary enumerate_roles Hf.
  - skip_summary enumerate_hosts Hf.
  - skip_summary enumerate_metrics Hf.
  - skip_summary enumerate_dashboards Hf.
  - skip_summary enumerate_monitors Hf.
  - skip_summary enumerate_events Hf.
  - skip_summary enumerate_downtimes Hf.
  - skip_summary enumerate_slos Hf.
  - skip_summary enumerate_notebooks Hf.
  - skip_summary enumerate_synthetics Hf.
Qed.

(** X10: an accessible answer whose body is empty, or decodes to a value
    that counts as false ([{}], [[]], [null], [0], [false], an empty
    string), is skipped silently: each of the fourteen summarising
    reporters prints nothing after the probe's lines and returns. *)
Theorem empty_answers_are_skipped net tz w body :
  (forall req, probe_value (result_of (net (List.length (calls w)) req)) = (true, body)) ->
  truthy body = false ->
  forall R, In R (summarising_reporters net tz) ->
            fst (R w) = Ok tt /\ summary_of R w = [].
Proof.
  intros Hv Hf. apply Forall_forall. exact (empty_body_skipped net tz w body Hv Hf).
Qed.

(** Every request is answered with status 200 and no body. *)
Lemma empty_answers_are_skipped_witness :
  fst (enumerate_hosts (always (replied 200 "" (inl "no body"))) keyed_world) = Ok tt
  /\ summary_of (enumerate_hosts (always (replied 200 "" (inl "no body")))) keyed_world
     = [].
Proof.
  apply (empty_answers_are_skipped (always (replied 200 "" (inl "no body"))) utc keyed_world
           (VDict []) (fun _ => eq_refl) eq_refl).
  cbn. auto 10.
Defined.

(** X11: seven reporters cannot fail: whatever the network answers (any
    status, any body, any transport error), the service accounts, logs, APM,
    RUM, integrations, security and downtimes reporters return. *)
Theorem safe_reporters_never_raise net :
  forall R, In R (safe_reporters net) -> forall w, fst (R w) = Ok tt.
Proof.
  pose proof (safe_reporters_return net) as H. rewrite Forall_forall in H. exact H.
Qed.

(** No request resolves: the logs reporter still returns. *)
Lemma safe_reporters_never_raise_witness :
  In (enumerate_logs (always dns_failure)) (safe_reporters (always dns_failure))
  /\ fst (enumerate_logs (always dns_failure) keyed_world) = Ok tt.
Proof.
  assert (Hin : In (enumerate_logs (always dns_failure))
                   (safe_reporters (always dns_failure))).
  { unfold safe_reporters. right. left. reflexivity. }
  split; [exact Hin|].
  exact (safe_reporters_never_raise (always dns_failure) _ Hin keyed_world).
Defined.

(** ** A body of the wrong kind *)

(** X13: the monitors and downtimes reporters expect a JSON array: given an
    accessible answer of another kind (an object, a string, a number) they
    print nothing after the probe's lines and return. *)
Theorem non_list_body_is_ignored net w body :
  (forall req, probe_value (result_of (net (List.length (calls w)) req)) = (true, body)) ->
  isinstance_list body = false ->
  (fst (enumerate_monitors net w) = Ok tt /\ summary_of (enumerate_monitors net) w = [])
  /\ (fst (enumerate_downtimes net w) = Ok tt
      /\ summary_of (enumerate_downtimes net) w = []).
Proof.
  intros Hv Hn.
  pose proof (fun ep => Hv (probe_request w ep)) as Hv'.
  split.
  - summary_of_reporter enumerate_monitors.
    intros W. cbv beta iota. rewrite Hn. cbn [andb].
    destruct (truthy body); cbn [when]; unfold ret; now rewrite say_nil.
  - summary_of_reporter enumerate_downtimes.
    intros W. cbv beta iota. rewrite Hn. cbn [andb].
    destruct (truthy body); cbn [when]; unfold ret; now rewrite say_nil.
Qed.

(** An error object served with status 200. *)
Lemma non_list_body_is_ignored_witness :
  summary_of
    (enumerate_monitors
       (always (replied 200 "{...}" (inr (VDict [("errors", VList [VStr "oops"])])))))
    keyed_world
  = [].
Proof.
  exact (proj2 (proj1 (non_list_body_is_ignored
                         (always (replied 200 "{...}"
                                    (inr (VDict [("errors", VList [VStr "oops"])]))))
                         keyed_world (VDict [("errors", VList [VStr "oops"])])
                         (fun _ => eq_refl) eq_refl))).
Defined.

(** ** A run in which every answer is empty *)

(** X14: when the key validates and every answer is accessible but empty
    (status 200 with no body, or a body that counts as false), the run goes
    through: all 28 requests are sent, every header is printed, and [main]
    returns (status 0). *)
Theorem run_completes_on_empty_answers net tz environ now argv args body :
  fst (parse_args argv (module_init environ now)) = Ok args ->
  str_truthy (resolved_api_key environ argv) = true ->
  (forall n req, probe_value (result_of (net n req)) = (true, body)) ->
  truthy body = false ->
  exists w',
    run net tz environ now argv = (Ok tt, w')
    /\ titles w' = all_titles
    /\ List.length (calls w') = 28%nat.
Proof.
  intros Hp Hk Hv Hf. apply parsed_namespace in Hp.
  assert (Hrun : exists w', run net tz environ now argv = (Ok tt, w')).
  { apply (run_completes net tz environ now argv args Hp Hk).
    - unfold validation_passes. rewrite Hv.
      destruct body as [ | | | | | | [|kv d] ]; cbn in Hf |- *;
        try discriminate Hf; try (now rewrite Hf); reflexivity.
    - intros n req _. unfold nothing_to_report. rewrite Hv. cbn [fst snd].
      now rewrite Hf. }
  destruct Hrun as [w' Hw]. exists w'. split; [exact Hw|].
  destruct (run_ok_full _ _ _ _ _ _ Hw) as (tm & te & Hc & Ht).
  split; [exact Ht|]. rewrite Hc, length_map. reflexivity.
Qed.

(** Every request is answered with status 200 and no body. *)
Lemma run_completes_on_empty_answers_witness :
  exists w',
    run (always (replied 200 "" (inl "no body"))) utc [("DD_API_KEY", "k")]
        1700000000000000 (mkCommandLine None None None)
    = (Ok tt, w')
    /\ titles w' = all_titles
    /\ List.length (calls w') = 28%nat.
Proof.
  apply (run_completes_on_empty_answers (always (replied 200 "" (inl "no body"))) utc
           [("DD_API_KEY", "k")] 1700000000000000 (mkCommandLine None None None)
           (mkNamespace None None "us1") (VDict [])).
  - reflexivity.
  - reflexivity.
  - intros n req. reflexivity.
  - reflexivity.
Defined.
